(** * SDLC Studio front end: workspace state, REST client and stage panels

    A shallow embedding of the event handlers and of the REST client of the
    React front end, with the properties of the specification stated over
    them.  JavaScript objects used as dictionaries are finite maps, values
    that come from the network are JSON values, and an [async] handler is
    a function from the outcome of the call it awaits to the list of
    effects it performs. *)

From stdpp Require Import gmap strings list fin_maps pretty.

Set Warnings "-register-all".

(** ** JavaScript values *)

Module Js.

(** The numbers that are not integers: the double [m / 2^e] for an odd
    [m], the two infinities ([JSON.parse] gives one for [1e999]) and
    [NaN]. *)
Inductive nonint :=
| Frac (m : Z) (e : positive)
| Infinity (negative : bool)
| NaN.

(** Values as [JSON.parse] and the handlers produce them.  [Num] carries
    a number that is an integer (every integer below 2^53 in magnitude
    is a number, and of the larger ones those that a double holds; zero
    stands for both zeros) and [Float] any other number. *)
Inductive value :=
| Undefined
| Null
| Bool (b : bool)
| Num (n : Z)
| Float (x : nonint)
| Str (s : string)
| Arr (xs : list value)
| Obj (fields : list (string * value)).

(** An [Error] object: its [name] and its [message]. *)
Record error := Error { name : string; message : string }.

(** What an [await] settles to, and what an [async] function settles to. *)
Inductive outcome :=
| Resolved (v : value)
| Rejected (e : error).

(** [ToBoolean]. *)
Definition truthy (v : value) : bool :=
  match v with
  | Undefined | Null => false
  | Bool b => b
  | Num n => negb (n =? 0)%Z
  | Float (Frac m _) => negb (m =? 0)%Z
  | Float (Infinity _) => true
  | Float NaN => false
  | Str s => negb (String.eqb s "")
  | Arr _ | Obj _ => true
  end.

(** [a || b]. *)
Definition or_else (a b : value) : value := if truthy a then a else b.

Fixpoint assoc (k : string) (fields : list (string * value)) : value :=
  match fields with
  | [] => Undefined
  | (k', v) :: rest => if String.eqb k k' then v else assoc k rest
  end.

(** [v.k] for a [v] that is neither [null] nor [undefined]; of the
    built-in members only [length] is read by the modelled code (for a
    string it counts the units of ASCII text). *)
Definition member (v : value) (k : string) : value :=
  match v with
  | Obj fields => assoc k fields
  | Arr xs => if String.eqb k "length" then Num (Z.of_nat (length xs)) else Undefined
  | Str s => if String.eqb k "length" then Num (Z.of_nat (String.length s)) else Undefined
  | _ => Undefined
  end.

(** The [TypeError] of a property read on [null] or [undefined]. *)
Definition nullish_read (v : value) (k : string) : error :=
  Error "TypeError"
    ("Cannot read properties of " +:+
     (match v with Null => "null" | _ => "undefined" end) +:+
     " (reading '" +:+ k +:+ "')").

(** [v.k]. *)
Definition prop (v : value) (k : string) : error + value :=
  match v with
  | Undefined | Null => inl (nullish_read v k)
  | _ => inr (member v k)
  end.

(** [v?.k]. *)
Definition opt_prop (v : value) (k : string) : value :=
  match v with
  | Undefined | Null => Undefined
  | _ => member v k
  end.

Fixpoint join (sep : string) (parts : list string) : string :=
  match parts with
  | [] => ""
  | [p] => p
  | p :: rest => p +:+ sep +:+ join sep rest
  end.

(** *** [Number::toString]

    The text of a number in radix 10: the shortest digits that read back
    as the same double, laid out with or without an exponent.  A positive
    number is given as the fraction [a / 2^e]. *)

(** The [n] with [10^(n-1) <= a / b < 10^n]. *)
Fixpoint dec_exp_up (fuel : nat) (a b n : Z) : Z :=
  match fuel with
  | O => n
  | S fuel => if (a <? b * 10 ^ n)%Z then n else dec_exp_up fuel a b (n + 1)
  end.

Fixpoint dec_exp_down (fuel : nat) (a b n : Z) : Z :=
  match fuel with
  | O => n
  | S fuel => if (b <=? a * 10 ^ (1 - n))%Z then n else dec_exp_down fuel a b (n - 1)
  end.

Definition dec_exp (a b : Z) : Z :=
  if (b <=? a)%Z then dec_exp_up 400 a b 1 else dec_exp_down 400 a b 0.

(** [s * 10^t] compared with [c * 2^f]. *)
Definition compare_dec_bin (s t c f : Z) : comparison :=
  (s * 10 ^ Z.max t 0 * 2 ^ Z.max (- f) 0 ?= c * 2 ^ Z.max f 0 * 10 ^ Z.max (- t) 0)%Z.

(** Whether the decimal [s * 10^t] reads back as the double [a / 2^e]:
    it lies between the midpoints to the two neighbouring doubles, the
    midpoints included when the significand [M] is even. *)
Definition rounds_to (a e s t : Z) : bool :=
  let E := Z.max (Z.log2 a - e - 52) (-1074) in
  let M := if (0 <=? - e - E)%Z then (a * 2 ^ (- e - E))%Z else (a / 2 ^ (e + E))%Z in
  let lo := if (M =? 2 ^ 52)%Z && (-1074 <? E)%Z then (4 * M - 1)%Z else (4 * M - 2)%Z in
  let hi := (4 * M + 2)%Z in
  (match compare_dec_bin s t lo (E - 2) with
   | Gt => true
   | Eq => Z.even M
   | Lt => false
   end)
  && (match compare_dec_bin s t hi (E - 2) with
      | Lt => true
      | Eq => Z.even M
      | Gt => false
      end).

(** The least number [k] of digits for which some [s] of [k] digits has
    [s * 10^(n-k)] read back as the number, with that [s]; of two such
    [s] the closer one.  Seventeen digits always suffice for a double. *)
Fixpoint shortest (fuel : nat) (a e n k : Z) : Z * Z :=
  match fuel with
  | O => ((a / 2 ^ e)%Z, 0%Z)
  | S fuel =>
      let t := (n - k)%Z in
      let s := (a * 10 ^ Z.max (- t) 0 / (2 ^ e * 10 ^ Z.max t 0))%Z in
      match rounds_to a e s t, rounds_to a e (s + 1) t with
      | true, true =>
          match compare_dec_bin (2 * s + 1) t (2 * a) (- e) with
          | Gt => (s, t)
          | Lt => ((s + 1)%Z, t)
          | Eq => if Z.even s then (s, t) else ((s + 1)%Z, t)
          end
      | true, false => (s, t)
      | false, true => ((s + 1)%Z, t)
      | false, false => shortest fuel a e n (k + 1)
      end
  end.

Fixpoint strip_zeros (fuel : nat) (s t : Z) : Z * Z :=
  match fuel with
  | O => (s, t)
  | S fuel =>
      if (0 <? s)%Z && (s mod 10 =? 0)%Z then strip_zeros fuel (s / 10) (t + 1) else (s, t)
  end.

Fixpoint zeros (n : nat) : string :=
  match n with
  | O => ""
  | S n => "0" +:+ zeros n
  end.

(** The digits [D] of a number below [10^n] and not below [10^(n-1)],
    laid out: as an integer, with a point, with leading zeros, or with an
    exponent from [1e21] on and below [1e-6]. *)
Definition layout (D : string) (n : Z) : string :=
  let k := Z.of_nat (String.length D) in
  if (k <=? n)%Z && (n <=? 21)%Z then D +:+ zeros (Z.to_nat (n - k))
  else if (0 <? n)%Z && (n <=? 21)%Z
  then String.substring 0 (Z.to_nat n) D +:+ "." +:+
       String.substring (Z.to_nat n) (Z.to_nat (k - n)) D
  else if (-6 <? n)%Z && (n <=? 0)%Z then "0." +:+ zeros (Z.to_nat (- n)) +:+ D
  else (if (k =? 1)%Z then D
        else String.substring 0 1 D +:+ "." +:+ String.substring 1 (Z.to_nat (k - 1)) D)
       +:+ "e" +:+ (if (0 <? n - 1)%Z then "+" else "-") +:+ pretty (Z.abs (n - 1)).

(** The text of the positive number [a / 2^e]. *)
Definition positive_to_string (a e : Z) : string :=
  let '(s, t) := shortest 17 a e (dec_exp a (2 ^ e)) 1 in
  let '(s, t) := strip_zeros 400 s t in
  let D := pretty s in
  layout D (Z.of_nat (String.length D) + t).

(** The text of [m / 2^e]. *)
Definition fraction_to_string (m e : Z) : string :=
  if (m =? 0)%Z then "0"
  else (if (m <? 0)%Z then "-" else "") +:+ positive_to_string (Z.abs m) e.

Definition nonint_to_string (x : nonint) : string :=
  match x with
  | Frac m e => fraction_to_string m (Z.pos e)
  | Infinity false => "Infinity"
  | Infinity true => "-Infinity"
  | NaN => "NaN"
  end.

(** [String(v)] for the values that the handlers put into their own
    texts (ids, names, counts): an integer prints as its decimal digits,
    which is what JavaScript prints for the integers below 2^53 in
    magnitude, and an object prints as every plain object does.
    [ToString] below is the conversion in full. *)
Fixpoint to_string (v : value) : string :=
  match v with
  | Undefined => "undefined"
  | Null => "null"
  | Bool true => "true"
  | Bool false => "false"
  | Num n => pretty n
  | Float x => nonint_to_string x
  | Str s => s
  | Arr xs =>
      join ","
        ((fix items (l : list value) : list string :=
            match l with
            | [] => []
            | x :: r =>
                (match x with Undefined | Null => "" | _ => to_string x end)
                :: items r
            end) xs)
  | Obj _ => "[object Object]"
  end.

(** [hay.includes(needle)]. *)
Fixpoint includes (needle hay : string) : bool :=
  String.prefix needle hay ||
  match hay with
  | EmptyString => false
  | String _ rest => includes needle rest
  end.

(** Text typed by the user is a sequence of UTF-16 code units, so that
    [trim] sees the white space of the language and not only of ASCII. *)
Definition ustring := list N.

(** WhiteSpace and LineTerminator code points, all in the basic plane. *)
Definition is_white_space (c : N) : bool :=
  ((c =? 9) || (c =? 10) || (c =? 11) || (c =? 12) || (c =? 13)
   || (c =? 32) || (c =? 160) || (c =? 5760)
   || ((8192 <=? c) && (c <=? 8202))
   || (c =? 8232) || (c =? 8233) || (c =? 8239) || (c =? 8287)
   || (c =? 12288) || (c =? 65279))%N.

Fixpoint trim_start (s : ustring) : ustring :=
  match s with
  | [] => []
  | c :: rest => if is_white_space c then trim_start rest else s
  end.

Definition trim_end (s : ustring) : ustring := rev (trim_start (rev s)).

(** [s.trim()]. *)
Definition trim (s : ustring) : ustring := trim_end (trim_start s).

(** [s.includes(c)] for a one-unit pattern. *)
Definition includes_unit (c : N) (s : ustring) : bool := existsb (N.eqb c) s.

(** [s.split(c)] for a one-unit separator: never empty. *)
Fixpoint split (c : N) (s : ustring) : list ustring :=
  match s with
  | [] => [[]]
  | x :: rest =>
      if (x =? c)%N then [] :: split c rest
      else match split c rest with
           | [] => [[x]]
           | part :: parts => (x :: part) :: parts
           end
  end.

Definition slash : N := 47%N.

(** [l.indexOf(x)] for an array of strings, -1 when absent. *)
Fixpoint indexOf (l : list string) (x : string) : Z :=
  match l with
  | [] => -1
  | y :: rest =>
      if String.eqb y x then 0
      else let i := indexOf rest x in if (i <? 0)%Z then -1 else (i + 1)%Z
  end.

(** [v > 0] for a [v] that is a number or [undefined]. *)
Definition is_positive (v : value) : bool :=
  match v with
  | Num m | Float (Frac m _) => (0 <? m)%Z
  | Float (Infinity negative) => negb negative
  | _ => false
  end.

(** [v === n]. *)
Definition is_num (v : value) (n : Z) : bool :=
  match v with Num m => (m =? n)%Z | _ => false end.

(** The line feed, for the messages that contain one. *)
Definition newline : string :=
  String (Ascii.Ascii false true false true false false false false) EmptyString.

(** The own field [k] of an object, if it has one. *)
Fixpoint field (k : string) (fields : list (string * value)) : option value :=
  match fields with
  | [] => None
  | (k', v) :: rest => if String.eqb k k' then Some v else field k rest
  end.

(** [v === 'lit']. *)
Definition is_str (v : value) (lit : string) : bool :=
  match v with Str s => String.eqb s lit | _ => false end.

Fixpoint set_field (k : string) (v : value) (fields : list (string * value))
  : list (string * value) :=
  match fields with
  | [] => [(k, v)]
  | (k', v') :: rest =>
      if String.eqb k k' then (k, v) :: rest else (k', v') :: set_field k v rest
  end.

(** [{ ...base, k1: v1, ... }] for an object [base]. *)
Definition spread (base : value) (more : list (string * value)) : value :=
  Obj (fold_left (fun acc kv => set_field (fst kv) (snd kv) acc) more
         (match base with Obj fields => fields | _ => [] end)).

(** The [TypeError] of a conversion that finds no primitive value. *)
Definition no_primitive : error :=
  Error "TypeError" "Cannot convert object to primitive value".

(** [ToString] in full, as [new Error(v)] applies it; [None] when it
    throws, which it does with [no_primitive].  A number prints by
    [Number::toString].  An array joins the texts of its elements,
    [null] and [undefined] giving none.  An object is converted by its
    [toString]: the inherited one gives [[object Object]]; an own field
    of that name is not a function (no value of [JSON.parse] is one), and
    as [valueOf] yields no primitive either, the conversion throws. *)
Fixpoint ToString (v : value) : option string :=
  match v with
  | Undefined => Some "undefined"
  | Null => Some "null"
  | Bool true => Some "true"
  | Bool false => Some "false"
  | Num n => Some (fraction_to_string n 0)
  | Float x => Some (nonint_to_string x)
  | Str s => Some s
  | Arr xs =>
      match (fix items (l : list value) : option (list string) :=
               match l with
               | [] => Some []
               | x :: r =>
                   match (match x with
                          | Undefined | Null => Some ""
                          | _ => ToString x
                          end) with
                   | None => None
                   | Some t =>
                       match items r with
                       | None => None
                       | Some ts => Some (t :: ts)
                       end
                   end
               end) xs with
      | None => None
      | Some parts => Some (join "," parts)
      end
  | Obj fields =>
      match field "toString" fields with
      | Some _ => None
      | None => Some "[object Object]"
      end
  end.

(** The double quote, for the messages that contain one. *)
Definition dquote : string :=
  String (Ascii.Ascii false true false false false true false false) EmptyString.

End Js.

(** ** constants.js *)

Module Constants.

Module STAGES.
Definition DISCOVER := "discover".
Definition DEFINE := "define".
Definition DESIGN := "design".
Definition DEVELOP := "develop".
Definition TEST := "test".
Definition DEPLOY := "deploy".
Definition MAINTAIN := "maintain".
End STAGES.

(** "Stage order for navigation". *)
Definition STAGE_ORDER : list string :=
  [ STAGES.DISCOVER; STAGES.DEFINE; STAGES.DESIGN; STAGES.DEVELOP;
    STAGES.TEST; STAGES.DEPLOY; STAGES.MAINTAIN ].

End Constants.

(** ** StageIndicator.jsx *)

Module StageIndicator.

Record stage := Stage { id : string; name : string }.

Definition stages : list stage :=
  [ Stage "discover" "Discover";
    Stage "define" "Define";
    Stage "design" "Design";
    Stage "develop" "Develop";
    Stage "test" "Test";
    Stage "build" "Build";
    Stage "deploy" "deploy" ].

(** One entry of the [stageData] prop.  An entry made by spreading a
    missing one has a [status] and no [itemCount]. *)
Record StageInfo := { status : string; itemCount : option nat }.

(** [stageData[stageId]?.status || 'pending']. *)
Definition getStageStatus (stageData : gmap string StageInfo) (stageId : string) : string :=
  match stageData !! stageId with
  | Some info => if String.eqb (status info) "" then "pending" else status info
  | None => "pending"
  end.

(** [stageData[stageId]?.itemCount || 0]. *)
Definition getStageItemCount (stageData : gmap string StageInfo) (stageId : string) : nat :=
  match stageData !! stageId with
  | Some info => default 0 (itemCount info)
  | None => 0
  end.

End StageIndicator.

(** ** StageGatePanel.jsx *)

Module StageGatePanel.

Definition stageOrder : list string :=
  ["discover"; "define"; "design"; "develop"; "test"; "build"; "deploy"].

(** The constant [nextStage] of the panel, which its button hands to
    [onMoveNext]: [null], for which there is no button, after the last
    stage. *)
Definition nextStage (stage : string) : option string :=
  let currentIndex := Js.indexOf stageOrder stage in
  if (currentIndex <? Z.of_nat (length stageOrder) - 1)%Z
  then stageOrder !! Z.to_nat (currentIndex + 1)
  else None.

(** What the panel reads of an entry of [stageGateData]: of each item of
    the checklist whether it is completed, and the status of each
    approval. *)
Record gate := { checklist : list bool; approvals : list string }.

(** The seven entries are alike in this: four completed items and two
    approvals. *)
Definition reviewed : gate :=
  {| checklist := [true; true; true; true]; approvals := ["approved"; "approved"] |}.

Definition stageGateData : list (string * gate) :=
  [("discover", reviewed); ("define", reviewed); ("design", reviewed);
   ("develop", reviewed); ("test", reviewed); ("build", reviewed);
   ("deploy", reviewed)].

(** The names under which an object literal finds a member of
    [Object.prototype]: functions and, for [__proto__], the prototype
    itself, all truthy and none with a [checklist]. *)
Definition inherited : list string :=
  ["constructor"; "__defineGetter__"; "__defineSetter__"; "hasOwnProperty";
   "__lookupGetter__"; "__lookupSetter__"; "isPrototypeOf"; "propertyIsEnumerable";
   "toString"; "valueOf"; "__proto__"; "toLocaleString"].

Fixpoint own (stage : string) (data : list (string * gate)) : option gate :=
  match data with
  | [] => None
  | (k, d) :: rest => if String.eqb stage k then Some d else own stage rest
  end.

(** [(count / total) * 100 === 100] for the count of some items of a
    list of [total]: all of them, and not of an empty list, for which
    the quotient is [NaN]. *)
Definition complete (count total : nat) : bool :=
  (0 <? total)%nat && (count =? total)%nat.

Definition allPassed (data : gate) : bool :=
  complete (length (List.filter (fun completed => completed) (checklist data)))
    (length (checklist data))
  && complete (length (List.filter (fun status => String.eqb status "approved")
                         (approvals data)))
       (length (approvals data)).

(** What the component returns: nothing, or the panel, of which the
    button is kept: the stage it hands to [onMoveNext] (no button for
    [null]) and whether it is enabled. *)
Inductive rendering :=
| Nothing
| Panel (next : option string) (enabled : bool).

(** The component.  [stageGateData[stage] || stageGateData.discover] is
    the entry of the stage, for an inherited name the inherited member,
    and the entry of discover for any other name; with an inherited
    member [data.checklist] is [undefined], and the [filter] on it
    throws. *)
Definition render (stage : string) : Js.error + rendering :=
  if String.eqb stage "" then inr Nothing
  else
    let data :=
      match own stage stageGateData with
      | Some d => Some d
      | None =>
          if existsb (String.eqb stage) inherited then None
          else own "discover" stageGateData
      end in
    match data with
    | None => inl (Js.nullish_read Js.Undefined "filter")
    | Some d => inr (Panel (nextStage stage) (allPassed d))
    end.

End StageGatePanel.

(** ** pages/ProjectsPage.jsx *)

Module ProjectsPage.

Definition stages : list StageIndicator.stage :=
  [ StageIndicator.Stage "discover" "DISCOVER";
    StageIndicator.Stage "define" "DEFINE";
    StageIndicator.Stage "design" "DESIGN";
    StageIndicator.Stage "develop" "DEVELOP";
    StageIndicator.Stage "test" "TESTING (UAT)";
    StageIndicator.Stage "build" "BUILD";
    StageIndicator.Stage "deploy" "DEPLOY" ].

End ProjectsPage.

(** ** components/workspace/ProjectDashboard.jsx *)

Module ProjectDashboard.

(** The [stageOrder] local to [getProgressPercent]. *)
Definition stageOrder : list string :=
  ["discover"; "define"; "design"; "develop"; "testing"; "build"; "deploy"].

End ProjectDashboard.

(** ** services/api.js *)

Module ApiService.

(** The [options] of [request], which become the [config] of [fetch].  The
    body is kept as the object that the method hands to [JSON.stringify]. *)
Record RequestInit := {
  method : option string;
  headers : option (list (string * string));
  body : option Js.value
}.

Definition no_options : RequestInit :=
  {| method := None; headers := None; body := None |}.

(** One call [fetch(url, config)]. *)
Record FetchCall := { url : string; config : RequestInit }.


(** What the handler reads of a response: [status], the content-type
    header ([None] when absent), what [text()] settles to (the body, or
    the error with which reading it fails), and what [json()] settles to
    (the parsed body, the error of the read, or a [SyntaxError] when the
    body does not parse). *)
Record Response := {
  status : Z;
  content_type : option string;
  text : Js.error + string;
  json : Js.error + Js.value
}.

(** [response.ok]: the status is in the range 200-299. *)
Definition ok (r : Response) : bool :=
  ((200 <=? status r) && (status r <=? 299))%Z.

(** What [await fetch(...)] settles to. *)
Inductive fetched :=
| Failed (e : Js.error)
| Answered (r : Response).

(** [contentType && contentType.includes('application/json')]. *)
Definition is_json (r : Response) : bool :=
  match content_type r with
  | Some ct => negb (String.eqb ct "") && Js.includes "application/json" ct
  | None => false
  end.

(** [{ headers: {'Content-Type': ..., ...options.headers}, ...options }]:
    the spread of [options] comes last, so its own [headers] win whole. *)
Definition request_config (options : RequestInit) : RequestInit :=
  {| method := method options;
     headers := match headers options with
                | Some h => Some h
                | None => Some [("Content-Type", "application/json")]
                end;
     body := body options |}.

(** [data.detail || data.message || `HTTP error! status: ${status}`]. *)
Definition errorMessage (data : Js.value) (st : Z) : Js.error + Js.value :=
  match Js.prop data "detail" with
  | inl e => inl e
  | inr detail =>
      if Js.truthy detail then inr detail
      else match Js.prop data "message" with
           | inl e => inl e
           | inr msg =>
               inr (Js.or_else msg
                      (Js.Str ("HTTP error! status: " +:+ pretty st)))
           end
  end.

(** The body of the [try], after the response has arrived: [inl] is a
    throw, [inr] a return.  [new Error(errorMessage)] converts its
    argument to a string, which can throw in its turn. *)
Definition settle (r : Response) : Js.error + Js.value :=
  if is_json r then
    match json r with
    | inl e => inl e
    | inr data =>
        if negb (ok r) then
          match errorMessage data (status r) with
          | inl e => inl e
          | inr m =>
              match Js.ToString m with
              | None => inl Js.no_primitive
              | Some msg => inl (Js.Error "Error" msg)
              end
          end
        else inr data
    end
  else
    match text r with
    | inl e => inl e
    | inr body => inr (Js.Obj [("message", Js.Str body); ("status", Js.Num (status r))])
    end.

(** The [catch]: a failed fetch is reworded, anything else is rethrown. *)
Definition rethrow (baseURL : string) (e : Js.error) : Js.error :=
  if String.eqb (Js.name e) "TypeError"
     && String.eqb (Js.message e) "Failed to fetch"
  then Js.Error "Error"
         ("Cannot connect to server. Is the backend running on "
          +:+ baseURL +:+ "?")
  else e.

(** What [request] makes of the outcome of its fetch. *)
Definition respond (baseURL : string) (net : fetched) : Js.outcome :=
  match match net with Failed e => inl e | Answered r => settle r end with
  | inl e => Js.Rejected (rethrow baseURL e)
  | inr v => Js.Resolved v
  end.

(** [request(endpoint, options)]: the fetch it issues, and what the
    promise it returns settles to for each outcome of that fetch. *)
Definition request (baseURL endpoint : string) (options : RequestInit)
  : FetchCall * (fetched -> Js.outcome) :=
  ({| url := baseURL +:+ endpoint; config := request_config options |},
   respond baseURL).

Definition post (payload : Js.value) : RequestInit :=
  {| method := Some "POST"; headers := None; body := Some payload |}.

(** [generateDiscover(projectId, userIdea = null, createdBy = 'user')]. *)
Definition generateDiscover (baseURL : string) (projectId userIdea createdBy : Js.value) :=
  request baseURL "/api/stages/discover/generate"
    (post (Js.Obj [("project_id", projectId);
                   ("user_idea", match userIdea with Js.Undefined => Js.Null | v => v end);
                   ("created_by", match createdBy with Js.Undefined => Js.Str "user" | v => v end)])).

(** [implementTicket(projectId, ticketKey, createdBy = 'user')]. *)
Definition implementTicket (baseURL : string) (projectId ticketKey createdBy : Js.value) :=
  request baseURL "/api/stages/develop/implement"
    (post (Js.Obj [("project_id", projectId);
                   ("ticket_key", ticketKey);
                   ("created_by", match createdBy with Js.Undefined => Js.Str "user" | v => v end)])).


(** [getChatHistory(projectId, stage, limit = 50)]. *)
Definition getChatHistory (baseURL : string) (projectId stage limit : Js.value) :=
  request baseURL
    ("/api/chat/" +:+ Js.to_string projectId +:+ "/" +:+ Js.to_string stage
     +:+ "/history?limit="
     +:+ Js.to_string (match limit with Js.Undefined => Js.Num 50 | v => v end))
    no_options.


(** [saveGitHubConfig(projectId, config)]. *)
Definition saveGitHubConfig (baseURL : string) (projectId cfg : Js.value) :=
  request baseURL
    ("/api/github/projects/" +:+ Js.to_string projectId +:+ "/config")
    (post cfg).

(** [getGitHubConfig(projectId)]. *)
Definition getGitHubConfig (baseURL : string) (projectId : Js.value) :=
  request baseURL
    ("/api/github/projects/" +:+ Js.to_string projectId +:+ "/config")
    no_options.

End ApiService.

(** ** pages/WorkspaceView.jsx *)

Module WorkspaceView.

Import StageIndicator.

Record ChatMessage := {
  msg_id : Z;
  author : string;
  content : string;
  time : string;
  isAI : bool
}.

(** The component state that the modelled handlers read or write. *)
Record state := {
  showGitHubModal : bool;
  gitHubConfig : Js.value;
  isCheckingGitHub : bool;
  activeTab : string;
  selectedFile : Js.value;
  fileContent : Js.value;
  currentStage : string;
  viewingStage : string;
  developTickets : Js.value;
  selectedTicket : Js.value;
  artifacts : gmap string (list Js.value);
  stageData : gmap string StageInfo;
  chatMessages : list ChatMessage
}.

(** The setters of [useState], one per field. *)
Definition setShowGitHubModal (x : bool) (st : state) : state :=
  {| showGitHubModal := x;
     gitHubConfig := gitHubConfig st;
     isCheckingGitHub := isCheckingGitHub st;
     activeTab := activeTab st;
     selectedFile := selectedFile st;
     fileContent := fileContent st;
     currentStage := currentStage st;
     viewingStage := viewingStage st;
     developTickets := developTickets st;
     selectedTicket := selectedTicket st;
     artifacts := artifacts st;
     stageData := stageData st;
     chatMessages := chatMessages st |}.

Definition setGitHubConfig (x : Js.value) (st : state) : state :=
  {| showGitHubModal := showGitHubModal st;
     gitHubConfig := x;
     isCheckingGitHub := isCheckingGitHub st;
     activeTab := activeTab st;
     selectedFile := selectedFile st;
     fileContent := fileContent st;
     currentStage := currentStage st;
     viewingStage := viewingStage st;
     developTickets := developTickets st;
     selectedTicket := selectedTicket st;
     artifacts := artifacts st;
     stageData := stageData st;
     chatMessages := chatMessages st |}.

Definition setIsCheckingGitHub (x : bool) (st : state) : state :=
  {| showGitHubModal := showGitHubModal st;
     gitHubConfig := gitHubConfig st;
     isCheckingGitHub := x;
     activeTab := activeTab st;
     selectedFile := selectedFile st;
     fileContent := fileContent st;
     currentStage := currentStage st;
     viewingStage := viewingStage st;
     developTickets := developTickets st;
     selectedTicket := selectedTicket st;
     artifacts := artifacts st;
     stageData := stageData st;
     chatMessages := chatMessages st |}.

Definition setActiveTab (x : string) (st : state) : state :=
  {| showGitHubModal := showGitHubModal st;
     gitHubConfig := gitHubConfig st;
     isCheckingGitHub := isCheckingGitHub st;
     activeTab := x;
     selectedFile := selectedFile st;
     fileContent := fileContent st;
     currentStage := currentStage st;
     viewingStage := viewingStage st;
     developTickets := developTickets st;
     selectedTicket := selectedTicket st;
     artifacts := artifacts st;
     stageData := stageData st;
     chatMessages := chatMessages st |}.

Definition setSelectedFile (x : Js.value) (st : state) : state :=
  {| showGitHubModal := showGitHubModal st;
     gitHubConfig := gitHubConfig st;
     isCheckingGitHub := isCheckingGitHub st;
     activeTab := activeTab st;
     selectedFile := x;
     fileContent := fileContent st;
     currentStage := currentStage st;
     viewingStage := viewingStage st;
     developTickets := developTickets st;
     selectedTicket := selectedTicket st;
     artifacts := artifacts st;
     stageData := stageData st;
     chatMessages := chatMessages st |}.

Definition setFileContent (x : Js.value) (st : state) : state :=
  {| showGitHubModal := showGitHubModal st;
     gitHubConfig := gitHubConfig st;
     isCheckingGitHub := isCheckingGitHub st;
     activeTab := activeTab st;
     selectedFile := selectedFile st;
     fileContent := x;
     currentStage := currentStage st;
     viewingStage := viewingStage st;
     developTickets := developTickets st;
     selectedTicket := selectedTicket st;
     artifacts := artifacts st;
     stageData := stageData st;
     chatMessages := chatMessages st |}.

Definition setCurrentStage (x : string) (st : state) : state :=
  {| showGitHubModal := showGitHubModal st;
     gitHubConfig := gitHubConfig st;
     isCheckingGitHub := isCheckingGitHub st;
     activeTab := activeTab st;
     selectedFile := selectedFile st;
     fileContent := fileContent st;
     currentStage := x;
     viewingStage := viewingStage st;
     developTickets := developTickets st;
     selectedTicket := selectedTicket st;
     artifacts := artifacts st;
     stageData := stageData st;
     chatMessages := chatMessages st |}.

Definition setViewingStage (x : string) (st : state) : state :=
  {| showGitHubModal := showGitHubModal st;
     gitHubConfig := gitHubConfig st;
     isCheckingGitHub := isCheckingGitHub st;
     activeTab := activeTab st;
     selectedFile := selectedFile st;
     fileContent := fileContent st;
     currentStage := currentStage st;
     viewingStage := x;
     developTickets := developTickets st;
     selectedTicket := selectedTicket st;
     artifacts := artifacts st;
     stageData := stageData st;
     chatMessages := chatMessages st |}.

Definition setDevelopTickets (x : Js.value) (st : state) : state :=
  {| showGitHubModal := showGitHubModal st;
     gitHubConfig := gitHubConfig st;
     isCheckingGitHub := isCheckingGitHub st;
     activeTab := activeTab st;
     selectedFile := selectedFile st;
     fileContent := fileContent st;
     currentStage := currentStage st;
     viewingStage := viewingStage st;
     developTickets := x;
     selectedTicket := selectedTicket st;
     artifacts := artifacts st;
     stageData := stageData st;
     chatMessages := chatMessages st |}.

Definition setSelectedTicket (x : Js.value) (st : state) : state :=
  {| showGitHubModal := showGitHubModal st;
     gitHubConfig := gitHubConfig st;
     isCheckingGitHub := isCheckingGitHub st;
     activeTab := activeTab st;
     selectedFile := selectedFile st;
     fileContent := fileContent st;
     currentStage := currentStage st;
     viewingStage := viewingStage st;
     developTickets := developTickets st;
     selectedTicket := x;
     artifacts := artifacts st;
     stageData := stageData st;
     chatMessages := chatMessages st |}.

Definition setArtifacts (x : gmap string (list Js.value)) (st : state) : state :=
  {| showGitHubModal := showGitHubModal st;
     gitHubConfig := gitHubConfig st;
     isCheckingGitHub := isCheckingGitHub st;
     activeTab := activeTab st;
     selectedFile := selectedFile st;
     fileContent := fileContent st;
     currentStage := currentStage st;
     viewingStage := viewingStage st;
     developTickets := developTickets st;
     selectedTicket := selectedTicket st;
     artifacts := x;
     stageData := stageData st;
     chatMessages := chatMessages st |}.

Definition setStageData (x : gmap string StageInfo) (st : state) : state :=
  {| showGitHubModal := showGitHubModal st;
     gitHubConfig := gitHubConfig st;
     isCheckingGitHub := isCheckingGitHub st;
     activeTab := activeTab st;
     selectedFile := selectedFile st;
     fileContent := fileContent st;
     currentStage := currentStage st;
     viewingStage := viewingStage st;
     developTickets := developTickets st;
     selectedTicket := selectedTicket st;
     artifacts := artifacts st;
     stageData := x;
     chatMessages := chatMessages st |}.

Definition setChatMessages (x : list ChatMessage) (st : state) : state :=
  {| showGitHubModal := showGitHubModal st;
     gitHubConfig := gitHubConfig st;
     isCheckingGitHub := isCheckingGitHub st;
     activeTab := activeTab st;
     selectedFile := selectedFile st;
     fileContent := fileContent st;
     currentStage := currentStage st;
     viewingStage := viewingStage st;
     developTickets := developTickets st;
     selectedTicket := selectedTicket st;
     artifacts := artifacts st;
     stageData := stageData st;
     chatMessages := x |}.

(** [setX(prev => f(prev))] for the three fields updated that way. *)
Definition updArtifacts (f : gmap string (list Js.value) -> gmap string (list Js.value)) (st : state) : state :=
  setArtifacts (f (artifacts st)) st.

Definition updStageData (f : gmap string StageInfo -> gmap string StageInfo) (st : state) : state :=
  setStageData (f (stageData st)) st.

Definition updChatMessages (f : list ChatMessage -> list ChatMessage) (st : state) : state :=
  setChatMessages (f (chatMessages st)) st.

(** What the handlers read of the clock: [Date.now()] and
    [new Date().toLocaleString()]. *)
Record clock := { now : Z; localeString : string }.

Definition info (s : string) (n : nat) : StageInfo :=
  {| status := s; itemCount := Some n |}.

(** The state of a freshly mounted workspace. *)
Definition initial : state :=
  {| showGitHubModal := false;
     gitHubConfig := Js.Null;
     isCheckingGitHub := false;
     activeTab := "workspace";
     selectedFile := Js.Null;
     fileContent := Js.Str "";
     currentStage := "discover";
     viewingStage := "discover";
     developTickets := Js.Null;
     selectedTicket := Js.Null;
     artifacts :=
       <["discover" := []]> (<["define" := []]> (<["design" := []]>
       (<["develop" := []]> (<["test" := []]> (<["build" := []]>
       (<["deploy" := []]> ∅))))));
     stageData :=
       <["discover" := info "active" 0]> (<["define" := info "pending" 0]>
       (<["design" := info "pending" 0]> (<["develop" := info "pending" 0]>
       (<["test" := info "pending" 0]> (<["build" := info "pending" 0]>
       (<["deploy" := info "pending" 0]> ∅))))));
     chatMessages :=
       [ {| msg_id := 1; author := "System";
            content := "Welcome to SDLC Studio!";
            time := "Just now"; isAI := true |} ] |}.

(** [toLowerCase] on the letters A-Z; other units are kept. *)
Definition lower_ascii (c : Ascii.ascii) : Ascii.ascii :=
  let n := Ascii.nat_of_ascii c in
  if (65 <=? n)%nat && (n <=? 90)%nat then Ascii.ascii_of_nat (n + 32) else c.

Fixpoint toLowerCase (s : string) : string :=
  match s with
  | EmptyString => EmptyString
  | String c rest => String (lower_ascii c) (toLowerCase rest)
  end.

(** The [stages] array local to [updateStageData]. *)
Definition updateStageData_stages : list string :=
  ["discover"; "define"; "design"; "develop"; "test"; "build"; "deploy"].

(** The [stages] array local to [getProjectFiles]. *)
Definition getProjectFiles_stages : list string :=
  ["discover"; "define"; "design"; "develop"; "test"; "build"; "deploy"].

(** The [stages] array local to [isStageAccessible]. *)
Definition isStageAccessible_stages : list string :=
  ["discover"; "define"; "design"; "develop"; "test"; "build"; "deploy"].

(** The [stages] array local to [getPreviousStageArtifacts]. *)
Definition getPreviousStageArtifacts_stages : list string :=
  ["discover"; "define"; "design"; "develop"; "test"; "build"; "deploy"].

Definition isStageAccessible (st : state) (stageId : string) : bool :=
  (Js.indexOf isStageAccessible_stages stageId
   <=? Js.indexOf isStageAccessible_stages (toLowerCase (currentStage st)))%Z.

(** [updateStageData(artifactsData, currentStg)]: the new [stageData]. *)
Definition updateStageData (artifactsData : gmap string (list Js.value))
    (currentStg : string) : gmap string StageInfo :=
  let currentIndex := Js.indexOf updateStageData_stages (toLowerCase currentStg) in
  (fix each (l : list string) (index : Z) (newStageData : gmap string StageInfo) :=
     match l with
     | [] => newStageData
     | stage :: rest =>
         let count := match artifactsData !! stage with
                      | Some l => length l
                      | None => 0
                      end in
         let st :=
           if (index <? currentIndex)%Z then "passed"
           else if (index =? currentIndex)%Z
                then if (0 <? count)%nat then "passed" else "active"
                else "pending" in
         each rest (index + 1)%Z (<[stage := info st count]> newStageData)
     end) updateStageData_stages 0%Z ∅.

(** An entry of [newArtifacts], built from a part of the result that is
    known to be truthy. *)
Definition artifact (part name : Js.value) (created_by stage : string) : Js.value :=
  Js.Obj [("artifact_id", Js.member part "artifact_id");
          ("name", name);
          ("content", Js.member part "content");
          ("created_at", Js.member part "created_at");
          ("created_by", Js.Str created_by);
          ("stage", Js.Str stage)].

(** The argument of [setSelectedFile] in the same branches. *)
Definition selected (clk : clock) (part name : Js.value) (edited_by : string) : Js.value :=
  Js.Obj [("id", Js.member part "artifact_id");
          ("name", name);
          ("content", Js.member part "content");
          ("lastEditedBy", Js.Str edited_by);
          ("lastEditedTime", Js.Str (localeString clk))].

(** [handleGenerationComplete(result)]: the state after the handler, or
    the error it throws before any update when [result] has no members. *)
Definition handleGenerationComplete (clk : clock) (result : Js.value) (st : state)
  : Js.error + state :=
  match Js.prop result "stage" with
  | inl e => inl e
  | inr stage =>
    let tickets := Js.member result "tickets" in
    let problem_statement := Js.member result "problem_statement" in
    let stakeholder_analysis := Js.member result "stakeholder_analysis" in
    let brd := Js.member result "brd" in
    let user_stories := Js.member result "user_stories" in
    let architecture := Js.member result "architecture" in
    if Js.is_str stage "develop" || Js.truthy tickets then
      inr (updChatMessages (fun prev => app prev
             [ {| msg_id := now clk; author := "AI";
                  content :=
                    "✅ Generated "
                    +:+ Js.to_string (Js.or_else (Js.opt_prop tickets "length") (Js.Num 0))
                    +:+ " development tickets!";
                  time := "Just now"; isAI := true |} ])
          (setDevelopTickets
             (Js.Obj [("tickets", tickets);
                      ("summary", Js.member result "summary");
                      ("artifact_id", Js.member result "artifact_id")]) st))
    else if Js.truthy problem_statement && Js.truthy stakeholder_analysis then
      let newArtifacts :=
        [ artifact problem_statement (Js.Str "Problem Statement") "AI Business Analyst" "discover";
          artifact stakeholder_analysis (Js.Str "Stakeholder Analysis") "AI Business Analyst" "discover" ] in
      inr (setFileContent (Js.member problem_statement "content")
          (setSelectedFile (selected clk problem_statement (Js.Str "Problem Statement") "AI Business Analyst")
          (setCurrentStage "define"
          (updStageData (fun prev =>
             <["define" := info "active" 0]> (<["discover" := info "passed" 2]> prev))
          (updArtifacts (fun prev => <["discover" := newArtifacts]> prev) st)))))
    else if Js.truthy brd && Js.truthy user_stories then
      let newArtifacts :=
        [ artifact brd (Js.Str "Business Requirements Document") "AI Technical Writer" "define";
          artifact user_stories (Js.Str "User Stories") "AI Technical Writer" "define" ] in
      inr (setFileContent (Js.member brd "content")
          (setSelectedFile (selected clk brd (Js.Str "Business Requirements Document") "AI Technical Writer")
          (setCurrentStage "design"
          (updStageData (fun prev =>
             <["design" := info "active" 0]> (<["define" := info "passed" 2]> prev))
          (updArtifacts (fun prev => <["define" := newArtifacts]> prev) st)))))
    else if Js.truthy architecture then
      let name := Js.or_else (Js.member architecture "name")
                    (Js.Str "Solution Architecture Document") in
      let newArtifacts := [ artifact architecture name "AI Solution Architect" "design" ] in
      inr (setFileContent (Js.member architecture "content")
          (setSelectedFile (selected clk architecture name "AI Solution Architect")
          (setCurrentStage "develop"
          (updStageData (fun prev =>
             <["develop" := info "active" 0]> (<["design" := info "passed" 1]> prev))
          (updArtifacts (fun prev => <["design" := newArtifacts]> prev) st)))))
    else inr st
  end.

(** [{ ...entry, status: s }], where spreading a missing entry adds nothing. *)
Definition with_status (entry : option StageInfo) (s : string) : StageInfo :=
  {| status := s; itemCount := entry ≫= itemCount |}.

(** [handleMoveToNextStage(nextStage)].  The [currentStage] that the
    updater closes over is the one of the render that made the handler. *)
Definition handleMoveToNextStage (nextStage : string) (st : state) : state :=
  updStageData (fun prev =>
      let newData := prev in
      let newData := <[currentStage st := with_status (newData !! currentStage st) "passed"]> newData in
      let newData := <[nextStage := with_status (newData !! nextStage) "active"]> newData in
      newData)
    (setActiveTab "workspace"
    (setViewingStage nextStage
    (setCurrentStage nextStage st))).

(** [handleStageClick(stageId)]. *)
Definition handleStageClick (stageId : string) (st : state) : state :=
  setSelectedTicket Js.Null
    (setFileContent (Js.Str "")
    (setSelectedFile Js.Null
    (setViewingStage stageId st))).

(** [checkGitHubConfig()], given what [api.getGitHubConfig] settles to:
    the state once it has run, and the value it resolves to. *)
Definition checkGitHubConfig (projectId : Js.value) (reply : Js.outcome) (st : state)
  : state * Js.value :=
  if negb (Js.truthy projectId) then (st, Js.Undefined)
  else
    let st := setIsCheckingGitHub true st in
    match reply with
    | Js.Resolved config =>
        (setIsCheckingGitHub false (setGitHubConfig config st), config)
    | Js.Rejected _ =>
        let unconfigured := Js.Obj [("is_configured", Js.Bool false)] in
        (setIsCheckingGitHub false (setGitHubConfig unconfigured st), unconfigured)
    end.

(** The effect that runs when [viewingStage] changes. *)
Definition onViewingStage (projectId : Js.value) (reply : Js.outcome) (st : state) : state :=
  if String.eqb (viewingStage st) "develop" then
    let '(st', config) := checkGitHubConfig projectId reply st in
    if negb (Js.truthy (Js.opt_prop config "is_configured"))
    then setShowGitHubModal true st'
    else st'
  else st.

(** [handleGitHubConfigSuccess(data)]: it throws, before any update, when
    the modal passes a [data] without members. *)
Definition handleGitHubConfigSuccess (clk : clock) (data : Js.value) (st : state)
  : Js.error + state :=
  match Js.prop data "repo" with
  | inl e => inl e
  | inr repo =>
      inr (updChatMessages (fun prev => app prev
             [ {| msg_id := now clk; author := "System";
                  content := "✅ GitHub connected to **"
                             +:+ Js.to_string repo +:+ "**";
                  time := "Just now"; isAI := true |} ])
          (setShowGitHubModal false
          (setGitHubConfig
             (Js.Obj [("is_configured", Js.Bool true);
                      ("github_repo", repo);
                      ("default_branch", Js.member data "default_branch")]) st)))
  end.

End WorkspaceView.

(** ** components/project/TicketList.jsx *)

Module TicketList.

(** [ticket.status || 'todo']. *)
Definition currentStatus (ticket : Js.value) : Js.value :=
  Js.or_else (Js.member ticket "status") (Js.Str "todo").

Definition canImplement (ticket : Js.value) (isImplementing : bool) : bool :=
  Js.is_str (currentStatus ticket) "todo" && negb isImplementing.

(** [handleImplementClick]: whether it calls [onImplement(ticket)]. *)
Definition handleImplementClick (ticket : Js.value) (isImplementing onImplement : bool) : bool :=
  canImplement ticket isImplementing && onImplement.

(** The cards of the list, for the two filters of its own state and
    tickets that all have members; [TicketCounts.filteredTickets] is the
    filter with its throw. *)
Definition filteredTickets (filter typeFilter : string) (tickets : list Js.value)
  : list Js.value :=
  List.filter (fun t =>
      let ticketStatus := currentStatus t in
      let statusMatch := String.eqb filter "all" || Js.is_str ticketStatus filter in
      let typeMatch := String.eqb typeFilter "all" || Js.is_str (Js.member t "type") typeFilter in
      statusMatch && typeMatch) tickets.

End TicketList.

(** ** components/stages/DevelopStagePanel.jsx *)

Module DevelopStagePanel.

Record props := {
  projectId : Js.value;
  githubConfig : Js.value;
  onTicketSelect : bool;
  onOpenGitHubModal : bool
}.

Record state := {
  tickets : Js.value;
  isLoadingTickets : bool;
  isImplementing : bool;
  implementingKey : Js.value;
  filter : string;
  typeFilter : string
}.

Inductive effect :=
| SetIsLoadingTickets (b : bool)
| SetTickets (ts : Js.value)
| SetSummary (v : Js.value)
| SetIsImplementing (b : bool)
| SetImplementingKey (k : Js.value)
| MarkInProgress (key result : Js.value)
| CallGetDevelopTickets (projectId : Js.value)
| CallImplementTicket (projectId ticketKey createdBy : Js.value)
| OnTicketSelect (ticket : Js.value)
| OnOpenGitHubModal
| Alert (msg : string)
| ConsoleLog
| ConsoleError.

(** [githubConfig?.is_configured || false]. *)
Definition isConfigured (p : props) : Js.value :=
  Js.or_else (Js.opt_prop (githubConfig p) "is_configured") (Js.Bool false).

(** The three alternatives of the tickets section. *)
Inductive section := ConnectPrompt | NoTicketsYet | Tickets.

Definition ticketsSection (p : props) (st : state) : section :=
  if negb (Js.truthy (isConfigured p)) then ConnectPrompt
  else if Js.is_num (Js.member (tickets st) "length") 0
       then NoTicketsYet
       else Tickets.

(** The cards that a rendered [TicketList] shows. *)
Definition cards (st : state) : list Js.value :=
  match tickets st with
  | Js.Arr ts => TicketList.filteredTickets (filter st) (typeFilter st) ts
  | _ => []
  end.

(** [loadTickets()], given what [api.getDevelopTickets] settles to. *)
Definition loadTickets (p : props) (reply : Js.outcome) : list effect :=
  [SetIsLoadingTickets true; CallGetDevelopTickets (projectId p)]
  ++ match reply with
     | Js.Resolved result =>
         match Js.prop result "status" with
         | inl _ => [ConsoleError]
         | inr st =>
             if Js.is_str st "success"
             then [SetTickets (Js.or_else (Js.member result "tickets") (Js.Arr []));
                   SetSummary (Js.or_else (Js.member result "summary") (Js.Obj []))]
             else []
         end
     | Js.Rejected _ => [ConsoleError]
     end
  ++ [SetIsLoadingTickets false].

(** The text of the success alert; reading it throws when the result or
    its [files_created] has no members. *)
Definition successAlert (result : Js.value) : Js.error + string :=
  match Js.prop result "pr_number" with
  | inl e => inl e
  | inr pr_number =>
      match Js.prop (Js.member result "files_created") "length" with
      | inl e => inl e
      | inr n =>
          inr ("Implementation created!" +:+ Js.newline +:+ Js.newline
               +:+ "PR #" +:+ Js.to_string pr_number
               +:+ ": " +:+ Js.to_string (Js.member result "pr_url")
               +:+ Js.newline +:+ Js.newline
               +:+ "Files created: " +:+ Js.to_string n)
      end
  end.

Definition failed (e : Js.error) : list effect :=
  [ConsoleError; Alert ("Implementation failed: " +:+ Js.message e)].

(** [handleImplementTicket(ticket)], given what [api.implementTicket]
    settles to. *)
Definition handleImplementTicket (p : props) (ticket : Js.value) (reply : Js.outcome)
  : list effect :=
  let key := Js.member ticket "key" in
  [SetIsImplementing true; SetImplementingKey key;
   CallImplementTicket (projectId p) key (Js.Str "user")]
  ++ match reply with
     | Js.Resolved result =>
         [ConsoleLog; MarkInProgress key result]
         ++ (if onTicketSelect p
             then [OnTicketSelect
                     (Js.spread ticket [("status", Js.Str "in_progress");
                                        ("implementation", result)])]
             else [])
         ++ match successAlert result with
            | inl e => failed e
            | inr msg => [Alert msg]
            end
     | Js.Rejected e => failed e
     end
  ++ [SetIsImplementing false; SetImplementingKey Js.Null].

(** What the user, or React on mount, can do to the panel. *)
Inductive action :=
| Mount
| ClickSettings
| ClickConnectGitHub
| ClickConnectRepository
| ClickImplement (card : nat)
| ClickRefresh.

Definition openModal (p : props) : list effect :=
  if onOpenGitHubModal p then [OnOpenGitHubModal] else [].

(** The effects of an action on the panel as it is rendered for [p] and
    [st]: a control that the render does not contain cannot be clicked.
    [reply] is what the API call of the action, if any, settles to.  A
    card lets the click on its button through whether or not the card is
    expanded and the button enabled, which the page does not always do. *)
Definition perform (p : props) (st : state) (a : action) (reply : Js.outcome)
  : list effect :=
  let configured := Js.truthy (isConfigured p) in
  match a with
  | Mount => loadTickets p reply
  | ClickSettings => if configured then openModal p else []
  | ClickConnectGitHub => if configured then [] else openModal p
  | ClickConnectRepository =>
      match ticketsSection p st with
      | ConnectPrompt => openModal p
      | _ => []
      end
  | ClickImplement card =>
      match ticketsSection p st with
      | Tickets =>
          match cards st !! card with
          | Some ticket =>
              ConsoleLog ::
              (if TicketList.handleImplementClick ticket (isImplementing st) true
               then ConsoleLog :: handleImplementTicket p ticket reply
               else [])
          | None => []
          end
      | _ => []
      end
  | ClickRefresh =>
      if configured && Js.is_positive (Js.member (tickets st) "length")
      then loadTickets p reply
      else []
  end.

(** Whether an effect is a call of [api.implementTicket]. *)
Definition is_implement_call (e : effect) : bool :=
  match e with CallImplementTicket _ _ _ => true | _ => false end.

(** One interaction with the panel: the props and state it is rendered
    for, what is done to it, and what the call it makes settles to. *)
Record step := {
  step_props : props;
  step_state : state;
  step_action : action;
  step_reply : Js.outcome
}.

(** The effects of a run of interactions, in order. *)
Definition session (steps : list step) : list effect :=
  concat (map (fun s => perform (step_props s) (step_state s) (step_action s)
                          (step_reply s)) steps).

End DevelopStagePanel.

(** ** components/workspace/DiscoverInputPanel.jsx *)

Module DiscoverInputPanel.

Inductive effect :=
| SetIsGenerating (b : bool)
| SetError (e : option string)
| SetGenerationStep (n : nat)
| Sleep (ms : nat)
| CallGenerateDiscover (projectId : Js.value) (userIdea : Js.ustring) (createdBy : string)
| OnGenerationComplete (result : Js.value)
| ConsoleError.

(** [onGenerationComplete] is absent, or a callback that returns or throws. *)
Record props := {
  projectId : Js.value;
  isGenerating : bool;
  onGenerationComplete : option (Js.value -> option Js.error)
}.

(** The [catch]: [setError(err.message || 'Generation failed. ...')]. *)
Definition caught (err : Js.error) : list effect :=
  [ConsoleError;
   SetError (Some (if String.eqb (Js.message err) ""
                   then "Generation failed. Please try again."
                   else Js.message err))].

(** [handleGenerate()], given what [api.generateDiscover] settles to. *)
Definition handleGenerate (p : props) (userIdea : Js.ustring) (reply : Js.outcome)
  : list effect :=
  match Js.trim userIdea, isGenerating p with
  | _ :: _, false =>
      [SetIsGenerating true; SetError None; SetGenerationStep 0;
       Sleep 500; SetGenerationStep 1;
       CallGenerateDiscover (projectId p) userIdea "demo_user"]
      ++ match reply with
         | Js.Resolved result =>
             [SetGenerationStep 2; Sleep 500; SetGenerationStep 3]
             ++ match onGenerationComplete p with
                | Some callback =>
                    OnGenerationComplete result ::
                    match callback result with
                    | Some err => caught err
                    | None => []
                    end
                | None => []
                end
         | Js.Rejected err => caught err
         end
      ++ [SetIsGenerating false]
  | _, _ => []
  end.

(** The state of the parent that the setters passed as props write. *)
Record parent := {
  generating : bool;
  error : option string;
  generationStep : nat
}.

Definition apply (ps : parent) (e : effect) : parent :=
  match e with
  | SetIsGenerating b =>
      {| generating := b; error := error ps; generationStep := generationStep ps |}
  | SetError err =>
      {| generating := generating ps; error := err; generationStep := generationStep ps |}
  | SetGenerationStep n =>
      {| generating := generating ps; error := error ps; generationStep := n |}
  | _ => ps
  end.

Definition run (ps : parent) (effects : list effect) : parent :=
  fold_left apply effects ps.

(** The workspace after the effects, when [onGenerationComplete] is the
    [handleGenerationComplete] of the workspace (the handler that
    [WorkspaceView] hands to its [AISpecialist]). *)
Definition deliver (clk : WorkspaceView.clock) (ws : WorkspaceView.state)
    (effects : list effect) : WorkspaceView.state :=
  fold_left (fun ws e =>
      match e with
      | OnGenerationComplete result =>
          match WorkspaceView.handleGenerationComplete clk result ws with
          | inr ws' => ws'
          | inl _ => ws
          end
      | _ => ws
      end) effects ws.

Definition is_completion (e : effect) : bool :=
  match e with OnGenerationComplete _ => true | _ => false end.

Definition is_generate_call (e : effect) : bool :=
  match e with CallGenerateDiscover _ _ _ => true | _ => false end.

End DiscoverInputPanel.

(** ** components/workspace/GitHubConfigModal.jsx *)

Module GitHubConfigModal.

Inductive effect :=
| PreventDefault
| SetError (e : option string)
| SetIsLoading (b : bool)
| CallSaveGitHubConfig (projectId : Js.value) (github_token github_repo : Js.ustring)
| OnSuccess (data : Js.value)
| OnClose
| ConsoleError.

Definition token_required : string := "GitHub token is required".
Definition repo_required : string := "Repository is required".
Definition repo_format : string :=
  "Repository must be in format " +:+ Js.dquote +:+ "owner/repo" +:+ Js.dquote.

(** The three checks at the head of the [try]: the message of the error
    that the first failing one throws. *)
Definition validate (token repo : Js.ustring) : option string :=
  match Js.trim token with
  | [] => Some token_required
  | _ :: _ =>
      match Js.trim repo with
      | [] => Some repo_required
      | _ :: _ =>
          if negb (Js.includes_unit Js.slash repo)
             || negb (length (Js.split Js.slash repo) =? 2)%nat
          then Some repo_format
          else None
      end
  end.

(** The [catch]:
    [setError(err.response?.data?.detail || err.message || 'Failed ...')],
    for an [Error], which has no [response]. *)
Definition caught (err : Js.error) : list effect :=
  [ConsoleError;
   SetError (Some (if String.eqb (Js.message err) ""
                   then "Failed to configure GitHub"
                   else Js.message err))].

(** [handleSubmit(e)] for the current fields, given what
    [api.saveGitHubConfig] settles to and whether [onSuccess] throws. *)
Definition handleSubmit (projectId : Js.value) (token repo : Js.ustring)
    (reply : Js.outcome) (onSuccess : Js.value -> option Js.error) : list effect :=
  [PreventDefault; SetError None; SetIsLoading true]
  ++ match validate token repo with
     | Some msg => caught (Js.Error "Error" msg)
     | None =>
         CallSaveGitHubConfig projectId (Js.trim token) (Js.trim repo) ::
         match reply with
         | Js.Rejected err => caught err
         | Js.Resolved response =>
             match Js.prop response "status" with
             | inl err => caught err
             | inr st =>
                 if Js.is_str st "success" then
                   let data := Js.member response "data" in
                   OnSuccess data ::
                   match onSuccess data with
                   | Some err => caught err
                   | None => [OnClose]
                   end
                 else []
             end
         end
     end
  ++ [SetIsLoading false].

Definition is_save_call (e : effect) : bool :=
  match e with CallSaveGitHubConfig _ _ _ => true | _ => false end.

Definition is_error_shown (e : effect) : bool :=
  match e with SetError (Some _) => true | _ => false end.

End GitHubConfigModal.

(** ** components/stages/TestStagePanel.jsx *)

Module TestStagePanel.

Section ExpandedSuites.
Context `{Countable K}.

(** The updater that [toggleSuite(suiteId)] hands to [setExpandedSuites]. *)
Definition toggleSuite (suiteId : K) (prev : gset K) : gset K :=
  let newSet := prev in
  if decide (suiteId ∈ newSet) then newSet ∖ {[suiteId]}
  else newSet ∪ {[suiteId]}.

End ExpandedSuites.

End TestStagePanel.

(** The seven stages as the specification names them, in its order. *)
Definition spec_stage_order : list string :=
  ["discover"; "define"; "design"; "develop"; "test"; "build"; "deploy"].

(** ** services/api.js: the artifact list *)

Module ApiArtifacts.

(** The bytes that the form-urlencoded serializer of [URLSearchParams]
    leaves as they are: digits, letters and [* - . _]. *)
Definition is_unreserved (c : Ascii.ascii) : bool :=
  let n := Ascii.nat_of_ascii c in
  ((48 <=? n) && (n <=? 57) || (65 <=? n) && (n <=? 90) || (97 <=? n) && (n <=? 122)
   || (n =? 42) || (n =? 45) || (n =? 46) || (n =? 95))%nat.

Definition hex_digit (n : nat) : Ascii.ascii :=
  Ascii.ascii_of_nat (if (n <? 10)%nat then 48 + n else 55 + n).

(** One byte of a name or value, serialized. *)
Definition encode_byte (c : Ascii.ascii) : string :=
  if is_unreserved c then String c EmptyString
  else if (Ascii.nat_of_ascii c =? 32)%nat then "+"
  else let n := Ascii.nat_of_ascii c in
       String (Ascii.ascii_of_nat 37) (String (hex_digit (n / 16)) (String (hex_digit (n mod 16)) EmptyString)).

Fixpoint encode (s : string) : string :=
  match s with
  | EmptyString => EmptyString
  | String c rest => encode_byte c +:+ encode rest
  end.

(** [params.toString()] for the appended pairs. *)
Definition serialize (params : list (string * string)) : string :=
  Js.join "&" (map (fun kv => encode (fst kv) +:+ "=" +:+ encode (snd kv)) params).

Definition is_array (v : Js.value) : bool :=
  match v with Js.Arr _ => true | _ => false end.

(** The endpoint that [listProjectArtifacts] builds. *)
Definition artifacts_endpoint (projectId stage artifactType : Js.value) : string :=
  let endpoint := "/api/artifacts/project/" +:+ Js.to_string projectId in
  let params := [] in
  let params := if Js.truthy stage then params ++ [("stage", Js.to_string stage)] else params in
  let params := if Js.truthy artifactType
                then params ++ [("artifact_type", Js.to_string artifactType)]
                else params in
  if negb (String.eqb (serialize params) "")
  then endpoint +:+ "?" +:+ serialize params
  else endpoint.

(** "Ensure we always return an array". *)
Definition ensure_array (response : Js.value) : Js.value :=
  if is_array response then response
  else if Js.truthy (Js.opt_prop response "artifacts")
          && is_array (Js.member response "artifacts")
       then Js.member response "artifacts"
       else Js.Arr [].

(** [listProjectArtifacts(projectId, stage = null, artifactType = null)]. *)
Definition listProjectArtifacts (baseURL : string) (projectId stage artifactType : Js.value)
  : ApiService.FetchCall * (ApiService.fetched -> Js.outcome) :=
  let stage := match stage with Js.Undefined => Js.Null | v => v end in
  let artifactType := match artifactType with Js.Undefined => Js.Null | v => v end in
  let '(call, settle) :=
    ApiService.request baseURL (artifacts_endpoint projectId stage artifactType)
      ApiService.no_options in
  (call, fun net =>
           match settle net with
           | Js.Resolved response => Js.Resolved (ensure_array response)
           | Js.Rejected e => Js.Rejected e
           end).

End ApiArtifacts.

(** ** pages/ProjectsPage.jsx: the indicator of the dashboard *)

Module DashboardStageIndicator.

(** [getStageStatus(stageId)] for the [currentStage] prop. *)
Definition getStageStatus (currentStage stageId : string) : string :=
  let stageOrder := map StageIndicator.id ProjectsPage.stages in
  let currentIdx := Js.indexOf stageOrder currentStage in
  let stageIdx := Js.indexOf stageOrder stageId in
  if (stageIdx <? currentIdx)%Z then "passed"
  else if (stageIdx =? currentIdx)%Z then "active"
  else "pending".

End DashboardStageIndicator.

(** ** components/project/TicketList.jsx: the counts of the filter bar *)

Module TicketCounts.

(** [tickets.filter(callback)] for a callback that can throw: the first
    throw ends the whole filter. *)
Fixpoint filter_by (callback : Js.value -> Js.error + bool) (tickets : list Js.value)
  : Js.error + list Js.value :=
  match tickets with
  | [] => inr []
  | t :: rest =>
      match callback t with
      | inl e => inl e
      | inr keep =>
          match filter_by callback rest with
          | inl e => inl e
          | inr kept => inr (if keep then t :: kept else kept)
          end
      end
  end.

(** The callback of [filteredTickets]: it reads [t.status] first, which
    throws for a ticket that is [null] or [undefined]. *)
Definition shown (filter typeFilter : string) (t : Js.value) : Js.error + bool :=
  match Js.prop t "status" with
  | inl e => inl e
  | inr status =>
      let ticketStatus := Js.or_else status (Js.Str "todo") in
      let statusMatch := String.eqb filter "all" || Js.is_str ticketStatus filter in
      let typeMatch :=
        String.eqb typeFilter "all" || Js.is_str (Js.member t "type") typeFilter in
      inr (statusMatch && typeMatch)
  end.

(** [tickets.filter(t => { ... })] of the component, for its two filters. *)
Definition filteredTickets (filter typeFilter : string) (tickets : list Js.value)
  : Js.error + list Js.value :=
  filter_by (shown filter typeFilter) tickets.

Definition count (callback : Js.value -> Js.error + bool) (tickets : list Js.value)
  : Js.error + nat :=
  match filter_by callback tickets with
  | inl e => inl e
  | inr kept => inr (length kept)
  end.

(** [tickets.filter(t => !t.status || t.status === 'todo').length]. *)
Definition todoCount (tickets : list Js.value) : Js.error + nat :=
  count (fun t => match Js.prop t "status" with
                  | inl e => inl e
                  | inr status => inr (negb (Js.truthy status) || Js.is_str status "todo")
                  end) tickets.

(** [tickets.filter(t => t.status === 'in_progress').length]. *)
Definition inProgressCount (tickets : list Js.value) : Js.error + nat :=
  count (fun t => match Js.prop t "status" with
                  | inl e => inl e
                  | inr status => inr (Js.is_str status "in_progress")
                  end) tickets.

(** [tickets.filter(t => t.status === 'done').length]. *)
Definition doneCount (tickets : list Js.value) : Js.error + nat :=
  count (fun t => match Js.prop t "status" with
                  | inl e => inl e
                  | inr status => inr (Js.is_str status "done")
                  end) tickets.

End TicketCounts.

(** ** pages/WorkspaceView.jsx: loading a project *)

Module ProjectLoading.

Definition is_hex (c : Ascii.ascii) : bool :=
  let n := Ascii.nat_of_ascii c in
  ((48 <=? n) && (n <=? 57) || (65 <=? n) && (n <=? 70) || (97 <=? n) && (n <=? 102))%nat.

(** [n] hexadecimal digits at the head of [s]: what follows them. *)
Fixpoint hex_run (n : nat) (s : string) : option string :=
  match n with
  | O => Some s
  | S m =>
      match s with
      | String c rest => if is_hex c then hex_run m rest else None
      | EmptyString => None
      end
  end.

Definition hyphen (s : string) : option string :=
  match s with
  | String c rest => if (Ascii.nat_of_ascii c =? 45)%nat then Some rest else None
  | EmptyString => None
  end.

(** [/^[0-9a-f]{8}-[0-9a-f]{4}-[0-9a-f]{4}-[0-9a-f]{4}-[0-9a-f]{12}$/i.test(str)]. *)
Definition isValidUUID (str : string) : bool :=
  match ((((((((hex_run 8 str ≫= hyphen) ≫= hex_run 4) ≫= hyphen) ≫= hex_run 4)
              ≫= hyphen) ≫= hex_run 4) ≫= hyphen) ≫= hex_run 12) with
  | Some EmptyString => true
  | _ => false
  end.

(** The [TypeError] of a call of a member that is not a function. *)
Definition not_a_function (what : string) : Js.error :=
  Js.Error "TypeError" (what +:+ " is not a function").

(** [(v || 'discover').toLowerCase()]; [what] is the source text of the
    receiver, for the message of the error. *)
Definition stage_of (what : string) (v : Js.value) : Js.error + string :=
  match Js.or_else v (Js.Str "discover") with
  | Js.Str s => inr (WorkspaceView.toLowerCase s)
  | _ => inl (not_a_function ("(" +:+ what +:+ " || " +:+ Js.dquote +:+ "discover"
                              +:+ Js.dquote +:+ ").toLowerCase"))
  end.

(** The object literal that the loop fills. *)
Definition empty_by_stage : gmap string (list Js.value) :=
  <["discover" := []]> (<["define" := []]> (<["design" := []]>
  (<["develop" := []]> (<["test" := []]> (<["build" := []]>
  (<["deploy" := []]> ∅)))))).

(** The body of the [forEach]: [a] is pushed on the array of its stage
    when the object has one.  The two lower-case names that every object
    inherits are truthy and have no [push]. *)
Definition place (byStage : gmap string (list Js.value)) (a : Js.value)
  : Js.error + gmap string (list Js.value) :=
  match Js.prop a "stage" with
  | inl e => inl e
  | inr v =>
      match stage_of "a.stage" v with
      | inl e => inl e
      | inr stage =>
          match byStage !! stage with
          | Some l => inr (<[stage := l ++ [a]]> byStage)
          | None =>
              if String.eqb stage "constructor" || String.eqb stage "__proto__"
              then inl (not_a_function "artifactsByStage[stage].push")
              else inr byStage
          end
      end
  end.

(** [allArtifacts.forEach(...)] on the fresh object. *)
Fixpoint group (byStage : gmap string (list Js.value)) (allArtifacts : list Js.value)
  : Js.error + gmap string (list Js.value) :=
  match allArtifacts with
  | [] => inr byStage
  | a :: rest =>
      match place byStage a with
      | inl e => inl e
      | inr byStage' => group byStage' rest
      end
  end.

Definition artifactsByStage (allArtifacts : list Js.value)
  : Js.error + gmap string (list Js.value) :=
  group empty_by_stage allArtifacts.

Inductive effect :=
| SetError (e : option string)
| SetLoading (b : bool)
| SetProject (projectData : Js.value)
| SetCurrentStage (stage : string)
| SetViewingStage (stage : string)
| SetArtifacts (byStage : gmap string (list Js.value))
| SetStageData (stageData : gmap string StageIndicator.StageInfo)
| SetCommitHistory (commits : list Js.value)
| SetDevelopTickets (tickets : Js.value)
| CallGetProject (projectId : Js.value)
| CallListProjectArtifacts (projectId : Js.value)
| CallGetProjectCommits (projectId : Js.value)
| CallGetDevelopTickets (projectId : Js.value)
| ConsoleLog.

(** What the four requests of a load settle to, if they are made. *)
Record replies := {
  project : Js.outcome;
  artifacts : Js.outcome;
  commits : Js.outcome;
  tickets : Js.outcome
}.

(** The inner [try] around [api.listProjectArtifacts]: the effects, and
    the value left in [allArtifacts]. *)
Definition loadArtifacts (projectId : Js.value) (reply : Js.outcome)
  : list effect * Js.value :=
  match reply with
  | Js.Resolved resp =>
      ([CallListProjectArtifacts projectId],
       if ApiArtifacts.is_array resp then resp
       else Js.or_else (Js.opt_prop resp "artifacts") (Js.Arr []))
  | Js.Rejected _ => ([CallListProjectArtifacts projectId; ConsoleLog], Js.Arr [])
  end.

(** The inner [try] around [api.getProjectCommits]. *)
Definition loadCommits (projectId : Js.value) (reply : Js.outcome) : list effect :=
  CallGetProjectCommits projectId ::
  match reply with
  | Js.Resolved (Js.Arr commits) => [SetCommitHistory commits]
  | _ => [SetCommitHistory []]
  end.

(** The inner [try] around [api.getDevelopTickets]. *)
Definition loadDevelopTickets (projectId : Js.value) (reply : Js.outcome) : list effect :=
  CallGetDevelopTickets projectId ::
  match reply with
  | Js.Resolved ticketsResult =>
      match Js.prop ticketsResult "status" with
      | inl _ => [ConsoleLog]
      | inr st =>
          if Js.is_str st "success"
          then [SetDevelopTickets
                  (Js.Obj [("tickets", Js.member ticketsResult "tickets");
                           ("summary", Js.member ticketsResult "summary");
                           ("artifact_id", Js.member ticketsResult "artifact_id")])]
          else []
      end
  | Js.Rejected _ => [ConsoleLog]
  end.

(** The outer [try], from the resolved project on: the effects up to a
    throw, and the error thrown if any. *)
Definition loaded (projectId : Js.value) (searchStage : option string)
    (projectData : Js.value) (r : replies) : list effect * option Js.error :=
  match Js.prop projectData "current_stage" with
  | inl e => ([SetProject projectData], Some e)
  | inr current_stage =>
      match stage_of "projectData.current_stage" current_stage with
      | inl e => ([SetProject projectData], Some e)
      | inr projectStage =>
          let viewing :=
            match searchStage with
            | Some s => if String.eqb s "" then projectStage else s
            | None => projectStage
            end in
          let head := [SetProject projectData; SetCurrentStage projectStage;
                       SetViewingStage viewing] in
          let '(listed, allArtifacts) := loadArtifacts projectId (artifacts r) in
          match allArtifacts with
          | Js.Arr items =>
              match artifactsByStage items with
              | inl e => (head ++ listed, Some e)
              | inr byStage =>
                  (head ++ listed
                   ++ [SetArtifacts byStage;
                       SetStageData (WorkspaceView.updateStageData byStage projectStage)]
                   ++ loadCommits projectId (commits r)
                   ++ (if String.eqb projectStage "develop"
                          || (0 <? length (default [] (byStage !! "develop")))%nat
                       then loadDevelopTickets projectId (tickets r)
                       else []),
                   None)
              end
          | _ => (head ++ listed, Some (not_a_function "allArtifacts.forEach"))
          end
      end
  end.

(** [loadProjectData()] for the [projectId] of the route and the [stage]
    of the query string. *)
Definition loadProjectData (projectId : Js.value) (searchStage : option string)
    (r : replies) : list effect :=
  if negb (isValidUUID (Js.to_string projectId)) then
    [SetError (Some ("Invalid project ID: " +:+ Js.dquote +:+ Js.to_string projectId
                     +:+ Js.dquote +:+ "."));
     SetLoading false]
  else
    [SetLoading true; SetError None; CallGetProject projectId]
    ++ (let '(effects, thrown) :=
          match project r with
          | Js.Resolved projectData => loaded projectId searchStage projectData r
          | Js.Rejected e => ([], Some e)
          end in
        effects
        ++ match thrown with
           | Some e => [SetError (Some ("Failed to load project: " +:+ Js.message e))]
           | None => []
           end)
    ++ [SetLoading false].

Definition is_call (e : effect) : bool :=
  match e with
  | CallGetProject _ | CallListProjectArtifacts _
  | CallGetProjectCommits _ | CallGetDevelopTickets _ => true
  | _ => false
  end.

Definition is_tickets_call (e : effect) : bool :=
  match e with CallGetDevelopTickets _ => true | _ => false end.

Definition is_error_set (e : effect) : bool :=
  match e with SetError (Some _) => true | _ => false end.

End ProjectLoading.

(** ** components/workspace/AISpecialist.jsx: the chat *)

Module AISpecialist.

(** A chat message: one made by the panel for the text just typed, or a
    value that came from the server (the welcome message has that shape). *)
Inductive message :=
| Local (id : string) (content : Js.ustring) (created_at : string)
| Remote (v : Js.value).

Record state := {
  chatMessages : list message;
  chatInput : Js.ustring;
  isSending : bool;
  error : option string
}.

(** [m.id]. *)
Definition id_of (m : message) : Js.error + Js.value :=
  match m with
  | Local id _ _ => inr (Js.Str id)
  | Remote v => Js.prop v "id"
  end.

(** [prev.filter(m => m.id !== tempId)]. *)
Fixpoint without (tempId : string) (prev : list message) : Js.error + list message :=
  match prev with
  | [] => inr []
  | m :: rest =>
      match id_of m with
      | inl e => inl e
      | inr id =>
          match without tempId rest with
          | inl e => inl e
          | inr kept => inr (if Js.is_str id tempId then kept else m :: kept)
          end
      end
  end.

(** [`temp-${Date.now()}`]. *)
Definition tempId (now : Z) : string := "temp-" +:+ pretty now.

(** The part of [handleSendMessage] before the [await]: nothing when the
    input is blank, a message is being sent or there is no project;
    otherwise the state with the typed message appended, and the text
    that is sent. *)
Definition begin (now : Z) (iso : string) (projectId : Js.value) (st : state)
  : option (state * Js.ustring) :=
  match Js.trim (chatInput st) with
  | [] => None
  | (_ :: _) as userMessage =>
      if isSending st || negb (Js.truthy projectId) then None
      else Some ({| chatMessages := chatMessages st ++ [Local (tempId now) userMessage iso];
                    chatInput := [];
                    isSending := true;
                    error := None |},
                 userMessage)
  end.

(** The part after the [await], on the state of that moment: the state
    it leaves, or the error with which the updater of the messages
    throws. *)
Definition finish (now : Z) (reply : Js.outcome) (st : state) : Js.error + state :=
  match without (tempId now) (chatMessages st) with
  | inl e => inl e
  | inr filtered =>
      match reply with
      | Js.Resolved response =>
          match Js.prop response "user_message" with
          | inl e => inl e
          | inr user_message =>
              inr {| chatMessages :=
                       filtered ++ [Remote user_message;
                                    Remote (Js.member response "assistant_message")];
                     chatInput := chatInput st;
                     isSending := false;
                     error := error st |}
          end
      | Js.Rejected _ =>
          inr {| chatMessages := filtered;
                 chatInput := chatInput st;
                 isSending := false;
                 error := Some "Failed to send message" |}
      end
  end.

End AISpecialist.

(** ** components/stages/TestStagePanel.jsx: loading the test data *)

Module TestStageLoading.

Inductive effect :=
| SetIsLoading (b : bool)
| SetDashboard (v : Js.value)
| SetTestPlan (v : Js.value)
| SetTestCases (v : Js.value)
| CallGetTestDashboard (projectId : Js.value)
| CallGetTestPlan (projectId : Js.value)
| CallGetTestCases (projectId : Js.value)
| ConsoleError.

(** What the three requests settle to, if they are made. *)
Record replies := {
  dashboard : Js.outcome;
  plan : Js.outcome;
  cases : Js.outcome
}.

(** One guarded request of the [try]: the effects, and whether the
    [try] goes on ([false] after a throw). *)
Definition guarded (flag : Js.error + Js.value) (call : effect) (reply : Js.outcome)
    (store : Js.value -> effect) : list effect * bool :=
  match flag with
  | inl _ => ([], false)
  | inr present =>
      if Js.truthy present then
        match reply with
        | Js.Rejected _ => ([call], false)
        | Js.Resolved result =>
            match Js.prop result "status" with
            | inl _ => ([call], false)
            | inr st => (call :: (if Js.is_str st "success" then [store result] else []), true)
            end
        end
      else ([], true)
  end.

(** [loadData()]. *)
Definition loadData (projectId : Js.value) (r : replies) : list effect :=
  [SetIsLoading true; CallGetTestDashboard projectId]
  ++ match dashboard r with
     | Js.Rejected _ => [ConsoleError]
     | Js.Resolved dashboardResult =>
         let '(planned, goes_on) :=
           guarded (Js.prop dashboardResult "has_test_plan") (CallGetTestPlan projectId)
             (plan r) (fun planResult => SetTestPlan (Js.member planResult "test_plan")) in
         SetDashboard dashboardResult :: planned
         ++ (if goes_on then
               let '(cased, done) :=
                 guarded (Js.prop dashboardResult "has_test_cases")
                   (CallGetTestCases projectId) (cases r) SetTestCases in
               cased ++ (if done then [] else [ConsoleError])
             else [ConsoleError])
     end
  ++ [SetIsLoading false].

Definition is_call (e : effect) : bool :=
  match e with
  | CallGetTestDashboard _ | CallGetTestPlan _ | CallGetTestCases _ => true
  | _ => false
  end.

End TestStageLoading.

(** ** The REST contract as the specification lists it *)

Module Endpoints.

(** A path of the endpoint table, segment by segment: literal text or a
    [{hole}]. *)
Inductive segment :=
| Lit (s : string)
| Hole (name : string).

Record endpoint := { verb : string; template : list segment }.






End Endpoints.

(** ** The URL that [fetch] makes of the text it is given

    The URL parser of the platform, for the part of the text that
    follows an origin such as [http://localhost:8000]: where the path
    ends and the query and the fragment begin, what the segments of the
    path are, and what the server reads in them. *)

Module Url.

Definition code (c : Ascii.ascii) : nat := Ascii.nat_of_ascii c.

Definition is_tab_or_newline (c : Ascii.ascii) : bool :=
  ((code c =? 9) || (code c =? 10) || (code c =? 13))%nat.

Definition is_c0_or_space (c : Ascii.ascii) : bool := (code c <=? 32)%nat.

Definition is_hash (c : Ascii.ascii) : bool := (code c =? 35)%nat.

Definition is_question (c : Ascii.ascii) : bool := (code c =? 63)%nat.

Definition is_percent (c : Ascii.ascii) : bool := (code c =? 37)%nat.

Definition slash : Ascii.ascii := Ascii.ascii_of_nat 47.

(** For [http] a backslash separates segments as a slash does. *)
Definition is_slash (c : Ascii.ascii) : bool := ((code c =? 47) || (code c =? 92))%nat.

Fixpoint all (p : Ascii.ascii -> bool) (s : string) : bool :=
  match s with
  | EmptyString => true
  | String c rest => p c && all p rest
  end.

Fixpoint remove (p : Ascii.ascii -> bool) (s : string) : string :=
  match s with
  | EmptyString => EmptyString
  | String c rest => if p c then remove p rest else String c (remove p rest)
  end.

(** The input without its trailing C0 controls and spaces. *)
Fixpoint strip_trailing (s : string) : string :=
  match s with
  | EmptyString => EmptyString
  | String c rest =>
      match strip_trailing rest with
      | EmptyString => if is_c0_or_space c then EmptyString else String c EmptyString
      | kept => String c kept
      end
  end.

(** The text before the first character that satisfies [p], and the
    text after that character if there is one. *)
Fixpoint cut (p : Ascii.ascii -> bool) (s : string) : string * option string :=
  match s with
  | EmptyString => (EmptyString, None)
  | String c rest =>
      if p c then (EmptyString, Some rest)
      else let '(before, after) := cut p rest in (String c before, after)
  end.

(** The pieces between the characters that satisfy [p]: never none. *)
Fixpoint split (p : Ascii.ascii -> bool) (s : string) : list string :=
  match s with
  | EmptyString => [EmptyString]
  | String c rest =>
      if p c then EmptyString :: split p rest
      else match split p rest with
           | [] => [String c EmptyString]
           | piece :: pieces => String c piece :: pieces
           end
  end.

(** The characters that the parser percent-encodes in a path, in a
    query and in a fragment.  (Not every browser escapes [^] in a path
    yet; the server reads the same segment either way.) *)
Definition in_path_set (c : Ascii.ascii) : bool :=
  let n := code c in
  ((n <=? 32) || (126 <? n) || (n =? 34) || (n =? 35) || (n =? 60) || (n =? 62)
   || (n =? 63) || (n =? 94) || (n =? 96) || (n =? 123) || (n =? 125))%nat.

Definition in_query_set (c : Ascii.ascii) : bool :=
  let n := code c in
  ((n <=? 32) || (126 <? n) || (n =? 34) || (n =? 35) || (n =? 39) || (n =? 60)
   || (n =? 62))%nat.

Definition in_fragment_set (c : Ascii.ascii) : bool :=
  let n := code c in
  ((n <=? 32) || (126 <? n) || (n =? 34) || (n =? 60) || (n =? 62) || (n =? 96))%nat.

Definition percent_encoded (c : Ascii.ascii) : string :=
  String (Ascii.ascii_of_nat 37)
    (String (ApiArtifacts.hex_digit (code c / 16))
       (String (ApiArtifacts.hex_digit (code c mod 16)) EmptyString)).

Fixpoint encode (set : Ascii.ascii -> bool) (s : string) : string :=
  match s with
  | EmptyString => EmptyString
  | String c rest =>
      (if set c then percent_encoded c else String c EmptyString) +:+ encode set rest
  end.

(** A segment that stands for the directory itself, or for its parent. *)
Definition is_single_dot (seg : string) : bool :=
  existsb (String.eqb seg) ["."; "%2e"; "%2E"].

Definition is_double_dot (seg : string) : bool :=
  existsb (String.eqb seg)
    [".."; ".%2e"; ".%2E"; "%2e."; "%2E."; "%2e%2e"; "%2e%2E"; "%2E%2e"; "%2E%2E"].

(** The path, segment by segment; [done] holds the segments so far, the
    last one first.  A double-dot segment removes the segment before it,
    a single-dot segment adds nothing, and either leaves an empty segment
    when it ends the path. *)
Fixpoint walk (done : list string) (segments : list string) : list string :=
  match segments with
  | [] => rev done
  | seg :: rest =>
      let last := match rest with [] => true | _ => false end in
      if is_double_dot seg
      then walk (if last then EmptyString :: tl done else tl done) rest
      else if is_single_dot seg
           then walk (if last then EmptyString :: done else done) rest
           else walk (encode in_path_set seg :: done) rest
  end.

Record target := {
  path : list string;
  query : option string;
  fragment : option string
}.

(** What the parser makes of the text that follows the origin: nothing
    when the text does not begin a path (it would then continue the
    host or the port). *)
Definition route (endpoint : string) : option target :=
  let input := remove is_tab_or_newline (strip_trailing endpoint) in
  let '(before, frag) := cut is_hash input in
  let '(text, asked) := cut is_question before in
  let rest :=
    match text with
    | EmptyString => Some EmptyString
    | String c rest => if is_slash c then Some rest else None
    end in
  match rest with
  | None => None
  | Some rest =>
      Some {| path := walk [] (split is_slash rest);
              query := encode in_query_set <$> asked;
              fragment := encode in_fragment_set <$> frag |}
  end.

Definition hex_value (c : Ascii.ascii) : option nat :=
  let n := code c in
  if ((48 <=? n) && (n <=? 57))%nat then Some (n - 48)%nat
  else if ((65 <=? n) && (n <=? 70))%nat then Some (n - 55)%nat
  else if ((97 <=? n) && (n <=? 102))%nat then Some (n - 87)%nat
  else None.

(** What the server reads in a segment: each [%XY] is one byte. *)
Fixpoint percent_decode (s : string) : string :=
  match s with
  | EmptyString => EmptyString
  | String c rest =>
      let plain := String c (percent_decode rest) in
      if is_percent c then
        match rest with
        | String h (String l rest') =>
            match hex_value h, hex_value l with
            | Some x, Some y =>
                String (Ascii.ascii_of_nat (16 * x + y)) (percent_decode rest')
            | _, _ => plain
            end
        | _ => plain
        end
      else plain
  end.

(** The segments of the path as the server reads them. *)
Definition decoded_path (t : target) : list string := map percent_decode (path t).

(** A value that fills one segment and comes out of it as it is: it has
    none of the characters that end a segment, the path or the query,
    that start an escape or that the parser drops, and it is not a dot
    segment. *)
Definition plain (s : string) : bool :=
  negb (String.eqb s ".") && negb (String.eqb s "..")
  && all (fun c => negb (is_slash c || is_hash c || is_question c || is_percent c
                         || is_tab_or_newline c)) s.

End Url.

(** The message of the error for a non-OK JSON response, read off the
    specification: the [detail] field of the body if it has one, otherwise
    its [message] field, otherwise the status line. *)
Definition spec_error_message (body : Js.value) (st : Z) : string :=
  let fields := match body with Js.Obj fields => fields | _ => [] end in
  match Js.field "detail" fields with
  | Some detail => Js.to_string detail
  | None =>
      match Js.field "message" fields with
      | Some msg => Js.to_string msg
      | None => "HTTP error! status: " +:+ pretty st
      end
  end.

(** A 500 response whose JSON body has an empty [detail] next to a
    [message]. *)
Definition empty_detail_response : ApiService.Response :=
  {| ApiService.status := 500;
     ApiService.content_type := Some "application/json";
     ApiService.text := inr "";
     ApiService.json :=
       inr (Js.Obj [("detail", Js.Str ""); ("message", Js.Str "boom")]) |}.

(** A 500 response whose JSON body is [null]. *)
Definition null_body_response : ApiService.Response :=
  {| ApiService.status := 500;
     ApiService.content_type := Some "application/json";
     ApiService.text := inr "";
     ApiService.json := inr Js.Null |}.

(** A 502 response that carries an HTML page. *)
Definition html_error_response : ApiService.Response :=
  {| ApiService.status := 502;
     ApiService.content_type := Some "text/html";
     ApiService.text := inr "<h1>Bad Gateway</h1>";
     ApiService.json := inl (Js.Error "SyntaxError" "Unexpected token <") |}.

(** The same 502 when the connection breaks before the body has
    arrived: [text()] and [json()] both reject. *)
Definition unreadable_response : ApiService.Response :=
  {| ApiService.status := 502;
     ApiService.content_type := Some "text/html";
     ApiService.text := inl (Js.Error "TypeError" "network error");
     ApiService.json := inl (Js.Error "TypeError" "network error") |}.

(** A clock reading for the examples. *)
Definition epoch : WorkspaceView.clock :=
  {| WorkspaceView.now := 0; WorkspaceView.localeString := "1/1/1970, 12:00:00 AM" |}.

(** A discover result as the backend shapes it. *)
Definition discover_result : Js.value :=
  Js.Obj [("stage", Js.Str "discover");
          ("problem_statement",
           Js.Obj [("artifact_id", Js.Str "a1"); ("content", Js.Str "# Problem")]);
          ("stakeholder_analysis",
           Js.Obj [("artifact_id", Js.Str "a2"); ("content", Js.Str "# Stakeholders")])].

(** The same two documents in a result that is tagged [develop]. *)
Definition develop_tagged_result : Js.value :=
  Js.Obj [("stage", Js.Str "develop");
          ("problem_statement",
           Js.Obj [("artifact_id", Js.Str "a1"); ("content", Js.Str "# Problem")]);
          ("stakeholder_analysis",
           Js.Obj [("artifact_id", Js.Str "a2"); ("content", Js.Str "# Stakeholders")])].

(** The same two documents in a result that also carries tickets. *)
Definition ticketed_result : Js.value :=
  Js.Obj [("tickets", Js.Arr [Js.Obj [("key", Js.Str "T-1")]]);
          ("problem_statement",
           Js.Obj [("artifact_id", Js.Str "a1"); ("content", Js.Str "# Problem")]);
          ("stakeholder_analysis",
           Js.Obj [("artifact_id", Js.Str "a2"); ("content", Js.Str "# Stakeholders")])].

(** A GitHub configuration that is missing, or whose [is_configured] is
    false (or otherwise falsy). *)
Definition not_configured (config : Js.value) : Prop :=
  Js.truthy (Js.opt_prop config "is_configured") = false.

(** A text is blank when all its units are white space. *)
Definition blank (s : Js.ustring) : Prop :=
  Forall (fun c => Js.is_white_space c = true) s.

(** A text field is non-blank when some unit of it is not white space. *)
Definition nonblank (s : Js.ustring) : Prop :=
  Exists (fun c => Js.is_white_space c = false) s.

(** The units of an ASCII literal. *)
Fixpoint units (s : string) : Js.ustring :=
  match s with
  | EmptyString => []
  | String c rest => N.of_nat (Ascii.nat_of_ascii c) :: units rest
  end.

(** A develop panel with one open ticket, for a project without GitHub. *)
Definition unconfigured_step : DevelopStagePanel.step :=
  {| DevelopStagePanel.step_props :=
       {| DevelopStagePanel.projectId := Js.Str "p1";
          DevelopStagePanel.githubConfig := Js.Obj [("is_configured", Js.Bool false)];
          DevelopStagePanel.onTicketSelect := true;
          DevelopStagePanel.onOpenGitHubModal := true |};
     DevelopStagePanel.step_state :=
       {| DevelopStagePanel.tickets := Js.Arr [Js.Obj [("key", Js.Str "T-1")]];
          DevelopStagePanel.isLoadingTickets := false;
          DevelopStagePanel.isImplementing := false;
          DevelopStagePanel.implementingKey := Js.Null;
          DevelopStagePanel.filter := "all";
          DevelopStagePanel.typeFilter := "all" |};
     DevelopStagePanel.step_action := DevelopStagePanel.ClickImplement 0;
     DevelopStagePanel.step_reply := Js.Resolved (Js.Obj []) |}.

(** The same panel once the project has a repository. *)
Definition configured_step : DevelopStagePanel.step :=
  {| DevelopStagePanel.step_props :=
       {| DevelopStagePanel.projectId := Js.Str "p1";
          DevelopStagePanel.githubConfig :=
            Js.Obj [("is_configured", Js.Bool true); ("github_repo", Js.Str "o/r")];
          DevelopStagePanel.onTicketSelect := true;
          DevelopStagePanel.onOpenGitHubModal := true |};
     DevelopStagePanel.step_state := DevelopStagePanel.step_state unconfigured_step;
     DevelopStagePanel.step_action := DevelopStagePanel.ClickImplement 0;
     DevelopStagePanel.step_reply := Js.Rejected (Js.Error "Error" "no") |}.

(** A discover panel that is idle and wired to a callback. *)
Definition idle_discover : DiscoverInputPanel.props :=
  {| DiscoverInputPanel.projectId := Js.Str "p1";
     DiscoverInputPanel.isGenerating := false;
     DiscoverInputPanel.onGenerationComplete := Some (fun _ => None) |}.

(** The workspace once the discover result has been handled: the current
    stage is define while the user still views discover. *)
Definition after_discover : WorkspaceView.state :=
  match WorkspaceView.handleGenerationComplete epoch discover_result
          WorkspaceView.initial with
  | inr st => st
  | inl _ => WorkspaceView.initial
  end.

(** Whether the loop of [loadProjectData] files [a] under stage [s]. *)
Definition in_stage (s : string) (a : Js.value) : bool :=
  match Js.prop a "stage" with
  | inr v =>
      match ProjectLoading.stage_of "a.stage" v with
      | inr t => String.eqb t s
      | inl _ => false
      end
  | inl _ => false
  end.

(** An artifact that the loop can file or skip: it has members, its
    [stage] is a string or falsy, and in lower case that is not one of
    the two names every object inherits. *)
Definition fileable (a : Js.value) : bool :=
  match Js.prop a "stage" with
  | inr v =>
      match ProjectLoading.stage_of "a.stage" v with
      | inr t => negb (String.eqb t "constructor" || String.eqb t "__proto__")
      | inl _ => false
      end
  | inl _ => false
  end.

(** A project id for the examples. *)
Definition sample_id : Js.value := Js.Str "123e4567-e89b-12d3-a456-426614174000".

(** [onSuccess] of the GitHub modal as [WorkspaceView] wires it: whether
    [handleGitHubConfigSuccess] throws on the data it is given. *)
Definition onSuccess_wired (clk : WorkspaceView.clock) (ws : WorkspaceView.state)
    (data : Js.value) : option Js.error :=
  match WorkspaceView.handleGitHubConfigSuccess clk data ws with
  | inl e => Some e
  | inr _ => None
  end.

(** * Properties *)

(** ** Strings *)




(** ** The stage lists *)

Example STAGE_ORDER_length : length Constants.STAGE_ORDER = 7.
Proof. reflexivity. Qed.

(** C1.  The stage arrays that drive the workspace (the ids of
    [StageIndicator.stages], the four local arrays of [WorkspaceView], the
    one of [StageGatePanel] and the ids of the projects page) are the
    seven stages of the specification in its order.  The constant
    [STAGE_ORDER] is not: it has no [build], puts [deploy] sixth and ends
    with [maintain]; and the array of the dashboard says [testing] for
    [test]. *)
Theorem STAGE_ORDER_is_not_the_seven_stages :
  map StageIndicator.id StageIndicator.stages = spec_stage_order
  ∧ WorkspaceView.updateStageData_stages = spec_stage_order
  ∧ WorkspaceView.getProjectFiles_stages = spec_stage_order
  ∧ WorkspaceView.isStageAccessible_stages = spec_stage_order
  ∧ WorkspaceView.getPreviousStageArtifacts_stages = spec_stage_order
  ∧ StageGatePanel.stageOrder = spec_stage_order
  ∧ map StageIndicator.id ProjectsPage.stages = spec_stage_order
  ∧ ProjectDashboard.stageOrder
    = ["discover"; "define"; "design"; "develop"; "testing"; "build"; "deploy"]
  ∧ Constants.STAGE_ORDER
    = ["discover"; "define"; "design"; "develop"; "test"; "deploy"; "maintain"]
  ∧ (Constants.STAGE_ORDER ≠ spec_stage_order)
  ∧ ("build" ∉ Constants.STAGE_ORDER)
  ∧ (Constants.STAGE_ORDER !! 5%nat) = Some "deploy"
  ∧ (spec_stage_order !! 5%nat) = Some "build".
Proof.
  repeat split; try reflexivity.
  - discriminate.
  - intros Hin. apply list_elem_of_In in Hin. cbn in Hin.
    repeat (destruct Hin as [Hin | Hin]; [discriminate Hin |]). exact Hin.
Qed.

(** ** Numbers as text *)

(** [Number::toString] on some numbers: integers as their digits up to
    2^53 and rounded to the shortest digits beyond, an exponent from
    [1e21] on and below [1e-6], fractions with the shortest digits that
    read back ([0.1 + 0.2], the least and the greatest double). *)
Example ToString_of_numbers :
  map Js.ToString
    [ Js.Num 0; Js.Num (-42); Js.Num (2 ^ 53); Js.Num (2 ^ 64); Js.Num (10 ^ 21);
      Js.Num (10 ^ 20);
      Js.Float (Js.Frac 3 1); Js.Float (Js.Frac (-5) 1);
      Js.Float (Js.Frac 3602879701896397 55);
      Js.Float (Js.Frac 1351079888211149 52);
      Js.Float (Js.Frac 1 1074);
      Js.Num ((2 ^ 53 - 1) * 2 ^ 971);
      Js.Float (Js.Infinity true); Js.Float Js.NaN ]
  = map Some
      [ "0"; "-42"; "9007199254740992"; "18446744073709552000"; "1e+21";
        "100000000000000000000";
        "1.5"; "-2.5";
        "0.1";
        "0.30000000000000004";
        "5e-324";
        "1.7976931348623157e+308";
        "-Infinity"; "NaN" ].
Proof. vm_compute. reflexivity. Qed.

(** ** The REST client *)

Section Request.
Variables (baseURL endpoint : string) (options : ApiService.RequestInit).

Let settled := snd (ApiService.request baseURL endpoint options).

(** An error made by [new Error(...)] passes through the [catch] as it is. *)
Lemma rethrow_plain_error (msg : string) :
  ApiService.rethrow baseURL (Js.Error "Error" msg) = Js.Error "Error" msg.
Proof. reflexivity. Qed.

(** Whatever the body, a non-OK response that the client takes for JSON
    makes the promise reject. *)
Lemma request_rejects_error_status (r : ApiService.Response) :
  ApiService.is_json r = true →
  ApiService.ok r = false →
  ∃ e, settled (ApiService.Answered r) = Js.Rejected e.
Proof.
  intros Hj Hok. unfold settled. cbn. unfold ApiService.respond, ApiService.settle.
  rewrite Hj, Hok. cbn.
  destruct (ApiService.json r) as [e | data]; [eauto |].
  destruct (ApiService.errorMessage data (ApiService.status r)) as [e | m]; [eauto |].
  destruct (Js.ToString m); eauto.
Qed.

(** C2, amended.  For a response with a non-OK status whose content-type
    header contains [application/json], the promise of [request] always
    rejects.  When the body parses to a value other than [null], the
    value handed to [new Error] is the body's [detail] if that is truthy
    (present and not empty, zero, false or null), otherwise its [message]
    if that is truthy, otherwise [HTTP error! status: <status>]; the
    promise rejects with an [Error] whose message is the string form of
    that value, and with the [TypeError] of the conversion when the value
    has no string form. *)
Theorem request_error_message (r : ApiService.Response) (data : Js.value) :
  ApiService.is_json r = true →
  ApiService.ok r = false →
  (∃ e, settled (ApiService.Answered r) = Js.Rejected e)
  ∧ (ApiService.json r = inr data →
     data ≠ Js.Null → data ≠ Js.Undefined →
     let errorMessage :=
       if Js.truthy (Js.member data "detail") then Js.member data "detail"
       else if Js.truthy (Js.member data "message") then Js.member data "message"
            else Js.Str ("HTTP error! status: " +:+ pretty (ApiService.status r)) in
     settled (ApiService.Answered r)
     = Js.Rejected (match Js.ToString errorMessage with
                    | Some msg => Js.Error "Error" msg
                    | None => Js.no_primitive
                    end)).
Proof.
  intros Hj Hok. split; [now apply request_rejects_error_status |].
  intros Hdata Hnull Hundef. unfold settled. cbn.
  unfold ApiService.respond, ApiService.settle, ApiService.errorMessage.
  rewrite Hj, Hok, Hdata. cbn.
  assert (Hprop : ∀ k, Js.prop data k = inr (Js.member data k)).
  { intros k. destruct data; try reflexivity; congruence. }
  rewrite !Hprop. unfold Js.or_else.
  destruct (Js.truthy (Js.member data "detail")).
  - destruct (Js.ToString (Js.member data "detail")); reflexivity.
  - destruct (Js.truthy (Js.member data "message")).
    + destruct (Js.ToString (Js.member data "message")); reflexivity.
    + reflexivity.
Qed.

(** C8, amended.  A response that the client does not take for JSON (no
    content-type header, or one without [application/json]) makes the
    promise resolve to [{ message: <body text>, status: <status> }],
    whatever the status, when the body can be read; when reading the body
    fails, the promise rejects with the error of the read, as the [catch]
    passes it on. *)
Theorem request_non_json_resolves (r : ApiService.Response) :
  ApiService.is_json r = false →
  (∀ body, ApiService.text r = inr body →
     settled (ApiService.Answered r)
     = Js.Resolved (Js.Obj [("message", Js.Str body);
                            ("status", Js.Num (ApiService.status r))]))
  ∧ (∀ e, ApiService.text r = inl e →
       settled (ApiService.Answered r) = Js.Rejected (ApiService.rethrow baseURL e)).
Proof.
  intros Hj. unfold settled. cbn. unfold ApiService.respond, ApiService.settle.
  rewrite Hj. split; intros ? ->; reflexivity.
Qed.

End Request.

(** Witness of C2, amended: a 404 with [{ detail: "Not found" }]. *)
Lemma request_error_message_witness :
  snd (ApiService.request "http://localhost:8000" "/api/projects/1" ApiService.no_options)
    (ApiService.Answered
       {| ApiService.status := 404;
          ApiService.content_type := Some "application/json; charset=utf-8";
          ApiService.text := inr "";
          ApiService.json := inr (Js.Obj [("detail", Js.Str "Not found")]) |})
  = Js.Rejected (Js.Error "Error" "Not found").
Proof.
  refine (proj2 (request_error_message "http://localhost:8000" "/api/projects/1"
                   ApiService.no_options _ (Js.Obj [("detail", Js.Str "Not found")])
                   _ _) _ _ _);
    (reflexivity || discriminate).
Defined.

(** C2 as stated fails: with an empty [detail] next to a [message] the
    error carries the [message], not the [detail] that is present; and
    with a [null] body the error is the [TypeError] of the property read,
    not the status line. *)
Lemma request_error_message_counterexample :
  ApiService.is_json empty_detail_response = true
  ∧ ApiService.ok empty_detail_response = false
  ∧ snd (ApiService.request "" "/api/x" ApiService.no_options)
      (ApiService.Answered empty_detail_response)
    = Js.Rejected (Js.Error "Error" "boom")
  ∧ spec_error_message
      (Js.Obj [("detail", Js.Str ""); ("message", Js.Str "boom")]) 500 = ""
  ∧ ApiService.is_json null_body_response = true
  ∧ ApiService.ok null_body_response = false
  ∧ snd (ApiService.request "" "/api/x" ApiService.no_options)
      (ApiService.Answered null_body_response)
    = Js.Rejected (Js.Error "TypeError"
        "Cannot read properties of null (reading 'detail')")
  ∧ spec_error_message Js.Null 500 = "HTTP error! status: 500".
Proof. repeat split; vm_compute; reflexivity. Qed.

(** The error messages of some bodies that are not strings: a number
    from [1e21] on prints with an exponent, a fraction with its point, a
    list of validation errors as the objects it holds; and a [detail]
    with a [toString] field of its own has no string form. *)
Example request_error_message_of_values :
  let rejection detail :=
    snd (ApiService.request "" "/api/x" ApiService.no_options)
      (ApiService.Answered
         {| ApiService.status := 422;
            ApiService.content_type := Some "application/json";
            ApiService.text := inr "";
            ApiService.json := inr (Js.Obj [("detail", detail)]) |}) in
  rejection (Js.Num (10 ^ 21)) = Js.Rejected (Js.Error "Error" "1e+21")
  ∧ rejection (Js.Num 404) = Js.Rejected (Js.Error "Error" "404")
  ∧ rejection (Js.Float (Js.Frac 3 1)) = Js.Rejected (Js.Error "Error" "1.5")
  ∧ rejection (Js.Arr [Js.Obj [("msg", Js.Str "field required")]; Js.Null; Js.Num 2])
    = Js.Rejected (Js.Error "Error" "[object Object],,2")
  ∧ rejection (Js.Obj [("toString", Js.Num 1)])
    = Js.Rejected (Js.Error "TypeError" "Cannot convert object to primitive value").
Proof. repeat split; vm_compute; reflexivity. Qed.

(** Witness of C8, amended: a 502 with an HTML body is returned as a
    value. *)
Lemma request_non_json_resolves_witness :
  ApiService.ok html_error_response = false
  ∧ snd (ApiService.request "" "/api/health" ApiService.no_options)
      (ApiService.Answered html_error_response)
    = Js.Resolved (Js.Obj [("message", Js.Str "<h1>Bad Gateway</h1>");
                           ("status", Js.Num 502)]).
Proof.
  split; [reflexivity |].
  refine (proj1 (request_non_json_resolves "" "/api/health" ApiService.no_options
                   html_error_response _) "<h1>Bad Gateway</h1>" _);
    reflexivity.
Defined.

(** C8 as stated fails: the same 502 whose body cannot be read (the
    connection breaks after the headers) is not returned as a value; the
    promise rejects. *)
Lemma request_non_json_counterexample :
  ApiService.is_json unreadable_response = false
  ∧ ApiService.ok unreadable_response = false
  ∧ snd (ApiService.request "" "/api/health" ApiService.no_options)
      (ApiService.Answered unreadable_response)
    = Js.Rejected (Js.Error "TypeError" "network error").
Proof. repeat split. Qed.

(** ** The chat endpoints *)















Example getChatHistory_default_url :
  ApiService.url
    (fst (ApiService.getChatHistory "http://localhost:8000"
            (Js.Str "p1") (Js.Str "define") Js.Undefined))
  = "http://localhost:8000/api/chat/p1/define/history?limit=50".
Proof. reflexivity. Qed.

(** A limit that is passed becomes the query. *)
Example getChatHistory_limit :
  ApiService.url
    (fst (ApiService.getChatHistory "" (Js.Str "p1") (Js.Str "define") (Js.Num 10)))
  = "/api/chat/p1/define/history?limit=10"
  ∧ Url.query <$> Url.route "/api/chat/p1/define/history?limit=10" = Some (Some "limit=10").
Proof. split; reflexivity. Qed.

(** What the parser and the server make of some stages that are not
    plain: a space is escaped and read back, a tab is dropped, a
    backslash separates, a dot segment is resolved, an escape is read as
    the byte it names. *)
Example route_of_other_stages :
  Url.decoded_path <$> Url.route "/api/chat/p1/user stories/history"
  = Some ["api"; "chat"; "p1"; "user stories"; "history"]
  ∧ Url.path <$> Url.route "/api/chat/p1/user stories/history"
    = Some ["api"; "chat"; "p1"; "user%20stories"; "history"]
  ∧ Url.decoded_path <$> Url.route ("/api/chat/p1/de" +:+ String (Ascii.ascii_of_nat 9) "fine/history")
    = Some ["api"; "chat"; "p1"; "define"; "history"]
  ∧ Url.decoded_path <$> Url.route ("/api/chat/p1/a" +:+ String (Ascii.ascii_of_nat 92) "b/history")
    = Some ["api"; "chat"; "p1"; "a"; "b"; "history"]
  ∧ Url.decoded_path <$> Url.route "/api/chat/p1/../history"
    = Some ["api"; "chat"; "history"]
  ∧ Url.decoded_path <$> Url.route "/api/chat/p1/%64efine/history"
    = Some ["api"; "chat"; "p1"; "define"; "history"].
Proof. repeat split; vm_compute; reflexivity. Qed.




(** ** The expanded test suites *)

Example toggleSuite_adds :
  TestStagePanel.toggleSuite 3%nat ({[1%nat; 2%nat]} : gset nat) = {[1%nat; 2%nat; 3%nat]}.
Proof. vm_compute. reflexivity. Qed.

Example toggleSuite_removes :
  TestStagePanel.toggleSuite 2%nat ({[1%nat; 2%nat]} : gset nat) = {[1%nat]}.
Proof. vm_compute. reflexivity. Qed.

(** C10.  [toggleSuite(s)] removes [s] from the expanded suites when it
    is a member and adds it otherwise, leaving the other members as they
    are, and toggling the same suite twice gives back the original set. *)
Theorem toggleSuite_involutive {K : Type} {EqK : EqDecision K} {CountK : Countable K}
    (s : K) (E : gset K) :
  (∀ x, x ∈ TestStagePanel.toggleSuite s E ↔ (x ≠ s ∧ x ∈ E) ∨ (x = s ∧ s ∉ E))
  ∧ TestStagePanel.toggleSuite s (TestStagePanel.toggleSuite s E) = E.
Proof.
  assert (Hmem : ∀ (F : gset K) x,
             x ∈ TestStagePanel.toggleSuite s F ↔ (x ≠ s ∧ x ∈ F) ∨ (x = s ∧ s ∉ F)).
  { intros F x. unfold TestStagePanel.toggleSuite.
    destruct (decide (s ∈ F)) as [Hin | Hout].
    - rewrite elem_of_difference, elem_of_singleton. split.
      + intros [Hx Hne]. left. split; assumption.
      + intros [[Hne Hx] | [_ Hout]]; [split; assumption | contradiction].
    - rewrite elem_of_union, elem_of_singleton. split.
      + intros [Hx | ->].
        * left. split; [intros -> | assumption]. contradiction.
        * right. split; [reflexivity | assumption].
      + intros [[_ Hx] | [-> _]]; [left; assumption | right; reflexivity]. }
  split; [apply Hmem |].
  apply set_eq. intros x. rewrite Hmem. split.
  - intros [[Hne Hx] | [-> Hout]].
    + apply Hmem in Hx. destruct Hx as [[_ Hx] | [Hxs _]]; [assumption | contradiction].
    + destruct (decide (s ∈ E)) as [Hin | HnE]; [assumption |].
      exfalso. apply Hout, Hmem. right. split; [reflexivity | assumption].
  - intros Hx. destruct (decide (x = s)) as [-> | Hne].
    + right. split; [reflexivity |]. intros Hin. apply Hmem in Hin.
      destruct Hin as [[Hss _] | [_ HnE]]; [congruence | contradiction].
    + left. split; [assumption |]. apply Hmem. left. split; assumption.
Qed.

(** ** Completed generations *)

Example discover_result_advances :
  match WorkspaceView.handleGenerationComplete epoch discover_result WorkspaceView.initial with
  | inr st => WorkspaceView.currentStage st = "define"
  | inl _ => False
  end.
Proof. vm_compute. reflexivity. Qed.

(** C3 as stated fails: a result that contains both documents and is
    tagged [develop], or carries tickets, is taken by the first branch of
    the handler, which records tickets and returns; the stage indicator,
    the current stage and the artifacts stay as they were. *)
Lemma handleGenerationComplete_counterexample :
  Js.truthy (Js.member develop_tagged_result "problem_statement") = true
  ∧ Js.truthy (Js.member develop_tagged_result "stakeholder_analysis") = true
  ∧ match WorkspaceView.handleGenerationComplete epoch develop_tagged_result
            WorkspaceView.initial with
    | inr st =>
        WorkspaceView.currentStage st = "discover"
        ∧ WorkspaceView.stageData st !! "discover"
          = Some {| StageIndicator.status := "active"; StageIndicator.itemCount := Some 0%nat |}
        ∧ WorkspaceView.stageData st !! "define"
          = Some {| StageIndicator.status := "pending"; StageIndicator.itemCount := Some 0%nat |}
        ∧ WorkspaceView.artifacts st !! "discover" = Some []
    | inl _ => False
    end
  ∧ Js.truthy (Js.member ticketed_result "problem_statement") = true
  ∧ Js.truthy (Js.member ticketed_result "stakeholder_analysis") = true
  ∧ match WorkspaceView.handleGenerationComplete epoch ticketed_result
            WorkspaceView.initial with
    | inr st =>
        WorkspaceView.currentStage st = "discover"
        ∧ WorkspaceView.stageData st !! "discover"
          = Some {| StageIndicator.status := "active"; StageIndicator.itemCount := Some 0%nat |}
        ∧ WorkspaceView.artifacts st !! "discover" = Some []
    | inl _ => False
    end.
Proof. repeat split; vm_compute; reflexivity. Qed.

(** A result with a truthy member is an object, a string or an array, so
    reading its members does not throw. *)
Lemma prop_of_truthy_member (v : Js.value) (k k' : string) :
  Js.truthy (Js.member v k) = true → Js.prop v k' = inr (Js.member v k').
Proof. destruct v; cbn; intros; (reflexivity || discriminate). Qed.

(** C3, amended.  When [handleGenerationComplete] receives a result whose
    [stage] is not ['develop'], whose [tickets] is absent or falsy, and
    which contains both a problem statement and a stakeholder analysis,
    the handler returns and the workspace advances: the discover entry of
    the indicator becomes 'passed' with two items, the define entry
    becomes 'active', every other entry is kept, [currentStage] becomes
    'define', and the artifact list of discover becomes the two artifacts
    built from the result. *)
Theorem handleGenerationComplete_discover
    (clk : WorkspaceView.clock) (result : Js.value) (st : WorkspaceView.state) :
  Js.is_str (Js.member result "stage") "develop" = false →
  Js.truthy (Js.member result "tickets") = false →
  Js.truthy (Js.member result "problem_statement") = true →
  Js.truthy (Js.member result "stakeholder_analysis") = true →
  ∃ st',
    WorkspaceView.handleGenerationComplete clk result st = inr st'
    ∧ WorkspaceView.stageData st' !! "discover"
      = Some {| StageIndicator.status := "passed"; StageIndicator.itemCount := Some 2%nat |}
    ∧ WorkspaceView.stageData st' !! "define"
      = Some {| StageIndicator.status := "active"; StageIndicator.itemCount := Some 0%nat |}
    ∧ (∀ k, k ≠ "discover" → k ≠ "define" →
         WorkspaceView.stageData st' !! k = WorkspaceView.stageData st !! k)
    ∧ StageIndicator.getStageStatus (WorkspaceView.stageData st') "discover" = "passed"
    ∧ StageIndicator.getStageItemCount (WorkspaceView.stageData st') "discover" = 2%nat
    ∧ StageIndicator.getStageStatus (WorkspaceView.stageData st') "define" = "active"
    ∧ WorkspaceView.currentStage st' = "define"
    ∧ WorkspaceView.artifacts st' !! "discover"
      = Some
          [ Js.Obj [("artifact_id",
                     Js.member (Js.member result "problem_statement") "artifact_id");
                    ("name", Js.Str "Problem Statement");
                    ("content", Js.member (Js.member result "problem_statement") "content");
                    ("created_at",
                     Js.member (Js.member result "problem_statement") "created_at");
                    ("created_by", Js.Str "AI Business Analyst");
                    ("stage", Js.Str "discover")];
            Js.Obj [("artifact_id",
                     Js.member (Js.member result "stakeholder_analysis") "artifact_id");
                    ("name", Js.Str "Stakeholder Analysis");
                    ("content", Js.member (Js.member result "stakeholder_analysis") "content");
                    ("created_at",
                     Js.member (Js.member result "stakeholder_analysis") "created_at");
                    ("created_by", Js.Str "AI Business Analyst");
                    ("stage", Js.Str "discover")] ].
Proof.
  intros Hstage Htickets Hps Hsa.
  unfold WorkspaceView.handleGenerationComplete.
  rewrite (prop_of_truthy_member _ _ "stage" Hps).
  rewrite Hstage, Htickets, Hps, Hsa. cbn [orb andb].
  eexists. split; [reflexivity |].
  cbn [WorkspaceView.stageData WorkspaceView.artifacts WorkspaceView.currentStage
       WorkspaceView.setFileContent WorkspaceView.setSelectedFile
       WorkspaceView.setCurrentStage WorkspaceView.updStageData
       WorkspaceView.updArtifacts WorkspaceView.setStageData
       WorkspaceView.setArtifacts].
  assert (Hdiscover :
    (<["define" := WorkspaceView.info "active" 0]>
       (<["discover" := WorkspaceView.info "passed" 2]> (WorkspaceView.stageData st)))
      !! "discover" = Some (WorkspaceView.info "passed" 2)).
  { rewrite lookup_insert_ne by discriminate. apply lookup_insert_eq. }
  assert (Hdefine :
    (<["define" := WorkspaceView.info "active" 0]>
       (<["discover" := WorkspaceView.info "passed" 2]> (WorkspaceView.stageData st)))
      !! "define" = Some (WorkspaceView.info "active" 0)).
  { apply lookup_insert_eq. }
  unfold StageIndicator.getStageStatus, StageIndicator.getStageItemCount.
  rewrite Hdiscover, Hdefine.
  repeat split; try reflexivity.
  - intros k Hk1 Hk2. now rewrite !lookup_insert_ne by congruence.
  - apply lookup_insert_eq.
Qed.

(** Witness of C3, amended: the discover result on a fresh workspace. *)
Lemma handleGenerationComplete_discover_witness :
  ∃ st',
    WorkspaceView.handleGenerationComplete epoch discover_result WorkspaceView.initial
    = inr st'
    ∧ WorkspaceView.currentStage st' = "define".
Proof.
  destruct (handleGenerationComplete_discover epoch discover_result
              WorkspaceView.initial eq_refl eq_refl eq_refl eq_refl)
    as (st' & Hrun & _ & _ & _ & _ & _ & _ & Hcur & _).
  exists st'. split; assumption.
Defined.

(** ** Moving to the next stage *)

Example handleMoveToNextStage_initial :
  StageIndicator.status <$>
    WorkspaceView.stageData
      (WorkspaceView.handleMoveToNextStage "define" WorkspaceView.initial) !! "discover"
  = Some "passed".
Proof. vm_compute. reflexivity. Qed.

(** C7 as stated fails.  After the discover result the current stage is
    define while discover is still viewed; the gate of discover hands
    'define' to the handler, and the entry of the old current stage,
    define, set to 'passed' and then to 'active', ends 'active'. *)
Lemma handleMoveToNextStage_counterexample :
  WorkspaceView.currentStage after_discover = "define"
  ∧ WorkspaceView.viewingStage after_discover = "discover"
  ∧ StageGatePanel.nextStage (WorkspaceView.viewingStage after_discover) = Some "define"
  ∧ StageIndicator.status <$>
      (WorkspaceView.stageData (WorkspaceView.handleMoveToNextStage "define" after_discover)
       !! WorkspaceView.currentStage after_discover)
    = Some "active"
  ∧ StageIndicator.status <$>
      (WorkspaceView.stageData (WorkspaceView.handleMoveToNextStage "define" after_discover)
       !! WorkspaceView.currentStage after_discover)
    ≠ Some "passed".
Proof. repeat split; try (vm_compute; reflexivity). vm_compute. discriminate. Qed.

(** C7, amended.  [handleMoveToNextStage(nextStage)] writes two entries
    of [stageData], the one of the old current stage and the one of
    [nextStage]: every other entry is unchanged, no entry changes its
    [itemCount] (the written ones included), the entry of [nextStage]
    ends with status 'active', and the entry of the old current stage,
    when it is another stage than [nextStage], ends with status 'passed'. *)
Theorem handleMoveToNextStage_frame (nextStage : string) (st : WorkspaceView.state) :
  let st' := WorkspaceView.handleMoveToNextStage nextStage st in
  (∀ k, k ≠ WorkspaceView.currentStage st → k ≠ nextStage →
     WorkspaceView.stageData st' !! k = WorkspaceView.stageData st !! k)
  ∧ (∀ k, (WorkspaceView.stageData st' !! k) ≫= StageIndicator.itemCount
          = (WorkspaceView.stageData st !! k) ≫= StageIndicator.itemCount)
  ∧ (∀ k, StageIndicator.getStageItemCount (WorkspaceView.stageData st') k
          = StageIndicator.getStageItemCount (WorkspaceView.stageData st) k)
  ∧ StageIndicator.status <$> (WorkspaceView.stageData st' !! nextStage) = Some "active"
  ∧ (WorkspaceView.currentStage st ≠ nextStage →
     StageIndicator.status <$> (WorkspaceView.stageData st' !! WorkspaceView.currentStage st)
     = Some "passed").
Proof.
  cbn zeta. unfold WorkspaceView.handleMoveToNextStage.
  cbn [WorkspaceView.stageData WorkspaceView.updStageData WorkspaceView.setStageData
       WorkspaceView.setActiveTab WorkspaceView.setViewingStage
       WorkspaceView.setCurrentStage WorkspaceView.currentStage].
  set (cur := WorkspaceView.currentStage st).
  set (sd := WorkspaceView.stageData st).
  assert (Hcount : ∀ k,
    (<[nextStage := WorkspaceView.with_status
                      (<[cur := WorkspaceView.with_status (sd !! cur) "passed"]> sd !! nextStage)
                      "active"]>
       (<[cur := WorkspaceView.with_status (sd !! cur) "passed"]> sd) !! k)
      ≫= StageIndicator.itemCount
    = (sd !! k) ≫= StageIndicator.itemCount).
  { intros k. destruct (decide (nextStage = k)) as [<- | Hn].
    - rewrite lookup_insert_eq. cbn.
      destruct (decide (cur = nextStage)) as [-> | Hc].
      + rewrite lookup_insert_eq. reflexivity.
      + rewrite lookup_insert_ne by exact Hc. reflexivity.
    - rewrite lookup_insert_ne by exact Hn.
      destruct (decide (cur = k)) as [<- | Hc].
      + rewrite lookup_insert_eq. reflexivity.
      + rewrite lookup_insert_ne by exact Hc. reflexivity. }
  repeat split.
  - intros k Hk1 Hk2. now rewrite !lookup_insert_ne by congruence.
  - exact Hcount.
  - intros k. unfold StageIndicator.getStageItemCount.
    specialize (Hcount k).
    destruct (_ !! k) as [i1|]; destruct (sd !! k) as [i2|]; cbn in Hcount;
      try rewrite Hcount; try reflexivity.
    + now rewrite <- Hcount.
  - now rewrite lookup_insert_eq.
  - intros Hne. rewrite lookup_insert_ne by congruence.
    now rewrite lookup_insert_eq.
Qed.

(** Witness of C7, amended: leaving discover for define on a fresh
    workspace. *)
Lemma handleMoveToNextStage_frame_witness :
  StageIndicator.status <$>
    (WorkspaceView.stageData
       (WorkspaceView.handleMoveToNextStage "define" WorkspaceView.initial)
     !! WorkspaceView.currentStage WorkspaceView.initial)
  = Some "passed"
  ∧ WorkspaceView.stageData
      (WorkspaceView.handleMoveToNextStage "define" WorkspaceView.initial) !! "test"
    = WorkspaceView.stageData WorkspaceView.initial !! "test".
Proof.
  pose proof (handleMoveToNextStage_frame "define" WorkspaceView.initial) as Hframe.
  cbn zeta in Hframe.
  destruct Hframe as (Hother & _ & _ & _ & Hpassed).
  split.
  - apply Hpassed. discriminate.
  - apply Hother; discriminate.
Defined.

(** ** The develop stage and GitHub *)

Example configured_panel_implements :
  DevelopStagePanel.session [configured_step]
  = [ DevelopStagePanel.ConsoleLog; DevelopStagePanel.ConsoleLog;
      DevelopStagePanel.SetIsImplementing true;
      DevelopStagePanel.SetImplementingKey (Js.Str "T-1");
      DevelopStagePanel.CallImplementTicket (Js.Str "p1") (Js.Str "T-1") (Js.Str "user");
      DevelopStagePanel.ConsoleError;
      DevelopStagePanel.Alert "Implementation failed: no";
      DevelopStagePanel.SetIsImplementing false;
      DevelopStagePanel.SetImplementingKey Js.Null ].
Proof. reflexivity. Qed.

Lemma isConfigured_false (p : DevelopStagePanel.props) :
  not_configured (DevelopStagePanel.githubConfig p) →
  Js.truthy (DevelopStagePanel.isConfigured p) = false.
Proof.
  unfold not_configured, DevelopStagePanel.isConfigured, Js.or_else.
  intros ->. reflexivity.
Qed.

Lemma loadTickets_no_implement (p : DevelopStagePanel.props) (reply : Js.outcome) :
  existsb DevelopStagePanel.is_implement_call (DevelopStagePanel.loadTickets p reply)
  = false.
Proof.
  unfold DevelopStagePanel.loadTickets.
  destruct reply as [result | e]; [| reflexivity].
  destruct (Js.prop result "status") as [e | st]; [reflexivity |].
  destruct (Js.is_str st "success"); reflexivity.
Qed.

Lemma openModal_no_implement (p : DevelopStagePanel.props) :
  existsb DevelopStagePanel.is_implement_call (DevelopStagePanel.openModal p) = false.
Proof. unfold DevelopStagePanel.openModal. destruct (_ p); reflexivity. Qed.

(** Rendered without a configured repository, the panel shows the connect
    prompt and no action on it reaches [api.implementTicket]. *)
Lemma perform_unconfigured (p : DevelopStagePanel.props) (st : DevelopStagePanel.state)
    (a : DevelopStagePanel.action) (reply : Js.outcome) :
  not_configured (DevelopStagePanel.githubConfig p) →
  DevelopStagePanel.ticketsSection p st = DevelopStagePanel.ConnectPrompt
  ∧ existsb DevelopStagePanel.is_implement_call (DevelopStagePanel.perform p st a reply)
    = false.
Proof.
  intros Hcfg. apply isConfigured_false in Hcfg.
  assert (Hsec : DevelopStagePanel.ticketsSection p st = DevelopStagePanel.ConnectPrompt).
  { unfold DevelopStagePanel.ticketsSection. now rewrite Hcfg. }
  split; [exact Hsec |].
  destruct a; unfold DevelopStagePanel.perform; rewrite ?Hcfg, ?Hsec;
    auto using loadTickets_no_implement, openModal_no_implement.
Qed.

(** C4.  While the GitHub configuration handed to the develop panel is
    missing or has a false [is_configured], every render of the panel
    shows the connect prompt in place of the ticket list and no sequence
    of actions on it calls [api.implementTicket]; and when the develop
    stage is viewed and the configuration check fails or returns a
    configuration that is not configured, the GitHub modal is opened. *)
Theorem develop_stage_requires_github :
  (∀ steps : list DevelopStagePanel.step,
     Forall (λ s, not_configured
                    (DevelopStagePanel.githubConfig (DevelopStagePanel.step_props s)))
       steps →
     Forall (λ s, DevelopStagePanel.ticketsSection
                    (DevelopStagePanel.step_props s) (DevelopStagePanel.step_state s)
                  = DevelopStagePanel.ConnectPrompt) steps
     ∧ existsb DevelopStagePanel.is_implement_call (DevelopStagePanel.session steps)
       = false)
  ∧ (∀ (projectId : Js.value) (reply : Js.outcome) (st : WorkspaceView.state),
       WorkspaceView.viewingStage st = "develop" →
       match reply with
       | Js.Resolved config => not_configured config
       | Js.Rejected _ => True
       end →
       WorkspaceView.showGitHubModal (WorkspaceView.onViewingStage projectId reply st)
       = true).
Proof.
  split.
  - intros steps Hall. induction Hall as [| s steps Hs _ [IHsec IHcall]].
    + split; [constructor | reflexivity].
    + destruct (perform_unconfigured _ (DevelopStagePanel.step_state s)
                  (DevelopStagePanel.step_action s) (DevelopStagePanel.step_reply s) Hs)
        as [Hsec Hcall].
      split; [constructor; assumption |].
      unfold DevelopStagePanel.session in *. cbn [map concat].
      rewrite existsb_app, Hcall, IHcall. reflexivity.
  - intros projectId reply st Hview Hreply.
    unfold WorkspaceView.onViewingStage, WorkspaceView.checkGitHubConfig.
    rewrite Hview. cbn [String.eqb Ascii.eqb Bool.eqb].
    change (String.eqb "develop" "develop") with true. cbn iota.
    destruct (Js.truthy projectId); cbn [negb]; [| reflexivity].
    destruct reply as [config | e].
    + unfold not_configured in Hreply. rewrite Hreply. reflexivity.
    + reflexivity.
Qed.

(** Witness of C4: a click on a ticket of an unconfigured project, and
    the first look at the develop stage when the check fails. *)
Lemma develop_stage_requires_github_witness :
  existsb DevelopStagePanel.is_implement_call
    (DevelopStagePanel.session [unconfigured_step]) = false
  ∧ WorkspaceView.showGitHubModal
      (WorkspaceView.onViewingStage (Js.Str "p1")
         (Js.Rejected (Js.Error "Error" "HTTP error! status: 404"))
         (WorkspaceView.handleStageClick "develop" WorkspaceView.initial))
    = true.
Proof.
  destruct develop_stage_requires_github as [Hpanel Hmodal].
  split.
  - apply (Hpanel [unconfigured_step]).
    constructor; [reflexivity | constructor].
  - apply Hmodal; [reflexivity | exact I].
Defined.

(** ** Failed generations *)

Example handleGenerate_rejected_effects :
  DiscoverInputPanel.handleGenerate idle_discover (units "an idea")
    (Js.Rejected (Js.Error "Error" "HTTP error! status: 500"))
  = [ DiscoverInputPanel.SetIsGenerating true;
      DiscoverInputPanel.SetError None;
      DiscoverInputPanel.SetGenerationStep 0;
      DiscoverInputPanel.Sleep 500;
      DiscoverInputPanel.SetGenerationStep 1;
      DiscoverInputPanel.CallGenerateDiscover (Js.Str "p1") (units "an idea") "demo_user";
      DiscoverInputPanel.ConsoleError;
      DiscoverInputPanel.SetError (Some "HTTP error! status: 500");
      DiscoverInputPanel.SetIsGenerating false ].
Proof. reflexivity. Qed.

(** The call is made exactly when the idea is not blank and no
    generation is running. *)
Lemma handleGenerate_calls (p : DiscoverInputPanel.props) (userIdea : Js.ustring)
    (reply : Js.outcome) :
  existsb DiscoverInputPanel.is_generate_call
    (DiscoverInputPanel.handleGenerate p userIdea reply) = true
  ↔ Js.trim userIdea ≠ [] ∧ DiscoverInputPanel.isGenerating p = false.
Proof.
  unfold DiscoverInputPanel.handleGenerate.
  destruct (Js.trim userIdea) as [| c rest].
  - split; [discriminate | intros [Hn _]; contradiction].
  - destruct (DiscoverInputPanel.isGenerating p).
    + split; [discriminate | intros [_ Hg]; discriminate].
    + split; [intros _; split; [discriminate | reflexivity] | reflexivity].
Qed.

(** C6.  When [handleGenerate] has called [api.generateDiscover] and the
    call rejects with an error, the handler sets the error state to the
    message of the error, or to 'Generation failed. Please try again.'
    when that message is empty, does not invoke [onGenerationComplete],
    and leaves [isGenerating] false; the workspace, its stage included, is
    as it was. *)
Theorem handleGenerate_rejection
    (p : DiscoverInputPanel.props) (userIdea : Js.ustring) (err : Js.error)
    (ps : DiscoverInputPanel.parent)
    (clk : WorkspaceView.clock) (ws : WorkspaceView.state) :
  let effects := DiscoverInputPanel.handleGenerate p userIdea (Js.Rejected err) in
  existsb DiscoverInputPanel.is_generate_call effects = true →
  DiscoverInputPanel.error (DiscoverInputPanel.run ps effects)
  = Some (if String.eqb (Js.message err) ""
          then "Generation failed. Please try again."
          else Js.message err)
  ∧ DiscoverInputPanel.generating (DiscoverInputPanel.run ps effects) = false
  ∧ existsb DiscoverInputPanel.is_completion effects = false
  ∧ DiscoverInputPanel.deliver clk ws effects = ws
  ∧ WorkspaceView.currentStage (DiscoverInputPanel.deliver clk ws effects)
    = WorkspaceView.currentStage ws
  ∧ WorkspaceView.stageData (DiscoverInputPanel.deliver clk ws effects)
    = WorkspaceView.stageData ws.
Proof.
  cbn zeta. intros Hcall. apply handleGenerate_calls in Hcall.
  destruct Hcall as [Hidea Hidle].
  unfold DiscoverInputPanel.handleGenerate.
  destruct (Js.trim userIdea) as [| c rest]; [contradiction |].
  rewrite Hidle. cbn. repeat split; reflexivity.
Qed.

(** Witness of C6: a rejected generation on an idle panel. *)
Lemma handleGenerate_rejection_witness :
  DiscoverInputPanel.error
    (DiscoverInputPanel.run
       {| DiscoverInputPanel.generating := false;
          DiscoverInputPanel.error := None;
          DiscoverInputPanel.generationStep := 0 |}
       (DiscoverInputPanel.handleGenerate idle_discover (units "an idea")
          (Js.Rejected (Js.Error "Error" ""))))
  = Some "Generation failed. Please try again.".
Proof.
  refine (proj1 (handleGenerate_rejection idle_discover (units "an idea")
                   (Js.Error "Error" "") _ epoch WorkspaceView.initial _)).
  reflexivity.
Defined.

(** ** The GitHub form *)

Lemma trim_start_nil (s : Js.ustring) : Js.trim_start s = [] ↔ blank s.
Proof.
  unfold blank. induction s as [| c s IH]; cbn.
  - split; [constructor | reflexivity].
  - destruct (Js.is_white_space c) eqn:Hc.
    + rewrite IH. split; [intros; constructor; assumption |].
      intros Hall. inversion Hall; assumption.
    + split; [discriminate |]. intros Hall. inversion Hall; congruence.
Qed.

Lemma trim_start_head (s : Js.ustring) (c : N) (rest : Js.ustring) :
  Js.trim_start s = c :: rest → Js.is_white_space c = false.
Proof.
  induction s as [| x s IH]; cbn; [discriminate |].
  destruct (Js.is_white_space x) eqn:Hx; [exact IH |].
  intros [= -> _]. exact Hx.
Qed.

Lemma rev_nil_iff {A} (l : list A) : rev l = [] ↔ l = [].
Proof.
  split; [| intros ->; reflexivity].
  intros Hrev. apply (f_equal (@length A)) in Hrev.
  rewrite length_rev in Hrev. destruct l; [reflexivity | discriminate].
Qed.

Lemma trim_end_nil (s : Js.ustring) : Js.trim_end s = [] ↔ blank s.
Proof.
  unfold Js.trim_end, blank. split.
  - intros Hnil. apply rev_nil_iff, trim_start_nil in Hnil.
    rewrite <- (rev_involutive s). now apply Forall_rev.
  - intros Hall. apply rev_nil_iff, trim_start_nil. now apply Forall_rev.
Qed.

(** [trim] leaves nothing exactly when every unit is white space. *)
Lemma trim_nil (s : Js.ustring) : Js.trim s = [] ↔ blank s.
Proof.
  unfold Js.trim. split.
  - intros Hnil. apply trim_end_nil in Hnil. apply trim_start_nil.
    destruct (Js.trim_start s) as [| c rest] eqn:Hs; [reflexivity |].
    apply trim_start_head in Hs. inversion Hnil; congruence.
  - intros Hall. apply trim_start_nil in Hall. rewrite Hall. reflexivity.
Qed.

Lemma blank_nonblank (s : Js.ustring) : ¬ blank s ↔ nonblank s.
Proof.
  unfold blank, nonblank. induction s as [| c s IH].
  - split; [intros Hn; destruct Hn; constructor | intros Hex; inversion Hex].
  - destruct (Js.is_white_space c) eqn:Hc.
    + split.
      * intros Hn. apply Exists_cons_tl, IH. intros Hall. apply Hn.
        constructor; assumption.
      * intros Hex Hall. inversion Hex; subst; [congruence |].
        inversion Hall; subst. now apply IH.
    + split; [intros _; now apply Exists_cons_hd |].
      intros _ Hall. inversion Hall; congruence.
Qed.

Lemma trim_nonblank (s : Js.ustring) : Js.trim s ≠ [] ↔ nonblank s.
Proof.
  rewrite <- blank_nonblank. split; intros Hn Hb; apply Hn; now apply trim_nil.
Qed.

(** [split] cuts at every separator: one part more than separators. *)
Lemma split_length (c : N) (s : Js.ustring) :
  length (Js.split c s) = S (count_occ N.eq_dec s c).
Proof.
  induction s as [| x s IH]; [reflexivity |].
  cbn [Js.split count_occ].
  destruct (N.eqb_spec x c) as [-> | Hne].
  - destruct (N.eq_dec c c) as [_ | Hcc]; [| contradiction]. cbn. now rewrite IH.
  - destruct (N.eq_dec x c) as [Heq | _]; [contradiction |].
    destruct (Js.split c s) as [| part parts]; [discriminate IH |]. exact IH.
Qed.

Lemma includes_unit_count (c : N) (s : Js.ustring) :
  Js.includes_unit c s = true ↔ (0 < count_occ N.eq_dec s c)%nat.
Proof.
  unfold Js.includes_unit. induction s as [| x s IH]; cbn.
  - split; [discriminate | lia].
  - destruct (N.eqb_spec c x) as [-> | Hne].
    + destruct (N.eq_dec x x) as [_ | Hxx]; [| contradiction].
      split; [lia | reflexivity].
    + destruct (N.eq_dec x c) as [Heq | _]; [congruence |]. exact IH.
Qed.

(** The checks of the form pass exactly when both fields are non-blank
    and the repository has one slash. *)
Lemma validate_none (token repo : Js.ustring) :
  GitHubConfigModal.validate token repo = None
  ↔ nonblank token ∧ nonblank repo ∧ count_occ N.eq_dec repo Js.slash = 1%nat.
Proof.
  unfold GitHubConfigModal.validate. rewrite <- !trim_nonblank.
  destruct (Js.trim token) as [| t ts].
  { split; [discriminate | intros [Ht _]; contradiction]. }
  destruct (Js.trim repo) as [| r rs].
  { split; [discriminate | intros (_ & Hr & _); contradiction]. }
  rewrite split_length.
  destruct (Js.includes_unit Js.slash repo) eqn:Hinc; cbn [negb orb].
  - destruct (Nat.eqb_spec (S (count_occ N.eq_dec repo Js.slash)) 2) as [Heq | Hne];
      cbn [negb].
    + split; [intros _ | reflexivity]. repeat split; (discriminate || lia).
    + split; [discriminate | intros (_ & _ & Hone); lia].
  - split; [discriminate |]. intros (_ & _ & Hone).
    assert (Hpos : Js.includes_unit Js.slash repo = true)
      by (apply includes_unit_count; lia).
    congruence.
Qed.

Lemma validate_messages (token repo : Js.ustring) (msg : string) :
  GitHubConfigModal.validate token repo = Some msg →
  msg = GitHubConfigModal.token_required
  ∨ msg = GitHubConfigModal.repo_required
  ∨ msg = GitHubConfigModal.repo_format.
Proof.
  unfold GitHubConfigModal.validate.
  destruct (Js.trim token); [intros [= <-]; auto |].
  destruct (Js.trim repo); [intros [= <-]; auto |].
  destruct (_ || _); [intros [= <-]; auto | discriminate].
Qed.

Example handleSubmit_bare_name :
  GitHubConfigModal.handleSubmit (Js.Str "p1") (units "ghp_abc") (units "repo")
    (Js.Resolved Js.Null) (λ _, None)
  = [ GitHubConfigModal.PreventDefault;
      GitHubConfigModal.SetError None;
      GitHubConfigModal.SetIsLoading true;
      GitHubConfigModal.ConsoleError;
      GitHubConfigModal.SetError (Some GitHubConfigModal.repo_format);
      GitHubConfigModal.SetIsLoading false ].
Proof. reflexivity. Qed.

Example handleSubmit_two_slashes :
  existsb GitHubConfigModal.is_save_call
    (GitHubConfigModal.handleSubmit (Js.Str "p1") (units "ghp_abc") (units "a/b/c")
       (Js.Resolved Js.Null) (λ _, None)) = false.
Proof. reflexivity. Qed.

(** C9.  [handleSubmit] calls [api.saveGitHubConfig] exactly when the
    token is non-blank, the repository is non-blank and the repository
    has one slash, which splits it in two parts; the call then carries
    the trimmed fields.  For every other input it makes no API call and
    its effects are the three opening ones, the inline error (one of the
    three messages of the form) and the reset of the loading flag. *)
Theorem handleSubmit_validates
    (projectId : Js.value) (token repo : Js.ustring)
    (reply : Js.outcome) (onSuccess : Js.value → option Js.error) :
  let effects := GitHubConfigModal.handleSubmit projectId token repo reply onSuccess in
  let valid :=
    nonblank token ∧ nonblank repo ∧ count_occ N.eq_dec repo Js.slash = 1%nat in
  (existsb GitHubConfigModal.is_save_call effects = true ↔ valid)
  ∧ (valid →
     length (Js.split Js.slash repo) = 2%nat
     ∧ ∃ rest,
         effects
         = [ GitHubConfigModal.PreventDefault;
             GitHubConfigModal.SetError None;
             GitHubConfigModal.SetIsLoading true;
             GitHubConfigModal.CallSaveGitHubConfig projectId (Js.trim token) (Js.trim repo) ]
           ++ rest)
  ∧ (¬ valid →
     existsb GitHubConfigModal.is_save_call effects = false
     ∧ ∃ msg,
         (msg = GitHubConfigModal.token_required
          ∨ msg = GitHubConfigModal.repo_required
          ∨ msg = GitHubConfigModal.repo_format)
         ∧ effects
           = [ GitHubConfigModal.PreventDefault;
               GitHubConfigModal.SetError None;
               GitHubConfigModal.SetIsLoading true;
               GitHubConfigModal.ConsoleError;
               GitHubConfigModal.SetError (Some msg);
               GitHubConfigModal.SetIsLoading false ]).
Proof.
  cbn zeta. unfold GitHubConfigModal.handleSubmit.
  pose proof (validate_none token repo) as Hnone.
  pose proof (validate_messages token repo) as Hmsg.
  destruct (GitHubConfigModal.validate token repo) as [msg |].
  - assert (Hinvalid : ¬ (nonblank token ∧ nonblank repo
                          ∧ count_occ N.eq_dec repo Js.slash = 1%nat)).
    { intros Hv. apply Hnone in Hv. discriminate. }
    assert (Hmsg' := Hmsg msg eq_refl).
    assert (Hnonempty : String.eqb msg "" = false).
    { destruct Hmsg' as [-> | [-> | ->]]; reflexivity. }
    cbn. rewrite Hnonempty. split; [| split].
    + split; [discriminate | intros Hv; contradiction].
    + intros Hv. contradiction.
    + intros _. split; [reflexivity |].
      exists msg. split; [exact Hmsg' | reflexivity].
  - assert (Hvalid := proj1 Hnone eq_refl). split; [| split].
    + split; [intros _; exact Hvalid | intros _; reflexivity].
    + intros _. split.
      * rewrite split_length. destruct Hvalid as (_ & _ & ->). reflexivity.
      * eexists. cbn. reflexivity.
    + intros Hn. contradiction.
Qed.

(** Witness of C9: a token and [owner/repo] reach the API, trimmed. *)
Lemma handleSubmit_validates_witness :
  ∃ rest,
    GitHubConfigModal.handleSubmit (Js.Str "p1") (units " ghp_abc ") (units "owner/repo")
      (Js.Rejected (Js.Error "Error" "HTTP error! status: 401")) (λ _, None)
    = [ GitHubConfigModal.PreventDefault;
        GitHubConfigModal.SetError None;
        GitHubConfigModal.SetIsLoading true;
        GitHubConfigModal.CallSaveGitHubConfig (Js.Str "p1")
          (Js.trim (units " ghp_abc ")) (Js.trim (units "owner/repo")) ]
      ++ rest.
Proof.
  refine (proj2 (proj1 (proj2 (handleSubmit_validates (Js.Str "p1") (units " ghp_abc ")
                                 (units "owner/repo")
                                 (Js.Rejected (Js.Error "Error" "HTTP error! status: 401"))
                                 (λ _, None))) _)).
  repeat split.
  - apply Exists_cons_tl, Exists_cons_hd. reflexivity.
  - apply Exists_cons_hd. reflexivity.
Defined.

(** * Further properties of the code *)

(** ** The REST client, beyond the error message *)

Example request_connection_refused :
  snd (ApiService.request "http://localhost:8000" "/api/projects" ApiService.no_options)
    (ApiService.Failed (Js.Error "TypeError" "Failed to fetch"))
  = Js.Rejected (Js.Error "Error"
      "Cannot connect to server. Is the backend running on http://localhost:8000?").
Proof. reflexivity. Qed.

Lemma rethrow_never_failed_to_fetch (baseURL : string) (e : Js.error) :
  ¬ (Js.name (ApiService.rethrow baseURL e) = "TypeError"
     ∧ Js.message (ApiService.rethrow baseURL e) = "Failed to fetch").
Proof.
  unfold ApiService.rethrow.
  destruct (String.eqb_spec (Js.name e) "TypeError") as [Hn | Hn];
    destruct (String.eqb_spec (Js.message e) "Failed to fetch") as [Hm | Hm]; cbn.
  - intros [Hname _]. discriminate Hname.
  - intros [_ Hmsg]. contradiction.
  - intros [Hname _]. contradiction.
  - intros [Hname _]. contradiction.
Qed.

(** X1.  Whatever the fetch does, an error that [request] rejects with is
    never the bare [TypeError: Failed to fetch] of the browser: the
    [catch] rewords that one, also when it comes out of [json()]. *)
Theorem request_never_rejects_failed_to_fetch
    (baseURL endpoint : string) (options : ApiService.RequestInit)
    (net : ApiService.fetched) (e : Js.error) :
  snd (ApiService.request baseURL endpoint options) net = Js.Rejected e →
  ¬ (Js.name e = "TypeError" ∧ Js.message e = "Failed to fetch").
Proof.
  cbn. unfold ApiService.respond.
  destruct (match net with
            | ApiService.Failed e0 => inl e0
            | ApiService.Answered r => ApiService.settle r
            end) as [e0 | v]; [| discriminate].
  intros [= <-]. apply rethrow_never_failed_to_fetch.
Qed.

(** Witness of X1: a refused connection. *)
Lemma request_never_rejects_failed_to_fetch_witness :
  ¬ (Js.name (Js.Error "Error" "Cannot connect to server. Is the backend running on ?")
     = "TypeError"
     ∧ Js.message (Js.Error "Error" "Cannot connect to server. Is the backend running on ?")
       = "Failed to fetch").
Proof.
  apply (request_never_rejects_failed_to_fetch "" "/api/health" ApiService.no_options
           (ApiService.Failed (Js.Error "TypeError" "Failed to fetch"))).
  reflexivity.
Defined.

(** X2.  [request] resolves in two cases only: to the parsed body of a
    response that it takes for JSON and whose status is 200-299, and to
    the [{ message, status }] wrapper of a response that it does not take
    for JSON and whose body can be read.  A failed fetch, a body that
    cannot be read or does not parse, and an error status with a JSON
    body never resolve. *)
Theorem request_resolves_iff
    (baseURL endpoint : string) (options : ApiService.RequestInit)
    (net : ApiService.fetched) (v : Js.value) :
  snd (ApiService.request baseURL endpoint options) net = Js.Resolved v
  ↔ ∃ r, net = ApiService.Answered r
         ∧ ((ApiService.is_json r = true ∧ ApiService.ok r = true
             ∧ ApiService.json r = inr v)
            ∨ (ApiService.is_json r = false
               ∧ ∃ body, ApiService.text r = inr body
                         ∧ v = Js.Obj [("message", Js.Str body);
                                       ("status", Js.Num (ApiService.status r))])).
Proof.
  cbn. unfold ApiService.respond, ApiService.settle. split.
  - destruct net as [e | r]; [discriminate |].
    intros Hres. exists r. split; [reflexivity |].
    destruct (ApiService.is_json r).
    + left. destruct (ApiService.json r) as [e | data]; [discriminate |].
      destruct (ApiService.ok r); cbn in Hres.
      * injection Hres as <-. repeat split.
      * destruct (ApiService.errorMessage data (ApiService.status r)) as [e | m];
          [discriminate |].
        destruct (Js.ToString m); discriminate.
    + right. destruct (ApiService.text r) as [e | body]; [discriminate |].
      injection Hres as <-. split; [reflexivity |]. exists body. split; reflexivity.
  - intros (r & -> & [(Hj & Hok & Hdata) | (Hj & body & Hbody & ->)]).
    + now rewrite Hj, Hdata, Hok.
    + now rewrite Hj, Hbody.
Qed.

(** ** The artifact list *)

Example artifacts_endpoint_filtered :
  ApiArtifacts.artifacts_endpoint (Js.Str "p1") (Js.Str "test plan") (Js.Str "a&b")
  = "/api/artifacts/project/p1?stage=test+plan&artifact_type=a%26b".
Proof. vm_compute. reflexivity. Qed.

Lemma ensure_array_is_array (response : Js.value) :
  ApiArtifacts.is_array (ApiArtifacts.ensure_array response) = true.
Proof.
  unfold ApiArtifacts.ensure_array.
  destruct (ApiArtifacts.is_array response) eqn:Hresp; [exact Hresp |].
  destruct (Js.truthy _); cbn; [| reflexivity].
  destruct (ApiArtifacts.is_array (Js.member response "artifacts")) eqn:Harts;
    [exact Harts | reflexivity].
Qed.

(** X3.  Whenever [listProjectArtifacts] resolves it resolves to an
    array: the response itself when that is an array, its [artifacts]
    when that is one, and the empty array for anything else; and it
    rejects exactly when its request does, with the same error.  Called
    without filters it asks for [/api/artifacts/project/<id>] with no
    query string. *)
Theorem listProjectArtifacts_returns_array
    (baseURL : string) (projectId stage artifactType : Js.value)
    (net : ApiService.fetched) :
  let listed := snd (ApiArtifacts.listProjectArtifacts baseURL projectId stage artifactType) net in
  let asked := snd (ApiService.request baseURL
                      (ApiArtifacts.artifacts_endpoint projectId
                         (match stage with Js.Undefined => Js.Null | v => v end)
                         (match artifactType with Js.Undefined => Js.Null | v => v end))
                      ApiService.no_options) net in
  (∀ v, listed = Js.Resolved v → ∃ items, v = Js.Arr items)
  ∧ (∀ items, asked = Js.Resolved (Js.Arr items) → listed = Js.Resolved (Js.Arr items))
  ∧ (∀ fields items, asked = Js.Resolved (Js.Obj fields) →
       Js.assoc "artifacts" fields = Js.Arr items →
       listed = Js.Resolved (Js.Arr items))
  ∧ (∀ response, asked = Js.Resolved response →
       ApiArtifacts.is_array response = false →
       ApiArtifacts.is_array (Js.member response "artifacts") = false →
       listed = Js.Resolved (Js.Arr []))
  ∧ (∀ e, listed = Js.Rejected e ↔ asked = Js.Rejected e)
  ∧ ApiService.url
      (fst (ApiArtifacts.listProjectArtifacts baseURL projectId Js.Undefined Js.Undefined))
    = baseURL +:+ "/api/artifacts/project/" +:+ Js.to_string projectId.
Proof.
  cbn zeta. unfold ApiArtifacts.listProjectArtifacts. cbn [ApiService.request snd fst].
  set (reply := ApiService.respond baseURL net).
  repeat split.
  - intros v Hv. destruct reply as [response | e]; [| discriminate].
    injection Hv as <-.
    pose proof (ensure_array_is_array response) as Harr.
    destruct (ApiArtifacts.ensure_array response); try discriminate Harr. eauto.
  - intros items ->. reflexivity.
  - intros fields items -> Harts. unfold ApiArtifacts.ensure_array. cbn.
    rewrite Harts. reflexivity.
  - intros response -> Hresp Harts. unfold ApiArtifacts.ensure_array.
    now rewrite Hresp, Harts, Bool.andb_false_r.
  - destruct reply; [discriminate | now intros [= ->]].
  - destruct reply; [discriminate | now intros [= ->]].
Qed.

(** Witness of X3: the [{ artifacts: [...] }] envelope. *)
Lemma listProjectArtifacts_returns_array_witness :
  snd (ApiArtifacts.listProjectArtifacts "" (Js.Str "p1") Js.Undefined Js.Undefined)
    (ApiService.Answered
       {| ApiService.status := 200;
          ApiService.content_type := Some "application/json";
          ApiService.text := inr "";
          ApiService.json :=
            inr (Js.Obj [("artifacts", Js.Arr [Js.Obj [("stage", Js.Str "define")]])]) |})
  = Js.Resolved (Js.Arr [Js.Obj [("stage", Js.Str "define")]]).
Proof.
  refine (proj1 (proj2 (proj2 (listProjectArtifacts_returns_array "" (Js.Str "p1")
                                 Js.Undefined Js.Undefined _)))
            [("artifacts", Js.Arr [Js.Obj [("stage", Js.Str "define")]])]
            [Js.Obj [("stage", Js.Str "define")]] _ _);
    reflexivity.
Defined.

(** ** Positions in a stage list *)

Lemma indexOf_lower_bound (l : list string) (x : string) : (-1 ≤ Js.indexOf l x)%Z.
Proof.
  induction l as [| y l IH]; cbn; [lia |].
  destruct (String.eqb y x); [lia |].
  destruct (Js.indexOf l x <? 0)%Z eqn:Hneg; lia.
Qed.

Lemma indexOf_absent (l : list string) (x : string) :
  Js.indexOf l x = (-1)%Z ↔ x ∉ l.
Proof.
  induction l as [| y l IH]; cbn.
  - split; [intros _ Hin; inversion Hin | reflexivity].
  - pose proof (indexOf_lower_bound l x) as Hlow.
    destruct (String.eqb_spec y x) as [-> | Hne].
    + split; [discriminate | intros Hn; exfalso; apply Hn; left].
    + rewrite not_elem_of_cons, <- IH.
      destruct (Js.indexOf l x <? 0)%Z eqn:Hneg.
      * apply Z.ltb_lt in Hneg. split; [intros _; split; [congruence | lia] | reflexivity].
      * apply Z.ltb_ge in Hneg. split; [lia | intros [_ Hi]; lia].
Qed.

Lemma indexOf_found (l : list string) (x : string) (i : nat) :
  Js.indexOf l x = Z.of_nat i → l !! i = Some x.
Proof.
  revert i. induction l as [| y l IH]; intros i; cbn.
  - lia.
  - pose proof (indexOf_lower_bound l x) as Hlow.
    destruct (String.eqb_spec y x) as [-> | Hne].
    + intros Hi. assert (i = 0%nat) as -> by lia. reflexivity.
    + destruct (Js.indexOf l x <? 0)%Z eqn:Hneg; [lia |].
      intros Hi. destruct i as [| i]; [lia |]. cbn. apply IH. lia.
Qed.

(** In the stage list every name has one position. *)
Lemma stage_position (i : nat) (s : string) :
  spec_stage_order !! i = Some s → Js.indexOf spec_stage_order s = Z.of_nat i.
Proof.
  destruct i as [|[|[|[|[|[|[|i]]]]]]]; cbn; intros [= <-]; reflexivity.
Qed.

Lemma stage_is_lower (s : string) :
  s ∈ spec_stage_order → WorkspaceView.toLowerCase s = s.
Proof.
  intros Hin. apply list_elem_of_In in Hin. cbn in Hin.
  repeat (destruct Hin as [<- | Hin]; [reflexivity |]). contradiction.
Qed.

(** ** The stage data of a loaded project *)

(** The entry that [updateStageData] writes for the stage at position [j]. *)
Lemma updateStageData_lookup (artifactsData : gmap string (list Js.value))
    (currentStg : string) (j : nat) (s : string) :
  spec_stage_order !! j = Some s →
  WorkspaceView.updateStageData artifactsData currentStg !! s
  = Some {| StageIndicator.status :=
              let currentIndex :=
                Js.indexOf spec_stage_order (WorkspaceView.toLowerCase currentStg) in
              if (Z.of_nat j <? currentIndex)%Z then "passed"
              else if (Z.of_nat j =? currentIndex)%Z
                   then if (0 <? length (default [] (artifactsData !! s)))%nat
                        then "passed" else "active"
                   else "pending";
            StageIndicator.itemCount := Some (length (default [] (artifactsData !! s))) |}.
Proof.
  unfold WorkspaceView.updateStageData, WorkspaceView.updateStageData_stages,
    spec_stage_order, WorkspaceView.info.
  destruct j as [|[|[|[|[|[|[|j]]]]]]]; cbn [lookup list_lookup]; intros [= <-];
    cbn [Z.add Z.of_nat Pos.of_succ_nat Pos.succ Pos.add];
    simplify_map_eq; destruct (artifactsData !! _); reflexivity.
Qed.

Lemma updateStageData_status (artifactsData : gmap string (list Js.value))
    (currentStg : string) (j : nat) (s : string) :
  spec_stage_order !! j = Some s →
  StageIndicator.getStageStatus
    (WorkspaceView.updateStageData artifactsData currentStg) s
  = let currentIndex :=
      Js.indexOf spec_stage_order (WorkspaceView.toLowerCase currentStg) in
    if (Z.of_nat j <? currentIndex)%Z then "passed"
    else if (Z.of_nat j =? currentIndex)%Z
         then if (0 <? length (default [] (artifactsData !! s)))%nat
              then "passed" else "active"
         else "pending".
Proof.
  intros Hj. unfold StageIndicator.getStageStatus.
  rewrite (updateStageData_lookup _ _ j s Hj).
  cbn [StageIndicator.status]. cbn zeta.
  destruct (_ <? _)%Z; [reflexivity |].
  destruct (_ =? _)%Z; [| reflexivity].
  destruct (_ <? _)%nat; reflexivity.
Qed.

(** X4.  In the stage data computed for a loaded project the statuses
    are ordered along the seven stages: a stage before a passed one is
    passed, a stage after a pending one is pending, and no two stages are
    active. *)
Theorem updateStageData_ordered (artifactsData : gmap string (list Js.value))
    (currentStg : string) (i j : nat) (a b : string) :
  (i < j)%nat →
  spec_stage_order !! i = Some a →
  spec_stage_order !! j = Some b →
  let stageData := WorkspaceView.updateStageData artifactsData currentStg in
  (StageIndicator.getStageStatus stageData b = "passed" →
   StageIndicator.getStageStatus stageData a = "passed")
  ∧ (StageIndicator.getStageStatus stageData a = "pending" →
     StageIndicator.getStageStatus stageData b = "pending")
  ∧ ¬ (StageIndicator.getStageStatus stageData a = "active"
       ∧ StageIndicator.getStageStatus stageData b = "active").
Proof.
  intros Hij Ha Hb. cbn zeta.
  rewrite (updateStageData_status _ _ i a Ha), (updateStageData_status _ _ j b Hb).
  cbn zeta.
  set (ci := Js.indexOf spec_stage_order (WorkspaceView.toLowerCase currentStg)).
  destruct (Z.ltb_spec (Z.of_nat i) ci); destruct (Z.eqb_spec (Z.of_nat i) ci);
    destruct (Z.ltb_spec (Z.of_nat j) ci); destruct (Z.eqb_spec (Z.of_nat j) ci);
    try lia;
    repeat (destruct (_ <? _)%nat);
    repeat split; try discriminate; try reflexivity; intros [? ?]; discriminate.
Qed.

(** Witness of X4: a project in design with two discover artifacts. *)
Lemma updateStageData_ordered_witness :
  StageIndicator.getStageStatus
    (WorkspaceView.updateStageData (<["discover" := [Js.Null; Js.Null]]> ∅) "Design")
    "discover" = "passed".
Proof.
  refine (proj1 (updateStageData_ordered (<["discover" := [Js.Null; Js.Null]]> ∅)
                   "Design" 0 1 "discover" "define" _ _ _) _);
    (reflexivity || lia).
Defined.

(** X5.  When the current stage is none of the seven (as 'maintain' or
    'testing' are), the computed stage data marks every stage pending:
    none is active and none is passed, whatever artifacts there are. *)
Theorem updateStageData_unknown_stage (artifactsData : gmap string (list Js.value))
    (currentStg s : string) :
  WorkspaceView.toLowerCase currentStg ∉ spec_stage_order →
  StageIndicator.getStageStatus
    (WorkspaceView.updateStageData artifactsData currentStg) s = "pending".
Proof.
  intros Hunknown. apply indexOf_absent in Hunknown.
  destruct (decide (s ∈ spec_stage_order)) as [Hin | Hout].
  - apply list_elem_of_lookup in Hin as [j Hj].
    rewrite (updateStageData_status _ _ j s Hj). cbn zeta. rewrite Hunknown.
    destruct (Z.ltb_spec (Z.of_nat j) (-1)); [lia |].
    destruct (Z.eqb_spec (Z.of_nat j) (-1)); [lia | reflexivity].
  - unfold StageIndicator.getStageStatus, WorkspaceView.updateStageData,
      WorkspaceView.updateStageData_stages.
    unfold spec_stage_order in Hout. rewrite !not_elem_of_cons in Hout.
    destruct Hout as (? & ? & ? & ? & ? & ? & ? & _).
    rewrite !lookup_insert_ne by congruence. now rewrite lookup_empty.
Qed.

(** Witness of X5: the stage that only [STAGE_ORDER] knows. *)
Lemma updateStageData_unknown_stage_witness :
  StageIndicator.getStageStatus
    (WorkspaceView.updateStageData (<["discover" := [Js.Null]]> ∅) "maintain")
    "discover" = "pending".
Proof.
  apply updateStageData_unknown_stage. vm_compute.
  intros Hin. apply list_elem_of_In in Hin. cbn in Hin.
  repeat (destruct Hin as [Hin | Hin]; [discriminate Hin |]). exact Hin.
Defined.

(** X6.  The item count that the indicator shows for a stage of a loaded
    project is the number of artifacts grouped under that stage, and zero
    for a name that is not a stage. *)
Theorem updateStageData_item_count (artifactsData : gmap string (list Js.value))
    (currentStg s : string) :
  StageIndicator.getStageItemCount
    (WorkspaceView.updateStageData artifactsData currentStg) s
  = if decide (s ∈ spec_stage_order)
    then length (default [] (artifactsData !! s))
    else 0%nat.
Proof.
  destruct (decide (s ∈ spec_stage_order)) as [Hin | Hout].
  - apply list_elem_of_lookup in Hin as [j Hj].
    unfold StageIndicator.getStageItemCount.
    now rewrite (updateStageData_lookup _ _ j s Hj).
  - unfold StageIndicator.getStageItemCount, WorkspaceView.updateStageData,
      WorkspaceView.updateStageData_stages.
    unfold spec_stage_order in Hout. rewrite !not_elem_of_cons in Hout.
    destruct Hout as (? & ? & ? & ? & ? & ? & ? & _).
    rewrite !lookup_insert_ne by congruence. now rewrite lookup_empty.
Qed.

(** ** Which stages can be entered *)

Example discover_closed_for_unknown_stage :
  WorkspaceView.isStageAccessible
    (WorkspaceView.setCurrentStage "maintain" WorkspaceView.initial) "discover" = false.
Proof. reflexivity. Qed.

(** X7.  [isStageAccessible] opens a stage exactly when it is not after
    the current stage in the order of the seven, the current stage being
    read without regard to case.  A name that is not a stage is always
    open; and when the current stage is not one of the seven, every one
    of the seven is closed, discover included. *)
Theorem isStageAccessible_spec (st : WorkspaceView.state) (stageId : string) :
  (∀ i j, spec_stage_order !! i = Some stageId →
          spec_stage_order !! j
          = Some (WorkspaceView.toLowerCase (WorkspaceView.currentStage st)) →
          (WorkspaceView.isStageAccessible st stageId = true ↔ (i ≤ j)%nat))
  ∧ (stageId ∉ spec_stage_order → WorkspaceView.isStageAccessible st stageId = true)
  ∧ (stageId ∈ spec_stage_order →
     WorkspaceView.toLowerCase (WorkspaceView.currentStage st) ∉ spec_stage_order →
     WorkspaceView.isStageAccessible st stageId = false).
Proof.
  unfold WorkspaceView.isStageAccessible, WorkspaceView.isStageAccessible_stages.
  fold spec_stage_order. split; [| split].
  - intros i j Hi Hj. rewrite (stage_position _ _ Hi), (stage_position _ _ Hj).
    rewrite Z.leb_le. lia.
  - intros Hout. apply indexOf_absent in Hout. rewrite Hout.
    apply Z.leb_le, indexOf_lower_bound.
  - intros Hin Hcur. apply indexOf_absent in Hcur. rewrite Hcur.
    apply list_elem_of_lookup in Hin as [i Hi]. rewrite (stage_position _ _ Hi).
    apply Z.leb_gt. lia.
Qed.

(** Witness of X7: design is closed while the project is in define. *)
Lemma isStageAccessible_spec_witness :
  WorkspaceView.isStageAccessible
    (WorkspaceView.setCurrentStage "Define" WorkspaceView.initial) "design" = true
  ↔ (2 ≤ 1)%nat.
Proof.
  refine (proj1 (isStageAccessible_spec
                   (WorkspaceView.setCurrentStage "Define" WorkspaceView.initial)
                   "design") 2%nat 1%nat _ _);
    reflexivity.
Defined.

(** X8.  The stage that [handleMoveToNextStage] moves to is accessible
    afterwards, whatever it is called, and it is the stage viewed. *)
Theorem handleMoveToNextStage_accessible (nextStage : string) (st : WorkspaceView.state) :
  let st' := WorkspaceView.handleMoveToNextStage nextStage st in
  WorkspaceView.viewingStage st' = nextStage
  ∧ WorkspaceView.currentStage st' = nextStage
  ∧ WorkspaceView.activeTab st' = "workspace"
  ∧ WorkspaceView.isStageAccessible st' (WorkspaceView.viewingStage st') = true.
Proof.
  cbn zeta. repeat split.
  unfold WorkspaceView.isStageAccessible, WorkspaceView.isStageAccessible_stages.
  fold spec_stage_order.
  change (WorkspaceView.viewingStage (WorkspaceView.handleMoveToNextStage nextStage st))
    with nextStage.
  change (WorkspaceView.currentStage (WorkspaceView.handleMoveToNextStage nextStage st))
    with nextStage.
  apply Z.leb_le.
  destruct (decide (nextStage ∈ spec_stage_order)) as [Hin | Hout].
  - rewrite (stage_is_lower _ Hin). lia.
  - apply indexOf_absent in Hout. rewrite Hout. apply indexOf_lower_bound.
Qed.

(** ** The stage gate *)

Lemma nextStage_successor (stage : string) (i : nat) :
  spec_stage_order !! i = Some stage →
  StageGatePanel.nextStage stage = spec_stage_order !! S i.
Proof.
  intros Hi.
  destruct i as [|[|[|[|[|[|[|i]]]]]]]; cbn in Hi; try discriminate Hi;
    injection Hi as <-; reflexivity.
Qed.

Lemma own_absent (stage : string) (data : list (string * StageGatePanel.gate)) :
  stage ∉ map fst data → StageGatePanel.own stage data = None.
Proof.
  induction data as [| [k d] data IH]; [reflexivity |].
  cbn. intros [Hne Hrest]%not_elem_of_cons.
  apply String.eqb_neq in Hne. now rewrite Hne, (IH Hrest).
Qed.

Lemma existsb_eqb_absent (x : string) (l : list string) :
  x ∉ l → existsb (String.eqb x) l = false.
Proof.
  induction l as [| y l IH]; [reflexivity |].
  cbn. intros [Hne Hrest]%not_elem_of_cons.
  apply String.eqb_neq in Hne. now rewrite Hne, (IH Hrest).
Qed.

(** X9.  The gate panel of one of the seven stages renders with an
    enabled button that hands over the successor of the stage, never the
    stage itself, and with no button for deploy.  For an empty name the
    component renders nothing; for a name that every object inherits (as
    [constructor] or [toString]) it throws while it counts the checklist;
    for any other name it shows the gate of discover with a button that
    hands over discover. *)
Theorem nextStage_spec (stage : string) :
  (∀ i, spec_stage_order !! i = Some stage →
        StageGatePanel.render stage
        = inr (StageGatePanel.Panel (spec_stage_order !! S i) true))
  ∧ (∀ enabled,
       StageGatePanel.render stage ≠ inr (StageGatePanel.Panel (Some stage) enabled))
  ∧ StageGatePanel.render "deploy" = inr (StageGatePanel.Panel None true)
  ∧ StageGatePanel.render "" = inr StageGatePanel.Nothing
  ∧ (stage ∈ StageGatePanel.inherited →
     StageGatePanel.render stage
     = inl (Js.Error "TypeError" "Cannot read properties of undefined (reading 'filter')"))
  ∧ (stage ≠ "" → stage ∉ spec_stage_order → stage ∉ StageGatePanel.inherited →
     StageGatePanel.render stage = inr (StageGatePanel.Panel (Some "discover") true)).
Proof.
  assert (Hseven : ∀ i, spec_stage_order !! i = Some stage →
                        StageGatePanel.render stage
                        = inr (StageGatePanel.Panel (spec_stage_order !! S i) true)).
  { intros i Hi.
    destruct i as [|[|[|[|[|[|[|i]]]]]]]; cbn in Hi; try discriminate Hi;
      injection Hi as <-; reflexivity. }
  assert (Hinherited : stage ∈ StageGatePanel.inherited →
                       StageGatePanel.render stage
                       = inl (Js.Error "TypeError"
                                "Cannot read properties of undefined (reading 'filter')")).
  { intros Hin. apply list_elem_of_In in Hin. cbn in Hin.
    repeat (destruct Hin as [<- | Hin]; [reflexivity |]). contradiction. }
  assert (Hother : stage ≠ "" → stage ∉ spec_stage_order →
                   stage ∉ StageGatePanel.inherited →
                   StageGatePanel.render stage
                   = inr (StageGatePanel.Panel (Some "discover") true)).
  { intros Hne Hout Hplain. unfold StageGatePanel.render.
    apply String.eqb_neq in Hne. rewrite Hne.
    rewrite (own_absent stage StageGatePanel.stageGateData Hout).
    rewrite (existsb_eqb_absent _ _ Hplain).
    apply indexOf_absent in Hout.
    unfold StageGatePanel.nextStage.
    change StageGatePanel.stageOrder with spec_stage_order. rewrite Hout. reflexivity. }
  repeat split; try assumption; try reflexivity.
  intros enabled.
  destruct (decide (stage ∈ spec_stage_order)) as [Hin | Hout].
  { apply list_elem_of_lookup in Hin as [i Hi]. rewrite (Hseven i Hi).
    destruct i as [|[|[|[|[|[|[|i]]]]]]]; cbn in Hi; try discriminate Hi;
      injection Hi as <-; discriminate. }
  destruct (String.eqb_spec stage "") as [-> | Hne]; [discriminate |].
  destruct (decide (stage ∈ StageGatePanel.inherited)) as [Hin | Hplain].
  { rewrite (Hinherited Hin). discriminate. }
  rewrite (Hother Hne Hout Hplain). intros [= <-]. apply Hout. left.
Qed.

(** Witness of X9: the gate of test offers build, and the gate of
    [constructor] throws. *)
Lemma nextStage_spec_witness :
  StageGatePanel.render "test" = inr (StageGatePanel.Panel (Some "build") true)
  ∧ StageGatePanel.render "constructor"
    = inl (Js.Error "TypeError" "Cannot read properties of undefined (reading 'filter')").
Proof.
  split.
  - refine (proj1 (nextStage_spec "test") 4%nat _). reflexivity.
  - refine (proj1 (proj2 (proj2 (proj2 (proj2 (nextStage_spec "constructor"))))) _).
    apply list_elem_of_In. left. reflexivity.
Defined.

(** X10.  When the stage viewed is the current one and is not the last,
    passing its gate moves the workspace one stage on: the gate hands
    over the successor, which becomes the current and the viewed stage
    and shows as active, and the stage left behind shows as passed. *)
Theorem gate_advances_one_stage (st : WorkspaceView.state) (i : nat) (s n : string) :
  spec_stage_order !! i = Some s →
  spec_stage_order !! S i = Some n →
  WorkspaceView.viewingStage st = s →
  WorkspaceView.currentStage st = s →
  StageGatePanel.nextStage (WorkspaceView.viewingStage st) = Some n
  ∧ let st' := WorkspaceView.handleMoveToNextStage n st in
    WorkspaceView.currentStage st' = n
    ∧ WorkspaceView.viewingStage st' = n
    ∧ StageIndicator.getStageStatus (WorkspaceView.stageData st') s = "passed"
    ∧ StageIndicator.getStageStatus (WorkspaceView.stageData st') n = "active".
Proof.
  intros Hs Hn Hview Hcur. rewrite Hview.
  split; [rewrite <- Hn; now apply nextStage_successor |].
  assert (Hne : s ≠ n).
  { destruct i as [|[|[|[|[|[|[|i]]]]]]]; cbn in Hs, Hn;
      try discriminate; injection Hs as <-; injection Hn as <-; discriminate. }
  cbn zeta. unfold WorkspaceView.handleMoveToNextStage.
  cbn [WorkspaceView.stageData WorkspaceView.updStageData WorkspaceView.setStageData
       WorkspaceView.setActiveTab WorkspaceView.setViewingStage
       WorkspaceView.setCurrentStage WorkspaceView.currentStage
       WorkspaceView.viewingStage].
  rewrite Hcur. unfold StageIndicator.getStageStatus.
  rewrite lookup_insert_eq, (lookup_insert_ne _ n s) by congruence.
  rewrite lookup_insert_eq. repeat split.
Qed.

(** Witness of X10: the gate of discover on a fresh workspace. *)
Lemma gate_advances_one_stage_witness :
  StageIndicator.getStageStatus
    (WorkspaceView.stageData
       (WorkspaceView.handleMoveToNextStage "define" WorkspaceView.initial)) "define"
  = "active".
Proof.
  refine (proj2 (proj2 (proj2 (proj2
            (gate_advances_one_stage WorkspaceView.initial 0 "discover" "define" _ _ _ _)))));
    reflexivity.
Defined.

(** ** The indicator of the dashboard *)

Lemma dashboard_status (currentStage stageId : string) :
  DashboardStageIndicator.getStageStatus currentStage stageId
  = let currentIdx := Js.indexOf spec_stage_order currentStage in
    let stageIdx := Js.indexOf spec_stage_order stageId in
    if (stageIdx <? currentIdx)%Z then "passed"
    else if (stageIdx =? currentIdx)%Z then "active" else "pending".
Proof. reflexivity. Qed.

(** X11.  For a current stage written in lower case that has no
    artifacts yet, the indicator of the dashboard and the stage data of
    the workspace give every one of the seven stages the same status.
    (With artifacts in the current stage the workspace shows it passed
    where the dashboard shows it active.) *)
Theorem dashboard_agrees_with_workspace
    (artifactsData : gmap string (list Js.value)) (currentStage s : string) :
  WorkspaceView.toLowerCase currentStage = currentStage →
  default [] (artifactsData !! currentStage) = [] →
  s ∈ spec_stage_order →
  DashboardStageIndicator.getStageStatus currentStage s
  = StageIndicator.getStageStatus
      (WorkspaceView.updateStageData artifactsData currentStage) s.
Proof.
  intros Hlow Hempty Hin. apply list_elem_of_lookup in Hin as [j Hj].
  rewrite (updateStageData_status _ _ j s Hj), dashboard_status. cbn zeta.
  rewrite Hlow, (stage_position _ _ Hj).
  destruct (Z.ltb_spec (Z.of_nat j) (Js.indexOf spec_stage_order currentStage));
    [reflexivity |].
  destruct (Z.eqb_spec (Z.of_nat j) (Js.indexOf spec_stage_order currentStage))
    as [Heq | Hne]; [| reflexivity].
  symmetry in Heq. apply indexOf_found in Heq.
  assert (s = currentStage) as -> by congruence.
  now rewrite Hempty.
Qed.

(** Witness of X11: design, for a project in define. *)
Lemma dashboard_agrees_with_workspace_witness :
  DashboardStageIndicator.getStageStatus "define" "design"
  = StageIndicator.getStageStatus
      (WorkspaceView.updateStageData (<["discover" := [Js.Null]]> ∅) "define") "design".
Proof.
  apply dashboard_agrees_with_workspace; [reflexivity | reflexivity |].
  apply list_elem_of_lookup. exists 2%nat. reflexivity.
Defined.

(** ** Project ids *)

Example isValidUUID_sample : ProjectLoading.isValidUUID (Js.to_string sample_id) = true.
Proof. reflexivity. Qed.

Example isValidUUID_short : ProjectLoading.isValidUUID "123e4567" = false.
Proof. reflexivity. Qed.

Lemma hex_run_length (n : nat) (s t : string) :
  ProjectLoading.hex_run n s = Some t → String.length s = (n + String.length t)%nat.
Proof.
  revert s. induction n as [| n IH]; intros s; cbn.
  - now intros [= ->].
  - destruct s as [| c s]; [discriminate |].
    destruct (ProjectLoading.is_hex c); [| discriminate].
    intros Hrun. cbn. now rewrite (IH _ Hrun).
Qed.

Lemma hyphen_length (s t : string) :
  ProjectLoading.hyphen s = Some t → String.length s = S (String.length t).
Proof.
  unfold ProjectLoading.hyphen. destruct s as [| c s]; [discriminate |].
  destruct (Nat.eqb (Ascii.nat_of_ascii c) 45); [| discriminate].
  intros [= ->]. reflexivity.
Qed.

Lemma is_hex_lower (c : Ascii.ascii) :
  ProjectLoading.is_hex (WorkspaceView.lower_ascii c) = ProjectLoading.is_hex c.
Proof. destruct c as [[] [] [] [] [] [] [] []]; reflexivity. Qed.

Lemma is_hyphen_lower (c : Ascii.ascii) :
  (Ascii.nat_of_ascii (WorkspaceView.lower_ascii c) =? 45)%nat
  = (Ascii.nat_of_ascii c =? 45)%nat.
Proof. destruct c as [[] [] [] [] [] [] [] []]; reflexivity. Qed.

Lemma hex_run_lower (n : nat) (s : string) :
  ProjectLoading.hex_run n (WorkspaceView.toLowerCase s)
  = WorkspaceView.toLowerCase <$> ProjectLoading.hex_run n s.
Proof.
  revert s. induction n as [| n IH]; intros s; [reflexivity |].
  destruct s as [| c s]; [reflexivity |].
  cbn. rewrite is_hex_lower. destruct (ProjectLoading.is_hex c); [apply IH | reflexivity].
Qed.

Lemma hyphen_lower (s : string) :
  ProjectLoading.hyphen (WorkspaceView.toLowerCase s)
  = WorkspaceView.toLowerCase <$> ProjectLoading.hyphen s.
Proof.
  destruct s as [| c s]; [reflexivity |].
  unfold ProjectLoading.hyphen. cbn [WorkspaceView.toLowerCase].
  rewrite is_hyphen_lower.
  destruct (Nat.eqb (Ascii.nat_of_ascii c) 45); reflexivity.
Qed.

(** X12.  An id that [isValidUUID] accepts has 36 units, and the test
    does not depend on the case of the letters. *)
Theorem isValidUUID_shape (str : string) :
  (ProjectLoading.isValidUUID str = true → String.length str = 36%nat)
  ∧ ProjectLoading.isValidUUID (WorkspaceView.toLowerCase str)
    = ProjectLoading.isValidUUID str.
Proof.
  unfold ProjectLoading.isValidUUID. split.
  - destruct (ProjectLoading.hex_run 8 str) as [s1 |] eqn:H1; cbn [mbind option_bind]; [| discriminate].
    destruct (ProjectLoading.hyphen s1) as [s2 |] eqn:H2; cbn [mbind option_bind]; [| discriminate].
    destruct (ProjectLoading.hex_run 4 s2) as [s3 |] eqn:H3; cbn [mbind option_bind]; [| discriminate].
    destruct (ProjectLoading.hyphen s3) as [s4 |] eqn:H4; cbn [mbind option_bind]; [| discriminate].
    destruct (ProjectLoading.hex_run 4 s4) as [s5 |] eqn:H5; cbn [mbind option_bind]; [| discriminate].
    destruct (ProjectLoading.hyphen s5) as [s6 |] eqn:H6; cbn [mbind option_bind]; [| discriminate].
    destruct (ProjectLoading.hex_run 4 s6) as [s7 |] eqn:H7; cbn [mbind option_bind]; [| discriminate].
    destruct (ProjectLoading.hyphen s7) as [s8 |] eqn:H8; cbn [mbind option_bind]; [| discriminate].
    destruct (ProjectLoading.hex_run 12 s8) as [s9 |] eqn:H9; cbn [mbind option_bind]; [| discriminate].
    destruct s9; [| discriminate]. intros _.
    apply hex_run_length in H1, H3, H5, H7, H9.
    apply hyphen_length in H2, H4, H6, H8. cbn in H9. lia.
  - rewrite hex_run_lower.
    destruct (ProjectLoading.hex_run 8 str) as [s1 |]; cbn [mbind option_bind fmap option_fmap option_map]; [| reflexivity].
    rewrite hyphen_lower.
    destruct (ProjectLoading.hyphen s1) as [s2 |]; cbn [mbind option_bind fmap option_fmap option_map]; [| reflexivity].
    rewrite hex_run_lower.
    destruct (ProjectLoading.hex_run 4 s2) as [s3 |]; cbn [mbind option_bind fmap option_fmap option_map]; [| reflexivity].
    rewrite hyphen_lower.
    destruct (ProjectLoading.hyphen s3) as [s4 |]; cbn [mbind option_bind fmap option_fmap option_map]; [| reflexivity].
    rewrite hex_run_lower.
    destruct (ProjectLoading.hex_run 4 s4) as [s5 |]; cbn [mbind option_bind fmap option_fmap option_map]; [| reflexivity].
    rewrite hyphen_lower.
    destruct (ProjectLoading.hyphen s5) as [s6 |]; cbn [mbind option_bind fmap option_fmap option_map]; [| reflexivity].
    rewrite hex_run_lower.
    destruct (ProjectLoading.hex_run 4 s6) as [s7 |]; cbn [mbind option_bind fmap option_fmap option_map]; [| reflexivity].
    rewrite hyphen_lower.
    destruct (ProjectLoading.hyphen s7) as [s8 |]; cbn [mbind option_bind fmap option_fmap option_map]; [| reflexivity].
    rewrite hex_run_lower.
    destruct (ProjectLoading.hex_run 12 s8) as [s9 |]; cbn [mbind option_bind fmap option_fmap option_map]; [| reflexivity].
    destruct s9; reflexivity.
Qed.

(** Witness of X12: the sample id. *)
Lemma isValidUUID_shape_witness :
  String.length "123E4567-E89B-12D3-A456-426614174000" = 36%nat.
Proof.
  apply (proj1 (isValidUUID_shape "123E4567-E89B-12D3-A456-426614174000")).
  reflexivity.
Defined.

(** ** Filing the artifacts of a project *)

Example artifactsByStage_mixed :
  match ProjectLoading.artifactsByStage
          [ Js.Obj [("stage", Js.Str "DEFINE"); ("name", Js.Str "brd")];
            Js.Obj [("name", Js.Str "untitled")];
            Js.Obj [("stage", Js.Str "maintain")] ] with
  | inr byStage =>
      byStage !! "define" = Some [Js.Obj [("stage", Js.Str "DEFINE"); ("name", Js.Str "brd")]]
      ∧ byStage !! "discover" = Some [Js.Obj [("name", Js.Str "untitled")]]
      ∧ byStage !! "maintain" = None
  | inl _ => False
  end.
Proof. vm_compute. repeat split. Qed.

Example artifactsByStage_constructor :
  ProjectLoading.artifactsByStage [Js.Obj [("stage", Js.Str "Constructor")]]
  = inl (Js.Error "TypeError" "artifactsByStage[stage].push is not a function").
Proof. reflexivity. Qed.

Lemma place_lookup (byStage byStage' : gmap string (list Js.value)) (a : Js.value) :
  ProjectLoading.place byStage a = inr byStage' →
  ∀ s, byStage' !! s
       = (λ l, l ++ (if in_stage s a then [a] else [])) <$> (byStage !! s).
Proof.
  unfold ProjectLoading.place, in_stage.
  destruct (Js.prop a "stage") as [e | v]; [discriminate |].
  destruct (ProjectLoading.stage_of "a.stage" v) as [e | t]; [discriminate |].
  destruct (byStage !! t) as [l |] eqn:Ht.
  - intros [= <-] s. destruct (String.eqb_spec t s) as [-> | Hne].
    + now rewrite lookup_insert_eq, Ht.
    + rewrite lookup_insert_ne by exact Hne.
      destruct (byStage !! s); cbn; [now rewrite app_nil_r | reflexivity].
  - destruct (_ || _); [discriminate |]. intros [= <-] s.
    destruct (String.eqb_spec t s) as [-> | Hne].
    + now rewrite Ht.
    + destruct (byStage !! s); cbn; [now rewrite app_nil_r | reflexivity].
Qed.

Lemma group_lookup (items : list Js.value) :
  ∀ byStage byStage' : gmap string (list Js.value),
    ProjectLoading.group byStage items = inr byStage' →
    ∀ s, byStage' !! s = (λ l, l ++ List.filter (in_stage s) items) <$> (byStage !! s).
Proof.
  induction items as [| a items IH]; intros byStage byStage'; cbn.
  - intros [= <-] s. destruct (byStage !! s); cbn; [now rewrite app_nil_r | reflexivity].
  - destruct (ProjectLoading.place byStage a) as [e | mid] eqn:Hplace; [discriminate |].
    intros Hgroup s. rewrite (IH _ _ Hgroup s), (place_lookup _ _ _ Hplace s).
    destruct (byStage !! s) as [l |]; cbn; [| reflexivity].
    destruct (in_stage s a); cbn; now rewrite <- app_assoc.
Qed.

Lemma artifactsByStage_lookup (items : list Js.value)
    (byStage : gmap string (list Js.value)) (s : string) :
  ProjectLoading.artifactsByStage items = inr byStage →
  byStage !! s
  = if decide (s ∈ spec_stage_order) then Some (List.filter (in_stage s) items) else None.
Proof.
  intros Hgroup. unfold ProjectLoading.artifactsByStage in Hgroup.
  rewrite (group_lookup _ _ _ Hgroup s).
  destruct (decide (s ∈ spec_stage_order)) as [Hin | Hout].
  - apply list_elem_of_In in Hin. cbn in Hin.
    repeat (destruct Hin as [<- | Hin]; [reflexivity |]). contradiction.
  - unfold spec_stage_order in Hout. rewrite !not_elem_of_cons in Hout.
    destruct Hout as (? & ? & ? & ? & ? & ? & ? & _).
    unfold ProjectLoading.empty_by_stage.
    rewrite !lookup_insert_ne by congruence. now rewrite lookup_empty.
Qed.

(** X13.  When the loop that files the loaded artifacts runs through,
    each of the seven stages holds exactly the artifacts whose [stage],
    read in lower case and taken as discover when missing, is that stage,
    in the order they were listed; artifacts of any other stage are
    dropped and no other key is created. *)
Theorem artifactsByStage_groups (items : list Js.value)
    (byStage : gmap string (list Js.value)) (s : string) :
  ProjectLoading.artifactsByStage items = inr byStage →
  byStage !! s
  = if decide (s ∈ spec_stage_order) then Some (List.filter (in_stage s) items) else None.
Proof. apply artifactsByStage_lookup. Qed.

(** Witness of X13: two artifacts, one without a stage. *)
Lemma artifactsByStage_groups_witness :
  ∃ byStage,
    ProjectLoading.artifactsByStage
      [Js.Obj [("stage", Js.Str "Define")]; Js.Obj [("name", Js.Str "n")]] = inr byStage
    ∧ byStage !! "discover" = Some [Js.Obj [("name", Js.Str "n")]].
Proof.
  destruct (ProjectLoading.artifactsByStage
              [Js.Obj [("stage", Js.Str "Define")]; Js.Obj [("name", Js.Str "n")]])
    as [e | byStage] eqn:Hrun; [discriminate Hrun |].
  exists byStage. split; [reflexivity |].
  exact (artifactsByStage_groups _ byStage "discover" Hrun).
Defined.

Lemma place_fileable (byStage : gmap string (list Js.value)) (a : Js.value) :
  fileable a = true → ∃ byStage', ProjectLoading.place byStage a = inr byStage'.
Proof.
  unfold ProjectLoading.place, fileable.
  destruct (Js.prop a "stage") as [e | v]; [discriminate |].
  destruct (ProjectLoading.stage_of "a.stage" v) as [e | t]; [discriminate |].
  destruct (byStage !! t) as [l |]; [eauto |].
  destruct (_ || _); [discriminate | eauto].
Qed.

Lemma artifactsByStage_runs (items : list Js.value) :
  Forall (λ a, fileable a = true) items →
  ∃ byStage, ProjectLoading.artifactsByStage items = inr byStage.
Proof.
  unfold ProjectLoading.artifactsByStage. generalize ProjectLoading.empty_by_stage.
  induction items as [| a items IH]; intros byStage Hall; cbn; [eauto |].
  inversion Hall as [| ? ? Ha Hrest]; subst.
  destruct (place_fileable byStage a Ha) as [mid ->].
  now apply IH.
Qed.

(** X14.  The loop runs through whenever every listed artifact has
    members, a [stage] that is a string or falsy, and a stage name other
    than [constructor] and [__proto__]; so one artifact that is [null],
    or whose stage is a number or one of those two names, makes the whole
    load fail. *)
Theorem artifactsByStage_total (items : list Js.value) :
  Forall (λ a, fileable a = true) items →
  ∃ byStage, ProjectLoading.artifactsByStage items = inr byStage.
Proof. apply artifactsByStage_runs. Qed.

(** Witness of X14, and the failure for a [null] artifact. *)
Lemma artifactsByStage_total_witness :
  (∃ byStage, ProjectLoading.artifactsByStage [Js.Obj [("stage", Js.Str "test")]]
              = inr byStage)
  ∧ ProjectLoading.artifactsByStage [Js.Null]
    = inl (Js.Error "TypeError" "Cannot read properties of null (reading 'stage')").
Proof.
  split; [| reflexivity].
  apply artifactsByStage_total. constructor; [reflexivity | constructor].
Defined.

(** ** Loading a project *)

Example loadProjectData_bad_id :
  ProjectLoading.loadProjectData (Js.Str "42") None
    {| ProjectLoading.project := Js.Resolved Js.Null;
       ProjectLoading.artifacts := Js.Resolved Js.Null;
       ProjectLoading.commits := Js.Resolved Js.Null;
       ProjectLoading.tickets := Js.Resolved Js.Null |}
  = [ ProjectLoading.SetError
        (Some ("Invalid project ID: " +:+ Js.dquote +:+ "42" +:+ Js.dquote +:+ "."));
      ProjectLoading.SetLoading false ].
Proof. reflexivity. Qed.

(** X15.  [loadProjectData] sends requests exactly when the project id
    is a well-formed UUID; for any other id it only sets the error.  On
    every path the last thing it does is to clear the loading flag. *)
Theorem loadProjectData_requests (projectId : Js.value) (searchStage : option string)
    (r : ProjectLoading.replies) :
  let effects := ProjectLoading.loadProjectData projectId searchStage r in
  existsb ProjectLoading.is_call effects
  = ProjectLoading.isValidUUID (Js.to_string projectId)
  ∧ (if ProjectLoading.isValidUUID (Js.to_string projectId)
     then head effects = Some (ProjectLoading.SetLoading true)
     else existsb ProjectLoading.is_error_set effects = true)
  ∧ last effects = Some (ProjectLoading.SetLoading false).
Proof.
  cbn zeta. unfold ProjectLoading.loadProjectData.
  destruct (ProjectLoading.isValidUUID (Js.to_string projectId)); cbn [negb].
  - repeat split.
    rewrite app_assoc. apply last_snoc.
  - repeat split.
Qed.

Lemma loadArtifacts_effects (projectId : Js.value) (reply : Js.outcome) :
  existsb ProjectLoading.is_error_set (fst (ProjectLoading.loadArtifacts projectId reply))
  = false
  ∧ existsb ProjectLoading.is_tickets_call
      (fst (ProjectLoading.loadArtifacts projectId reply)) = false.
Proof. destruct reply; split; reflexivity. Qed.

Lemma loadCommits_effects (projectId : Js.value) (reply : Js.outcome) :
  existsb ProjectLoading.is_error_set (ProjectLoading.loadCommits projectId reply) = false
  ∧ existsb ProjectLoading.is_tickets_call (ProjectLoading.loadCommits projectId reply)
    = false.
Proof. destruct reply as [[] |]; split; reflexivity. Qed.

Lemma loadDevelopTickets_effects (projectId : Js.value) (reply : Js.outcome) :
  existsb ProjectLoading.is_error_set (ProjectLoading.loadDevelopTickets projectId reply)
  = false
  ∧ existsb ProjectLoading.is_tickets_call
      (ProjectLoading.loadDevelopTickets projectId reply) = true.
Proof.
  unfold ProjectLoading.loadDevelopTickets. destruct reply as [res |]; [| split; reflexivity].
  destruct (Js.prop res "status") as [e | st]; [split; reflexivity |].
  destruct (Js.is_str st "success"); split; reflexivity.
Qed.

(** The effects of a load in which the project arrives and the artifacts
    can be filed. *)
Lemma loadProjectData_loaded (projectId : Js.value) (searchStage : option string)
    (r : ProjectLoading.replies) (projectData current_stage : Js.value)
    (projectStage : string) (items : list Js.value)
    (byStage : gmap string (list Js.value)) :
  ProjectLoading.isValidUUID (Js.to_string projectId) = true →
  ProjectLoading.project r = Js.Resolved projectData →
  Js.prop projectData "current_stage" = inr current_stage →
  ProjectLoading.stage_of "projectData.current_stage" current_stage = inr projectStage →
  snd (ProjectLoading.loadArtifacts projectId (ProjectLoading.artifacts r)) = Js.Arr items →
  ProjectLoading.artifactsByStage items = inr byStage →
  ∃ viewing,
    ProjectLoading.loadProjectData projectId searchStage r
    = [ProjectLoading.SetLoading true; ProjectLoading.SetError None;
       ProjectLoading.CallGetProject projectId;
       ProjectLoading.SetProject projectData;
       ProjectLoading.SetCurrentStage projectStage;
       ProjectLoading.SetViewingStage viewing]
      ++ fst (ProjectLoading.loadArtifacts projectId (ProjectLoading.artifacts r))
      ++ [ProjectLoading.SetArtifacts byStage;
          ProjectLoading.SetStageData
            (WorkspaceView.updateStageData byStage projectStage)]
      ++ ProjectLoading.loadCommits projectId (ProjectLoading.commits r)
      ++ (if String.eqb projectStage "develop"
             || (0 <? length (default [] (byStage !! "develop")))%nat
          then ProjectLoading.loadDevelopTickets projectId (ProjectLoading.tickets r)
          else [])
      ++ [ProjectLoading.SetLoading false].
Proof.
  intros Hid Hproject Hprop Hstage Hitems Hgroup.
  unfold ProjectLoading.loadProjectData, ProjectLoading.loaded.
  rewrite Hid, Hproject, Hprop, Hstage. cbn [negb].
  destruct (ProjectLoading.loadArtifacts projectId (ProjectLoading.artifacts r))
    as [listed allArtifacts].
  cbn [fst snd] in *. subst allArtifacts. rewrite Hgroup.
  eexists. rewrite ?app_nil_r.
  repeat (rewrite <- app_assoc || (progress cbn [app])). reflexivity.
Qed.

(** X16.  When the project arrives with a usable stage and the listed
    artifacts can be filed, nothing that happens to the other requests is
    shown as an error: a rejected artifact, commit or ticket request
    leaves the error state clear.  The tickets are requested exactly when
    the project is in develop or has develop artifacts. *)
Theorem loadProjectData_tolerant (projectId : Js.value) (searchStage : option string)
    (r : ProjectLoading.replies) (projectData current_stage : Js.value)
    (projectStage : string) (items : list Js.value) :
  ProjectLoading.isValidUUID (Js.to_string projectId) = true →
  ProjectLoading.project r = Js.Resolved projectData →
  Js.prop projectData "current_stage" = inr current_stage →
  ProjectLoading.stage_of "projectData.current_stage" current_stage = inr projectStage →
  snd (ProjectLoading.loadArtifacts projectId (ProjectLoading.artifacts r)) = Js.Arr items →
  Forall (λ a, fileable a = true) items →
  let effects := ProjectLoading.loadProjectData projectId searchStage r in
  existsb ProjectLoading.is_error_set effects = false
  ∧ In (ProjectLoading.CallGetProjectCommits projectId) effects
  ∧ existsb ProjectLoading.is_tickets_call effects
    = (String.eqb projectStage "develop"
       || (0 <? length (List.filter (in_stage "develop") items))%nat).
Proof.
  intros Hid Hproject Hprop Hstage Hitems Hall. cbn zeta.
  destruct (artifactsByStage_runs items Hall) as [byStage Hgroup].
  destruct (loadProjectData_loaded projectId searchStage r projectData current_stage
              projectStage items byStage Hid Hproject Hprop Hstage Hitems Hgroup)
    as [viewing ->].
  pose proof (loadArtifacts_effects projectId (ProjectLoading.artifacts r)) as [Ha1 Ha2].
  pose proof (loadCommits_effects projectId (ProjectLoading.commits r)) as [Hc1 Hc2].
  pose proof (loadDevelopTickets_effects projectId (ProjectLoading.tickets r)) as [Ht1 Ht2].
  assert (Hdev : default [] (byStage !! "develop") = List.filter (in_stage "develop") items).
  { rewrite (artifactsByStage_lookup items byStage "develop" Hgroup). reflexivity. }
  rewrite Hdev.
  repeat split.
  - rewrite !existsb_app, Ha1, Hc1.
    destruct (String.eqb projectStage "develop" || _); rewrite ?Ht1; reflexivity.
  - apply in_or_app. right. apply in_or_app. right. apply in_or_app. right.
    apply in_or_app. left. unfold ProjectLoading.loadCommits. left. reflexivity.
  - rewrite !existsb_app, Ha2, Hc2.
    destruct (String.eqb projectStage "develop" || _); rewrite ?Ht2; reflexivity.
Qed.

(** Witness of X16: a define project whose three other requests fail. *)
Lemma loadProjectData_tolerant_witness :
  existsb ProjectLoading.is_error_set
    (ProjectLoading.loadProjectData sample_id None
       {| ProjectLoading.project :=
            Js.Resolved (Js.Obj [("current_stage", Js.Str "DEFINE")]);
          ProjectLoading.artifacts := Js.Rejected (Js.Error "Error" "HTTP error! status: 500");
          ProjectLoading.commits := Js.Rejected (Js.Error "Error" "HTTP error! status: 500");
          ProjectLoading.tickets := Js.Rejected (Js.Error "Error" "HTTP error! status: 500") |})
  = false.
Proof.
  refine (proj1 (loadProjectData_tolerant sample_id None _
                   (Js.Obj [("current_stage", Js.Str "DEFINE")]) (Js.Str "DEFINE")
                   "define" [] _ _ _ _ _ _));
    (reflexivity || constructor).
Defined.

(** X17.  When the project request rejects, or resolves to [null], no
    other request is made and the error state reads
    'Failed to load project: ' followed by the message of the error. *)
Theorem loadProjectData_project_failure (projectId : Js.value)
    (searchStage : option string) (r : ProjectLoading.replies) (e : Js.error) :
  ProjectLoading.isValidUUID (Js.to_string projectId) = true →
  ProjectLoading.project r = Js.Rejected e
  ∨ (ProjectLoading.project r = Js.Resolved Js.Null
     ∧ e = Js.nullish_read Js.Null "current_stage") →
  let effects := ProjectLoading.loadProjectData projectId searchStage r in
  List.filter ProjectLoading.is_call effects = [ProjectLoading.CallGetProject projectId]
  ∧ In (ProjectLoading.SetError (Some ("Failed to load project: " +:+ Js.message e)))
      effects
  ∧ existsb (λ x, match x with
                  | ProjectLoading.SetCurrentStage _ | ProjectLoading.SetStageData _ => true
                  | _ => false
                  end) effects = false.
Proof.
  intros Hid Hfail. cbn zeta. unfold ProjectLoading.loadProjectData.
  rewrite Hid. cbn [negb].
  destruct Hfail as [-> | [-> ->]]; cbn; repeat split; auto 10.
Qed.

(** Witness of X17: the backend is down. *)
Lemma loadProjectData_project_failure_witness :
  In (ProjectLoading.SetError
        (Some ("Failed to load project: " +:+ "Cannot connect to server.")))
    (ProjectLoading.loadProjectData sample_id None
       {| ProjectLoading.project := Js.Rejected (Js.Error "Error" "Cannot connect to server.");
          ProjectLoading.artifacts := Js.Resolved (Js.Arr []);
          ProjectLoading.commits := Js.Resolved (Js.Arr []);
          ProjectLoading.tickets := Js.Resolved Js.Null |}).
Proof.
  refine (proj1 (proj2 (loadProjectData_project_failure sample_id None _
                          (Js.Error "Error" "Cannot connect to server.") _ _)));
    [reflexivity | left; reflexivity].
Defined.

(** ** The counts of the ticket filters *)

Lemma todo_filter_agrees (t : Js.value) :
  (negb (Js.truthy (Js.member t "status")) || Js.is_str (Js.member t "status") "todo")
  = (String.eqb "todo" "all" || Js.is_str (TicketList.currentStatus t) "todo")
    && (String.eqb "all" "all" || Js.is_str (Js.member t "type") "all").
Proof.
  unfold TicketList.currentStatus, Js.or_else.
  destruct (Js.member t "status") as [| | [] | n | [m e | negative |] | s | |];
    cbn; try reflexivity.
  - destruct (n =? 0)%Z; reflexivity.
  - destruct (m =? 0)%Z; reflexivity.
  - destruct (String.eqb_spec s "") as [-> | Hs]; cbn; [reflexivity |].
    now rewrite Bool.andb_true_r.
Qed.

Lemma status_filter_agrees (t : Js.value) (status : string) :
  status ≠ "todo" → status ≠ "all" → status ≠ "" →
  Js.is_str (Js.member t "status") status
  = (String.eqb status "all" || Js.is_str (TicketList.currentStatus t) status)
    && (String.eqb "all" "all" || Js.is_str (Js.member t "type") "all").
Proof.
  intros Htodo Hall Hempty.
  apply String.eqb_neq in Hall. rewrite Hall.
  change (String.eqb "all" "all") with true.
  cbn [orb]. rewrite Bool.andb_true_r.
  assert (Hlit : Js.is_str (Js.Str "todo") status = false).
  { unfold Js.is_str. apply String.eqb_neq. congruence. }
  assert (Hblank : Js.is_str (Js.Str "") status = false).
  { unfold Js.is_str. apply String.eqb_neq. congruence. }
  unfold TicketList.currentStatus, Js.or_else.
  destruct (Js.member t "status") as [| | [] | n | [m e | negative |] | s | |];
    cbn [Js.truthy]; rewrite ?Hlit; try reflexivity.
  - destruct (negb (n =? 0)%Z); [reflexivity | now rewrite Hlit].
  - destruct (negb (m =? 0)%Z); [reflexivity | now rewrite Hlit].
  - destruct (String.eqb_spec s "") as [-> | Hs]; cbn [negb].
    + now rewrite Hlit, Hblank.
    + reflexivity.
Qed.

Lemma at_most_one_status (t : Js.value) :
  let status := Js.member t "status" in
  (Nat.b2n (negb (Js.truthy status) || Js.is_str status "todo")
   + Nat.b2n (Js.is_str status "in_progress")
   + Nat.b2n (Js.is_str status "done") ≤ 1)%nat.
Proof.
  cbn zeta. destruct (Js.member t "status") as [| | [] | n | [m e | negative |] | s | |];
    cbn [Js.truthy Js.is_str negb orb Nat.b2n]; try lia.
  - destruct (negb (n =? 0)%Z); cbn; lia.
  - destruct (negb (m =? 0)%Z); cbn; lia.
  - destruct (String.eqb_spec s "todo") as [-> | ?]; [cbn; lia |].
    destruct (String.eqb_spec s "in_progress") as [-> | ?]; [cbn; lia |].
    destruct (String.eqb_spec s "done") as [-> | ?]; [cbn; lia |].
    destruct (String.eqb s ""); cbn; lia.
Qed.

(** A value that has members: every value but [null] and [undefined]. *)
Lemma prop_of_non_nullish (v : Js.value) (k : string) :
  v ≠ Js.Null → v ≠ Js.Undefined → Js.prop v k = inr (Js.member v k).
Proof. intros Hnull Hundef. destruct v; try reflexivity; congruence. Qed.

Lemma prop_of_nullish (v : Js.value) (k : string) :
  v = Js.Null ∨ v = Js.Undefined → Js.prop v k = inl (Js.nullish_read v k).
Proof. intros [-> | ->]; reflexivity. Qed.

(** A filter whose callback reads a member of each ticket runs through
    on tickets that have members, and is then the plain filter. *)
Lemma filter_by_members (callback : Js.value → Js.error + bool) (keep : Js.value → bool)
    (tickets : list Js.value) :
  (∀ t, t ≠ Js.Null → t ≠ Js.Undefined → callback t = inr (keep t)) →
  Forall (λ t, t ≠ Js.Null ∧ t ≠ Js.Undefined) tickets →
  TicketCounts.filter_by callback tickets = inr (List.filter keep tickets).
Proof.
  intros Hcallback. induction 1 as [| t tickets [Hnull Hundef] _ IH]; [reflexivity |].
  cbn. now rewrite (Hcallback t Hnull Hundef), IH.
Qed.

(** It throws as soon as one ticket has none. *)
Lemma filter_by_nullish (callback : Js.value → Js.error + bool) (tickets : list Js.value) :
  (∀ t, t = Js.Null ∨ t = Js.Undefined →
        callback t = inl (Js.nullish_read t "status")) →
  (∀ t, t ≠ Js.Null → t ≠ Js.Undefined → ∃ keep, callback t = inr keep) →
  Exists (λ t, t = Js.Null ∨ t = Js.Undefined) tickets →
  ∃ t, (t = Js.Null ∨ t = Js.Undefined)
       ∧ In t tickets
       ∧ TicketCounts.filter_by callback tickets = inl (Js.nullish_read t "status").
Proof.
  intros Hthrow Hruns. induction tickets as [| t tickets IH]; intros Hex.
  - inversion Hex.
  - assert (Hcase : (t = Js.Null ∨ t = Js.Undefined) ∨ (t ≠ Js.Null ∧ t ≠ Js.Undefined)).
    { destruct t; auto; right; split; discriminate. }
    destruct Hcase as [Hnullish | [Hnull Hundef]].
    + exists t. split; [exact Hnullish |]. split; [now left |].
      cbn. now rewrite (Hthrow t Hnullish).
    + assert (Hrest : Exists (λ t, t = Js.Null ∨ t = Js.Undefined) tickets).
      { inversion Hex as [? ? [? | ?] | ? ? Hrest]; subst; [contradiction .. | exact Hrest]. }
      destruct (IH Hrest) as (u & Hu & Hin & Hrun).
      exists u. split; [exact Hu |]. split; [now right |].
      cbn. destruct (Hruns t Hnull Hundef) as [keep ->]. now rewrite Hrun.
Qed.

Lemma shown_members (filter typeFilter : string) (t : Js.value) :
  t ≠ Js.Null → t ≠ Js.Undefined →
  TicketCounts.shown filter typeFilter t
  = inr ((String.eqb filter "all" || Js.is_str (TicketList.currentStatus t) filter)
         && (String.eqb typeFilter "all" || Js.is_str (Js.member t "type") typeFilter)).
Proof.
  intros Hnull Hundef. unfold TicketCounts.shown.
  now rewrite (prop_of_non_nullish t "status" Hnull Hundef).
Qed.

(** X18.  The filter bar of the ticket list, on tickets that all have
    members (none is [null] or [undefined]): the number on each status
    button is the number of tickets that pass the filter of that button
    (with all types selected), the two 'All' filters pass every ticket,
    and a ticket is counted under at most one status.  With a ticket that
    has no members the filter of the list, which runs first, throws the
    [TypeError] of reading its status, whatever the two filters are. *)
Theorem ticket_counts_match_filters (tickets : list Js.value) :
  (Forall (λ t, t ≠ Js.Null ∧ t ≠ Js.Undefined) tickets →
   ∃ todo inProgress done : list Js.value,
     TicketCounts.filteredTickets "todo" "all" tickets = inr todo
     ∧ TicketCounts.todoCount tickets = inr (length todo)
     ∧ TicketCounts.filteredTickets "in_progress" "all" tickets = inr inProgress
     ∧ TicketCounts.inProgressCount tickets = inr (length inProgress)
     ∧ TicketCounts.filteredTickets "done" "all" tickets = inr done
     ∧ TicketCounts.doneCount tickets = inr (length done)
     ∧ TicketCounts.filteredTickets "all" "all" tickets = inr tickets
     ∧ (length todo + length inProgress + length done ≤ length tickets)%nat)
  ∧ (Exists (λ t, t = Js.Null ∨ t = Js.Undefined) tickets →
     ∀ filter typeFilter,
       ∃ t, (t = Js.Null ∨ t = Js.Undefined)
            ∧ In t tickets
            ∧ TicketCounts.filteredTickets filter typeFilter tickets
              = inl (Js.nullish_read t "status")).
Proof.
  split.
  - intros Hall.
    exists (List.filter (λ t, negb (Js.truthy (Js.member t "status"))
                              || Js.is_str (Js.member t "status") "todo") tickets),
           (List.filter (λ t, Js.is_str (Js.member t "status") "in_progress") tickets),
           (List.filter (λ t, Js.is_str (Js.member t "status") "done") tickets).
    unfold TicketCounts.filteredTickets, TicketCounts.todoCount,
      TicketCounts.inProgressCount, TicketCounts.doneCount, TicketCounts.count.
    assert (Hcount : ∀ keep : Js.value → bool,
               TicketCounts.filter_by
                 (λ t, match Js.prop t "status" with
                       | inl e => inl e
                       | inr status => inr (keep status)
                       end) tickets
               = inr (List.filter (λ t, keep (Js.member t "status")) tickets)).
    { intros keep. apply filter_by_members; [| exact Hall].
      intros t Hnull Hundef. now rewrite (prop_of_non_nullish t "status" Hnull Hundef). }
    rewrite (Hcount (λ status, negb (Js.truthy status) || Js.is_str status "todo")),
      (Hcount (λ status, Js.is_str status "in_progress")),
      (Hcount (λ status, Js.is_str status "done")).
    assert (Hshown : ∀ filter keep,
               (∀ t, keep t
                     = (String.eqb filter "all"
                        || Js.is_str (TicketList.currentStatus t) filter)
                       && (String.eqb "all" "all"
                           || Js.is_str (Js.member t "type") "all")) →
               TicketCounts.filter_by (TicketCounts.shown filter "all") tickets
               = inr (List.filter keep tickets)).
    { intros filter keep Hkeep.
      rewrite (filter_by_members _ _ tickets (shown_members filter "all") Hall).
      f_equal. apply List.filter_ext. intros t. now rewrite Hkeep. }
    repeat split.
    + apply Hshown. intros t. apply todo_filter_agrees.
    + apply Hshown. intros t. apply status_filter_agrees; discriminate.
    + apply Hshown. intros t. apply status_filter_agrees; discriminate.
    + rewrite (Hshown "all" (λ _, true)) by reflexivity.
      f_equal. clear. induction tickets as [| t tickets IH]; [reflexivity |].
      cbn [List.filter]. now rewrite IH.
    + clear. induction tickets as [| t tickets IH]; [cbn; lia |].
      pose proof (at_most_one_status t) as Hone. cbn zeta in Hone.
      cbn [List.filter].
      destruct (negb (Js.truthy (Js.member t "status"))
                || Js.is_str (Js.member t "status") "todo");
        destruct (Js.is_str (Js.member t "status") "in_progress");
        destruct (Js.is_str (Js.member t "status") "done");
        cbn [length Nat.b2n] in *; lia.
  - intros Hex filter typeFilter. unfold TicketCounts.filteredTickets.
    apply filter_by_nullish; [| | exact Hex].
    + intros t Ht. unfold TicketCounts.shown. now rewrite (prop_of_nullish t "status" Ht).
    + intros t Hnull Hundef. rewrite (shown_members filter typeFilter t Hnull Hundef). eauto.
Qed.

(** Witness of X18: three tickets, one of them done. *)
Lemma ticket_counts_match_filters_witness :
  ∃ todo inProgress done : list Js.value,
    TicketCounts.filteredTickets "todo" "all"
      [Js.Obj [("key", Js.Str "T-1")];
       Js.Obj [("key", Js.Str "T-2"); ("status", Js.Str "done")];
       Js.Obj [("key", Js.Str "T-3"); ("status", Js.Str "todo")]] = inr todo
    ∧ TicketCounts.todoCount
        [Js.Obj [("key", Js.Str "T-1")];
         Js.Obj [("key", Js.Str "T-2"); ("status", Js.Str "done")];
         Js.Obj [("key", Js.Str "T-3"); ("status", Js.Str "todo")]] = inr (length todo)
    ∧ length todo = 2%nat
    ∧ length inProgress = 0%nat
    ∧ length done = 1%nat.
Proof.
  destruct (proj1 (ticket_counts_match_filters
                     [Js.Obj [("key", Js.Str "T-1")];
                      Js.Obj [("key", Js.Str "T-2"); ("status", Js.Str "done")];
                      Js.Obj [("key", Js.Str "T-3"); ("status", Js.Str "todo")]]))
    as (todo & inProgress & done & Htodo & Hcount & Hprogress & _ & Hdone & _).
  - repeat constructor; discriminate.
  - exists todo, inProgress, done.
    split; [exact Htodo |]. split; [exact Hcount |].
    injection Htodo as <-. injection Hprogress as <-. injection Hdone as <-.
    repeat split.
Defined.

(** ** Generation results, branch by branch *)

Lemma prop_of_object_like (v : Js.value) (k : string) (x : Js.value) :
  Js.prop v k = inr x → ∀ k', Js.prop v k' = inr (Js.member v k').
Proof. destruct v; cbn; intros; (reflexivity || discriminate). Qed.

(** X19.  Whatever the result, a handled generation leaves alone what it
    is not about: the stage viewed, the active tab, the GitHub state, the
    selected ticket, the stage entries of test, build and deploy, and the
    artifacts of every stage but discover, define and design.  A result
    that is not tagged develop and carries none of the expected documents
    changes nothing at all. *)
Theorem handleGenerationComplete_frame
    (clk : WorkspaceView.clock) (result : Js.value) (st st' : WorkspaceView.state) :
  WorkspaceView.handleGenerationComplete clk result st = inr st' →
  WorkspaceView.viewingStage st' = WorkspaceView.viewingStage st
  ∧ WorkspaceView.activeTab st' = WorkspaceView.activeTab st
  ∧ WorkspaceView.gitHubConfig st' = WorkspaceView.gitHubConfig st
  ∧ WorkspaceView.showGitHubModal st' = WorkspaceView.showGitHubModal st
  ∧ WorkspaceView.selectedTicket st' = WorkspaceView.selectedTicket st
  ∧ (∀ k, k ∉ ["discover"; "define"; "design"; "develop"] →
          WorkspaceView.stageData st' !! k = WorkspaceView.stageData st !! k)
  ∧ (∀ k, k ∉ ["discover"; "define"; "design"] →
          WorkspaceView.artifacts st' !! k = WorkspaceView.artifacts st !! k)
  ∧ (Js.is_str (Js.member result "stage") "develop" = false →
     Js.truthy (Js.member result "tickets") = false →
     Js.truthy (Js.member result "problem_statement") = false →
     Js.truthy (Js.member result "brd") = false →
     Js.truthy (Js.member result "architecture") = false →
     st' = st).
Proof.
  unfold WorkspaceView.handleGenerationComplete.
  destruct (Js.prop result "stage") as [e | stage] eqn:Hprop; [discriminate |].
  assert (Hstage : stage = Js.member result "stage").
  { rewrite (prop_of_object_like _ _ _ Hprop "stage") in Hprop. congruence. }
  subst stage.
  destruct (Js.is_str (Js.member result "stage") "develop" || _) eqn:Hdev.
  { intros [= <-]. repeat split; try reflexivity.
    apply Bool.orb_true_iff in Hdev. intros Hs Ht. destruct Hdev; congruence. }
  destruct (Js.truthy (Js.member result "problem_statement") && _) eqn:Hdisc.
  { intros [= <-]. repeat split; try reflexivity.
    - intros k Hk. cbn. rewrite !not_elem_of_cons in Hk.
      destruct Hk as (? & ? & ? & ? & _). now rewrite !lookup_insert_ne by congruence.
    - intros k Hk. cbn. rewrite !not_elem_of_cons in Hk.
      destruct Hk as (? & ? & ? & _). now rewrite !lookup_insert_ne by congruence.
    - intros _ _ Hps. rewrite Hps in Hdisc. discriminate. }
  destruct (Js.truthy (Js.member result "brd") && _) eqn:Hdef.
  { intros [= <-]. repeat split; try reflexivity.
    - intros k Hk. cbn. rewrite !not_elem_of_cons in Hk.
      destruct Hk as (? & ? & ? & ? & _). now rewrite !lookup_insert_ne by congruence.
    - intros k Hk. cbn. rewrite !not_elem_of_cons in Hk.
      destruct Hk as (? & ? & ? & _). now rewrite !lookup_insert_ne by congruence.
    - intros _ _ _ Hbrd. rewrite Hbrd in Hdef. discriminate. }
  destruct (Js.truthy (Js.member result "architecture")) eqn:Harch.
  { intros [= <-]. repeat split; try reflexivity.
    - intros k Hk. cbn. rewrite !not_elem_of_cons in Hk.
      destruct Hk as (? & ? & ? & ? & _). now rewrite !lookup_insert_ne by congruence.
    - intros k Hk. cbn. rewrite !not_elem_of_cons in Hk.
      destruct Hk as (? & ? & ? & _). now rewrite !lookup_insert_ne by congruence.
    - intros _ _ _ _ Ha. discriminate. }
  intros [= <-]. repeat split; reflexivity.
Qed.

(** Witness of X19: the discover result keeps the test entry. *)
Lemma handleGenerationComplete_frame_witness :
  WorkspaceView.stageData after_discover !! "test"
  = WorkspaceView.stageData WorkspaceView.initial !! "test".
Proof.
  refine (proj1 (proj2 (proj2 (proj2 (proj2 (proj2
            (handleGenerationComplete_frame epoch discover_result WorkspaceView.initial
               after_discover _)))))) "test" _).
  - reflexivity.
  - rewrite !not_elem_of_cons. repeat split; try discriminate. apply not_elem_of_nil.
Defined.

(** X20.  A result that is taken neither by the develop nor by the
    discover branch and contains both a BRD and user stories completes
    define: its entry becomes 'passed' with two items, design becomes
    'active' and the current stage, and the two documents are the
    artifacts of define.  A result taken by none of these that contains
    an architecture completes design in the same way, with one item,
    develop as the next stage, and the name of the architecture, or
    'Solution Architecture Document' when it has none, as the name of the
    artifact. *)
Theorem handleGenerationComplete_define_design
    (clk : WorkspaceView.clock) (result : Js.value) (st : WorkspaceView.state) :
  Js.is_str (Js.member result "stage") "develop" = false →
  Js.truthy (Js.member result "tickets") = false →
  Js.truthy (Js.member result "problem_statement")
  && Js.truthy (Js.member result "stakeholder_analysis") = false →
  (Js.truthy (Js.member result "brd") && Js.truthy (Js.member result "user_stories")
   = true →
   ∃ st', WorkspaceView.handleGenerationComplete clk result st = inr st'
     ∧ StageIndicator.getStageStatus (WorkspaceView.stageData st') "define" = "passed"
     ∧ StageIndicator.getStageItemCount (WorkspaceView.stageData st') "define" = 2%nat
     ∧ StageIndicator.getStageStatus (WorkspaceView.stageData st') "design" = "active"
     ∧ WorkspaceView.currentStage st' = "design"
     ∧ WorkspaceView.artifacts st' !! "define"
       = Some [ WorkspaceView.artifact (Js.member result "brd")
                  (Js.Str "Business Requirements Document") "AI Technical Writer" "define";
                WorkspaceView.artifact (Js.member result "user_stories")
                  (Js.Str "User Stories") "AI Technical Writer" "define" ]
     ∧ WorkspaceView.fileContent st' = Js.member (Js.member result "brd") "content")
  ∧ (Js.truthy (Js.member result "brd") && Js.truthy (Js.member result "user_stories")
     = false →
     Js.truthy (Js.member result "architecture") = true →
     ∃ st', WorkspaceView.handleGenerationComplete clk result st = inr st'
       ∧ StageIndicator.getStageStatus (WorkspaceView.stageData st') "design" = "passed"
       ∧ StageIndicator.getStageItemCount (WorkspaceView.stageData st') "design" = 1%nat
       ∧ StageIndicator.getStageStatus (WorkspaceView.stageData st') "develop" = "active"
       ∧ WorkspaceView.currentStage st' = "develop"
       ∧ WorkspaceView.artifacts st' !! "design"
         = Some [ WorkspaceView.artifact (Js.member result "architecture")
                    (if Js.truthy (Js.member (Js.member result "architecture") "name")
                     then Js.member (Js.member result "architecture") "name"
                     else Js.Str "Solution Architecture Document")
                    "AI Solution Architect" "design" ]).
Proof.
  intros Hstage Htickets Hdisc.
  assert (Hlook : ∀ (a b : string) (x y : StageIndicator.StageInfo)
                    (m : gmap string StageIndicator.StageInfo),
             a ≠ b → (<[b := y]> (<[a := x]> m)) !! a = Some x
                     ∧ (<[b := y]> (<[a := x]> m)) !! b = Some y).
  { intros a b x y m Hab. split; [| apply lookup_insert_eq].
    rewrite lookup_insert_ne by congruence. apply lookup_insert_eq. }
  split.
  - intros Hdef. assert (Hbrd : Js.truthy (Js.member result "brd") = true).
    { now apply Bool.andb_true_iff in Hdef. }
    unfold WorkspaceView.handleGenerationComplete.
    rewrite (prop_of_truthy_member _ _ "stage" Hbrd).
    rewrite Hstage, Htickets, Hdisc, Hdef. cbn [orb].
    eexists. split; [reflexivity |].
    cbn [WorkspaceView.stageData WorkspaceView.artifacts WorkspaceView.currentStage
         WorkspaceView.fileContent
         WorkspaceView.setFileContent WorkspaceView.setSelectedFile
         WorkspaceView.setCurrentStage WorkspaceView.updStageData
         WorkspaceView.updArtifacts WorkspaceView.setStageData
         WorkspaceView.setArtifacts].
    unfold StageIndicator.getStageStatus, StageIndicator.getStageItemCount.
    destruct (Hlook "define" "design" (WorkspaceView.info "passed" 2)
                (WorkspaceView.info "active" 0) (WorkspaceView.stageData st))
      as [-> ->]; [discriminate |].
    rewrite lookup_insert_eq. repeat split.
  - intros Hdef Harch.
    unfold WorkspaceView.handleGenerationComplete.
    rewrite (prop_of_truthy_member _ _ "stage" Harch).
    rewrite Hstage, Htickets, Hdisc, Hdef, Harch. cbn [orb].
    eexists. split; [reflexivity |].
    cbn [WorkspaceView.stageData WorkspaceView.artifacts WorkspaceView.currentStage
         WorkspaceView.fileContent
         WorkspaceView.setFileContent WorkspaceView.setSelectedFile
         WorkspaceView.setCurrentStage WorkspaceView.updStageData
         WorkspaceView.updArtifacts WorkspaceView.setStageData
         WorkspaceView.setArtifacts].
    unfold StageIndicator.getStageStatus, StageIndicator.getStageItemCount.
    destruct (Hlook "design" "develop" (WorkspaceView.info "passed" 1)
                (WorkspaceView.info "active" 0) (WorkspaceView.stageData st))
      as [-> ->]; [discriminate |].
    rewrite lookup_insert_eq. repeat split.
Qed.

(** Witness of X20: a define result on the workspace after discover. *)
Lemma handleGenerationComplete_define_design_witness :
  ∃ st',
    WorkspaceView.handleGenerationComplete epoch
      (Js.Obj [("brd", Js.Obj [("content", Js.Str "# BRD")]);
               ("user_stories", Js.Obj [("content", Js.Str "# Stories")])])
      after_discover = inr st'
    ∧ WorkspaceView.currentStage st' = "design".
Proof.
  destruct (proj1 (handleGenerationComplete_define_design epoch
                     (Js.Obj [("brd", Js.Obj [("content", Js.Str "# BRD")]);
                              ("user_stories", Js.Obj [("content", Js.Str "# Stories")])])
                     after_discover eq_refl eq_refl eq_refl) eq_refl)
    as (st' & Hrun & _ & _ & _ & Hcur & _).
  exists st'. split; assumption.
Defined.

(** X21.  A result tagged develop, or carrying tickets, only records the
    tickets and announces them: [developTickets] holds the tickets, the
    summary and the artifact id of the result, one message is added to
    the team chat with the number of tickets (0 when the result has no
    ticket array), and the stage data, the current stage and the
    artifacts are as before. *)
Theorem handleGenerationComplete_develop
    (clk : WorkspaceView.clock) (result : Js.value) (st : WorkspaceView.state)
    (stage : Js.value) :
  Js.prop result "stage" = inr stage →
  Js.is_str stage "develop" || Js.truthy (Js.member result "tickets") = true →
  ∃ st',
    WorkspaceView.handleGenerationComplete clk result st = inr st'
    ∧ WorkspaceView.developTickets st'
      = Js.Obj [("tickets", Js.member result "tickets");
                ("summary", Js.member result "summary");
                ("artifact_id", Js.member result "artifact_id")]
    ∧ (∃ msg, WorkspaceView.chatMessages st' = WorkspaceView.chatMessages st ++ [msg]
              ∧ WorkspaceView.author msg = "AI"
              ∧ (∀ tickets, Js.member result "tickets" = Js.Arr tickets →
                   WorkspaceView.content msg
                   = "✅ Generated " +:+ pretty (Z.of_nat (length tickets))
                     +:+ " development tickets!")
              ∧ (Js.truthy (Js.member result "tickets") = false →
                 WorkspaceView.content msg = "✅ Generated 0 development tickets!"))
    ∧ WorkspaceView.stageData st' = WorkspaceView.stageData st
    ∧ WorkspaceView.currentStage st' = WorkspaceView.currentStage st
    ∧ WorkspaceView.artifacts st' = WorkspaceView.artifacts st.
Proof.
  intros Hprop Hdev. unfold WorkspaceView.handleGenerationComplete.
  rewrite Hprop, Hdev. eexists. split; [reflexivity |].
  repeat split. eexists. split; [reflexivity |]. split; [reflexivity |].
  cbn [WorkspaceView.content]. split.
  - intros tickets ->. do 2 f_equal. unfold Js.or_else. cbn.
    destruct tickets; reflexivity.
  - intros Hfalsy.
    destruct (Js.member result "tickets")
      as [| | [] | [| n | n] | [m e | negative |] | [| c s] | xs | fs];
      try discriminate Hfalsy; reflexivity.
Qed.

(** Witness of X21: three tickets. *)
Lemma handleGenerationComplete_develop_witness :
  ∃ st',
    WorkspaceView.handleGenerationComplete epoch
      (Js.Obj [("tickets", Js.Arr [Js.Null; Js.Null; Js.Null])]) WorkspaceView.initial
    = inr st'
    ∧ WorkspaceView.currentStage st' = "discover".
Proof.
  destruct (handleGenerationComplete_develop epoch
              (Js.Obj [("tickets", Js.Arr [Js.Null; Js.Null; Js.Null])])
              WorkspaceView.initial Js.Undefined eq_refl eq_refl)
    as (st' & Hrun & _ & _ & _ & Hcur & _).
  exists st'. split; assumption.
Defined.

(** ** Connecting GitHub *)

(** X22.  When the modal reports success with a data object,
    [handleGitHubConfigSuccess] closes the modal and stores a configured
    GitHub state with the repository of the data; a develop panel given
    that state no longer shows the connect prompt, a later check for a
    project id that returns it does not reopen the modal, and one message
    is added to the team chat. *)
Theorem handleGitHubConfigSuccess_connects
    (clk : WorkspaceView.clock) (data repo : Js.value) (st : WorkspaceView.state) :
  Js.prop data "repo" = inr repo →
  ∃ st',
    WorkspaceView.handleGitHubConfigSuccess clk data st = inr st'
    ∧ WorkspaceView.showGitHubModal st' = false
    ∧ ¬ not_configured (WorkspaceView.gitHubConfig st')
    ∧ Js.member (WorkspaceView.gitHubConfig st') "github_repo" = repo
    ∧ (∀ p panel, DevelopStagePanel.githubConfig p = WorkspaceView.gitHubConfig st' →
         DevelopStagePanel.ticketsSection p panel ≠ DevelopStagePanel.ConnectPrompt)
    ∧ (∀ projectId,
         Js.truthy projectId = true →
         WorkspaceView.showGitHubModal
           (WorkspaceView.onViewingStage projectId
              (Js.Resolved (WorkspaceView.gitHubConfig st'))
              (WorkspaceView.setViewingStage "develop" st')) = false)
    ∧ length (WorkspaceView.chatMessages st') = S (length (WorkspaceView.chatMessages st)).
Proof.
  intros Hrepo. unfold WorkspaceView.handleGitHubConfigSuccess. rewrite Hrepo.
  eexists. split; [reflexivity |].
  cbn [WorkspaceView.showGitHubModal WorkspaceView.gitHubConfig
       WorkspaceView.chatMessages WorkspaceView.updChatMessages
       WorkspaceView.setChatMessages WorkspaceView.setShowGitHubModal
       WorkspaceView.setGitHubConfig].
  repeat split.
  - unfold not_configured. cbn. discriminate.
  - intros p panel Hcfg. unfold DevelopStagePanel.ticketsSection,
      DevelopStagePanel.isConfigured. rewrite Hcfg. cbn.
    destruct (Js.is_num _ 0); discriminate.
  - intros projectId Hpid.
    unfold WorkspaceView.onViewingStage, WorkspaceView.checkGitHubConfig.
    rewrite Hpid. reflexivity.
  - rewrite length_app. cbn. lia.
Qed.

(** Witness of X22: the repository [owner/repo]. *)
Lemma handleGitHubConfigSuccess_connects_witness :
  ∃ st',
    WorkspaceView.handleGitHubConfigSuccess epoch
      (Js.Obj [("repo", Js.Str "owner/repo"); ("default_branch", Js.Str "main")])
      WorkspaceView.initial = inr st'
    ∧ WorkspaceView.showGitHubModal st' = false.
Proof.
  destruct (handleGitHubConfigSuccess_connects epoch
              (Js.Obj [("repo", Js.Str "owner/repo"); ("default_branch", Js.Str "main")])
              (Js.Str "owner/repo") WorkspaceView.initial eq_refl)
    as (st' & Hrun & Hclosed & _).
  exists st'. split; assumption.
Defined.

(** X23.  When the save call answers with status 'success', the form
    closes exactly when the answer carries a [data] with members.  With
    [data] missing or [null] the success handler of the workspace throws
    while reading the repository: the form stays open and shows the
    message of that error, although the configuration was saved. *)
Theorem handleSubmit_success_needs_data
    (clk : WorkspaceView.clock) (ws : WorkspaceView.state)
    (projectId : Js.value) (token repo : Js.ustring) (response status : Js.value) :
  GitHubConfigModal.validate token repo = None →
  Js.prop response "status" = inr status →
  Js.is_str status "success" = true →
  let data := Js.member response "data" in
  let effects :=
    GitHubConfigModal.handleSubmit projectId token repo (Js.Resolved response)
      (onSuccess_wired clk ws) in
  In (GitHubConfigModal.OnSuccess data) effects
  ∧ (In GitHubConfigModal.OnClose effects ↔ data ≠ Js.Undefined ∧ data ≠ Js.Null)
  ∧ (data = Js.Undefined ∨ data = Js.Null →
     In (GitHubConfigModal.SetError (Some (Js.message (Js.nullish_read data "repo"))))
       effects)
  ∧ (data ≠ Js.Undefined ∧ data ≠ Js.Null →
     existsb GitHubConfigModal.is_error_shown effects = false).
Proof.
  intros Hvalid Hstatus Hsuccess. cbn zeta.
  unfold GitHubConfigModal.handleSubmit, onSuccess_wired,
    WorkspaceView.handleGitHubConfigSuccess.
  rewrite Hvalid, Hstatus, Hsuccess.
  assert (Hsplit :
    (∃ e, (Js.member response "data" = Js.Undefined ∨ Js.member response "data" = Js.Null)
          ∧ e = Js.nullish_read (Js.member response "data") "repo"
          ∧ Js.prop (Js.member response "data") "repo" = inl e)
    ∨ (Js.member response "data" ≠ Js.Undefined ∧ Js.member response "data" ≠ Js.Null
       ∧ ∃ v, Js.prop (Js.member response "data") "repo" = inr v)).
  { destruct (Js.member response "data"); cbn;
      try (right; repeat split; try discriminate; eauto; fail);
      left; eexists; repeat split; auto. }
  destruct Hsplit as [(e & Hnull & -> & Hprop) | (Hu & Hn & v & Hprop)]; rewrite Hprop;
    unfold GitHubConfigModal.caught; cbn [app].
  - split; [| split; [| split]].
    + do 4 right. left. reflexivity.
    + split.
      * intros Hin. exfalso.
        repeat (destruct Hin as [Hin | Hin]; [discriminate Hin |]). exact Hin.
      * intros [? ?]. destruct Hnull; contradiction.
    + intros _. do 6 right. left. destruct Hnull as [-> | ->]; reflexivity.
    + intros [? ?]. destruct Hnull; contradiction.
  - split; [| split; [| split]].
    + do 4 right. left. reflexivity.
    + split; [intros _; split; assumption |].
      intros _. do 5 right. left. reflexivity.
    + intros [? | ?]; contradiction.
    + intros _. reflexivity.
Qed.

(** Witness of X23: [{ status: 'success' }] without data. *)
Lemma handleSubmit_success_needs_data_witness :
  In (GitHubConfigModal.SetError
        (Some "Cannot read properties of undefined (reading 'repo')"))
    (GitHubConfigModal.handleSubmit (Js.Str "p1") (units "ghp_abc") (units "owner/repo")
       (Js.Resolved (Js.Obj [("status", Js.Str "success")]))
       (onSuccess_wired epoch WorkspaceView.initial)).
Proof.
  refine (proj1 (proj2 (proj2 (handleSubmit_success_needs_data epoch WorkspaceView.initial
                                 (Js.Str "p1") (units "ghp_abc") (units "owner/repo")
                                 (Js.Obj [("status", Js.Str "success")])
                                 (Js.Str "success") _ _ _))) _);
    (reflexivity || (left; reflexivity)).
Defined.

(** X24.  The effect that watches the stage viewed does nothing for a
    stage other than develop.  For develop with a project id, it stores
    the configuration that the check returns and clears the checking
    flag, and the modal is open afterwards exactly when it was open
    before or the configuration is not configured. *)
Theorem onViewingStage_spec (projectId config : Js.value) (reply : Js.outcome)
    (st : WorkspaceView.state) :
  (WorkspaceView.viewingStage st ≠ "develop" →
   WorkspaceView.onViewingStage projectId reply st = st)
  ∧ (WorkspaceView.viewingStage st = "develop" →
     Js.truthy projectId = true →
     reply = Js.Resolved config →
     let st' := WorkspaceView.onViewingStage projectId reply st in
     WorkspaceView.gitHubConfig st' = config
     ∧ WorkspaceView.isCheckingGitHub st' = false
     ∧ WorkspaceView.showGitHubModal st'
       = WorkspaceView.showGitHubModal st
         || negb (Js.truthy (Js.opt_prop config "is_configured"))).
Proof.
  unfold WorkspaceView.onViewingStage, WorkspaceView.checkGitHubConfig. split.
  - intros Hne. apply String.eqb_neq in Hne. now rewrite Hne.
  - intros -> Hpid ->. rewrite Hpid. cbn.
    destruct (Js.truthy (Js.opt_prop config "is_configured")); cbn;
      repeat split; try reflexivity.
    + now rewrite Bool.orb_false_r.
    + now rewrite Bool.orb_true_r.
Qed.

(** Witness of X24: a configured project viewed in develop. *)
Lemma onViewingStage_spec_witness :
  WorkspaceView.showGitHubModal
    (WorkspaceView.onViewingStage (Js.Str "p1")
       (Js.Resolved (Js.Obj [("is_configured", Js.Bool true)]))
       (WorkspaceView.handleStageClick "develop" WorkspaceView.initial))
  = false || negb true.
Proof.
  refine (proj2 (proj2 (proj2 (onViewingStage_spec (Js.Str "p1")
                                 (Js.Obj [("is_configured", Js.Bool true)]) _
                                 (WorkspaceView.handleStageClick "develop"
                                    WorkspaceView.initial)) _ _ _)));
    reflexivity.
Defined.

(** ** Implementing a ticket *)

(** X25.  [handleImplementTicket] makes one call of
    [api.implementTicket], for the key of the ticket and the user 'user',
    between raising and lowering the implementing flag: whatever the call
    settles to, and also when the success alert cannot be built, the last
    two effects reset [isImplementing] and [implementingKey].  A rejected
    call alerts 'Implementation failed: ' with the message and does not
    select the ticket. *)
Theorem handleImplementTicket_bracket
    (p : DevelopStagePanel.props) (ticket : Js.value) (reply : Js.outcome) :
  ∃ body,
    DevelopStagePanel.handleImplementTicket p ticket reply
    = [ DevelopStagePanel.SetIsImplementing true;
        DevelopStagePanel.SetImplementingKey (Js.member ticket "key");
        DevelopStagePanel.CallImplementTicket (DevelopStagePanel.projectId p)
          (Js.member ticket "key") (Js.Str "user") ]
      ++ body
      ++ [ DevelopStagePanel.SetIsImplementing false;
           DevelopStagePanel.SetImplementingKey Js.Null ]
    ∧ existsb DevelopStagePanel.is_implement_call body = false
    ∧ (∀ e, reply = Js.Rejected e →
         body = [ DevelopStagePanel.ConsoleError;
                  DevelopStagePanel.Alert ("Implementation failed: " +:+ Js.message e) ]).
Proof.
  unfold DevelopStagePanel.handleImplementTicket.
  eexists. split; [reflexivity |]. split.
  - destruct reply as [result | e]; [| reflexivity].
    rewrite !existsb_app.
    destruct (DevelopStagePanel.onTicketSelect p);
      destruct (DevelopStagePanel.successAlert result); reflexivity.
  - intros e ->. reflexivity.
Qed.


(** ** The discover panel, when generation succeeds *)

Lemma discover_branch_runs (clk : WorkspaceView.clock) (result : Js.value)
    (ws : WorkspaceView.state) :
  Js.is_str (Js.member result "stage") "develop" = false →
  Js.truthy (Js.member result "tickets") = false →
  Js.truthy (Js.member result "problem_statement") = true →
  Js.truthy (Js.member result "stakeholder_analysis") = true →
  ∃ ws', WorkspaceView.handleGenerationComplete clk result ws = inr ws'
         ∧ WorkspaceView.currentStage ws' = "define".
Proof.
  intros Hstage Htickets Hps Hsa. unfold WorkspaceView.handleGenerationComplete.
  rewrite (prop_of_truthy_member _ _ "stage" Hps), Hstage, Htickets, Hps, Hsa.
  eexists. split; reflexivity.
Qed.

(** X27.  [handleGenerate] does nothing at all for a blank idea or while
    a generation is running.  Otherwise it calls the API once; when the
    call resolves it hands the result to [onGenerationComplete] once, and
    for a result with both documents that is neither tagged develop nor
    carries tickets, the workspace is then in define. *)
Theorem handleGenerate_success
    (p : DiscoverInputPanel.props) (userIdea : Js.ustring) (result : Js.value)
    (callback : Js.value → option Js.error)
    (clk : WorkspaceView.clock) (ws : WorkspaceView.state) :
  (¬ nonblank userIdea ∨ DiscoverInputPanel.isGenerating p = true →
   ∀ reply, DiscoverInputPanel.handleGenerate p userIdea reply = [])
  ∧ (nonblank userIdea →
     DiscoverInputPanel.isGenerating p = false →
     DiscoverInputPanel.onGenerationComplete p = Some callback →
     let effects := DiscoverInputPanel.handleGenerate p userIdea (Js.Resolved result) in
     List.filter DiscoverInputPanel.is_generate_call effects
     = [DiscoverInputPanel.CallGenerateDiscover (DiscoverInputPanel.projectId p)
          userIdea "demo_user"]
     ∧ List.filter DiscoverInputPanel.is_completion effects
       = [DiscoverInputPanel.OnGenerationComplete result]
     ∧ last effects = Some (DiscoverInputPanel.SetIsGenerating false)
     ∧ (Js.is_str (Js.member result "stage") "develop" = false →
        Js.truthy (Js.member result "tickets") = false →
        Js.truthy (Js.member result "problem_statement") = true →
        Js.truthy (Js.member result "stakeholder_analysis") = true →
        WorkspaceView.currentStage (DiscoverInputPanel.deliver clk ws effects) = "define")).
Proof.
  split.
  - intros Hblock reply. unfold DiscoverInputPanel.handleGenerate.
    destruct (Js.trim userIdea) as [| c rest] eqn:Htrim; [reflexivity |].
    destruct Hblock as [Hblank | ->]; [| reflexivity].
    exfalso. apply Hblank, trim_nonblank. rewrite Htrim. discriminate.
  - intros Hidea Hidle Hcb. cbn zeta. apply trim_nonblank in Hidea.
    unfold DiscoverInputPanel.handleGenerate.
    destruct (Js.trim userIdea) as [| c rest]; [contradiction |].
    rewrite Hidle, Hcb.
    assert (Hcaught : ∀ o : option Js.error,
               List.filter DiscoverInputPanel.is_generate_call
                 (match o with Some err => DiscoverInputPanel.caught err | None => [] end) = []
               ∧ List.filter DiscoverInputPanel.is_completion
                   (match o with Some err => DiscoverInputPanel.caught err | None => [] end) = []).
    { intros [err |]; split; reflexivity. }
    destruct (Hcaught (callback result)) as [Hg Hc].
    repeat split.
    + cbn. rewrite List.filter_app, Hg. reflexivity.
    + cbn. rewrite List.filter_app, Hc. reflexivity.
    + rewrite !app_assoc. apply last_snoc.
    + intros Hstage Htickets Hps Hsa.
      destruct (discover_branch_runs clk result ws Hstage Htickets Hps Hsa)
        as (ws' & Hrun & Hcur).
      unfold DiscoverInputPanel.deliver. cbn [app fold_left].
      rewrite !fold_left_app. cbn [fold_left]. rewrite Hrun.
      destruct (callback result) as [err |]; cbn; exact Hcur.
Qed.

(** Witness of X25: a rejected implementation. *)
Lemma handleImplementTicket_bracket_witness :
  ∃ body,
    DevelopStagePanel.handleImplementTicket
      (DevelopStagePanel.step_props configured_step) (Js.Obj [("key", Js.Str "T-1")])
      (Js.Rejected (Js.Error "Error" "no"))
    = [ DevelopStagePanel.SetIsImplementing true;
        DevelopStagePanel.SetImplementingKey (Js.Str "T-1");
        DevelopStagePanel.CallImplementTicket (Js.Str "p1") (Js.Str "T-1") (Js.Str "user") ]
      ++ body
      ++ [ DevelopStagePanel.SetIsImplementing false;
           DevelopStagePanel.SetImplementingKey Js.Null ]
    ∧ body = [ DevelopStagePanel.ConsoleError;
               DevelopStagePanel.Alert "Implementation failed: no" ].
Proof.
  destruct (handleImplementTicket_bracket (DevelopStagePanel.step_props configured_step)
              (Js.Obj [("key", Js.Str "T-1")]) (Js.Rejected (Js.Error "Error" "no")))
    as (body & Hrun & _ & Hfail).
  exists body. split; [exact Hrun | exact (Hfail _ eq_refl)].
Defined.


(** Witness of X27: the discover result through an idle panel. *)
Lemma handleGenerate_success_witness :
  WorkspaceView.currentStage
    (DiscoverInputPanel.deliver epoch WorkspaceView.initial
       (DiscoverInputPanel.handleGenerate idle_discover (units "an idea")
          (Js.Resolved discover_result)))
  = "define".
Proof.
  refine (proj2 (proj2 (proj2 (proj2 (handleGenerate_success idle_discover (units "an idea")
                                        discover_result (λ _, None) epoch
                                        WorkspaceView.initial) _ _ _))) _ _ _ _);
    try reflexivity.
  apply Exists_cons_hd. reflexivity.
Defined.

(** ** Toggling several suites *)

(** X28.  Toggles of the expanded suites commute: expanding or
    collapsing two suites in either order gives the same set. *)
Theorem toggleSuite_commutes {K : Type} {EqK : EqDecision K} {CountK : Countable K}
    (a b : K) (E : gset K) :
  TestStagePanel.toggleSuite a (TestStagePanel.toggleSuite b E)
  = TestStagePanel.toggleSuite b (TestStagePanel.toggleSuite a E).
Proof.
  assert (Hmem : ∀ (s : K) (F : gset K) x,
             x ∈ TestStagePanel.toggleSuite s F ↔ (x ≠ s ∧ x ∈ F) ∨ (x = s ∧ s ∉ F)).
  { intros s F x. unfold TestStagePanel.toggleSuite.
    destruct (decide (s ∈ F)) as [Hin | Hout].
    - rewrite elem_of_difference, elem_of_singleton. split.
      + intros [Hx Hne]. left. split; assumption.
      + intros [[Hne Hx] | [_ Hout]]; [split; assumption | contradiction].
    - rewrite elem_of_union, elem_of_singleton. split.
      + intros [Hx | ->].
        * left. split; [intros -> | assumption]. contradiction.
        * right. split; [reflexivity | assumption].
      + intros [[_ Hx] | [-> _]]; [left; assumption | right; reflexivity]. }
  apply set_eq. intros x. rewrite !Hmem.
  destruct (decide (x = a)) as [Hxa | Hxa]; destruct (decide (x = b)) as [Hxb | Hxb];
    destruct (decide (a = b)) as [Hab | Hab];
    destruct (decide (a ∈ E)); destruct (decide (b ∈ E));
    repeat match goal with H : _ = _ |- _ => subst end;
    intuition congruence.
Qed.

(** ** Sending a chat message *)

Lemma without_keeps (tempId : string) (prev : list AISpecialist.message) :
  Forall (λ m, ∃ id, AISpecialist.id_of m = inr id ∧ Js.is_str id tempId = false) prev →
  AISpecialist.without tempId prev = inr prev.
Proof.
  induction 1 as [| m prev (id & Hid & Hne) _ IH]; [reflexivity |].
  cbn. now rewrite Hid, IH, Hne.
Qed.

Lemma without_app (tempId : string) (l1 l2 k1 k2 : list AISpecialist.message) :
  AISpecialist.without tempId l1 = inr k1 →
  AISpecialist.without tempId l2 = inr k2 →
  AISpecialist.without tempId (l1 ++ l2) = inr (k1 ++ k2).
Proof.
  revert k1. induction l1 as [| m l1 IH]; intros k1; cbn.
  - now intros [= <-].
  - destruct (AISpecialist.id_of m) as [e | id]; [discriminate |].
    destruct (AISpecialist.without tempId l1) as [e | kept]; [discriminate |].
    intros [= <-] H2. rewrite (IH kept eq_refl H2).
    destruct (Js.is_str id tempId); reflexivity.
Qed.

(** X29.  The optimistic chat update is undone on failure: when no
    earlier message carries the temporary id, a rejected send leaves the
    message list exactly as it was before the send, shows 'Failed to send
    message' and ends the sending state; a resolved send replaces the
    temporary message by the user and assistant messages of the response,
    after the earlier ones.  (The typed text is not put back in the
    input.) *)
Theorem chat_send_rolls_back (now : Z) (iso : string) (projectId : Js.value)
    (st started : AISpecialist.state) (text : Js.ustring) :
  AISpecialist.begin now iso projectId st = Some (started, text) →
  Forall (λ m, ∃ id, AISpecialist.id_of m = inr id
                     ∧ Js.is_str id (AISpecialist.tempId now) = false)
    (AISpecialist.chatMessages st) →
  text = Js.trim (AISpecialist.chatInput st)
  ∧ AISpecialist.isSending started = true
  ∧ AISpecialist.chatInput started = []
  ∧ (∀ e, AISpecialist.finish now (Js.Rejected e) started
          = inr {| AISpecialist.chatMessages := AISpecialist.chatMessages st;
                   AISpecialist.chatInput := [];
                   AISpecialist.isSending := false;
                   AISpecialist.error := Some "Failed to send message" |})
  ∧ (∀ response user_message,
       Js.prop response "user_message" = inr user_message →
       AISpecialist.finish now (Js.Resolved response) started
       = inr {| AISpecialist.chatMessages :=
                  AISpecialist.chatMessages st
                  ++ [AISpecialist.Remote user_message;
                      AISpecialist.Remote (Js.member response "assistant_message")];
                AISpecialist.chatInput := [];
                AISpecialist.isSending := false;
                AISpecialist.error := None |}).
Proof.
  unfold AISpecialist.begin. intros Hbegin Hfresh.
  destruct (Js.trim (AISpecialist.chatInput st)) as [| c rest] eqn:Htrim; [discriminate |].
  destruct (AISpecialist.isSending st || negb (Js.truthy projectId)); [discriminate |].
  injection Hbegin as <- <-.
  assert (Hfiltered :
    AISpecialist.without (AISpecialist.tempId now)
      (AISpecialist.chatMessages st
       ++ [AISpecialist.Local (AISpecialist.tempId now) (c :: rest) iso])
    = inr (AISpecialist.chatMessages st)).
  { rewrite <- (app_nil_r (AISpecialist.chatMessages st)) at 2.
    apply without_app; [now apply without_keeps |].
    cbn. unfold Js.is_str. now rewrite String.eqb_refl. }
  repeat split.
  - intros e. unfold AISpecialist.finish. cbn [AISpecialist.chatMessages].
    now rewrite Hfiltered.
  - intros response user_message Hum. unfold AISpecialist.finish.
    cbn [AISpecialist.chatMessages]. now rewrite Hfiltered, Hum.
Qed.

(** Witness of X29: a first message in an empty chat. *)
Lemma chat_send_rolls_back_witness :
  AISpecialist.finish 1700000000000 (Js.Rejected (Js.Error "Error" "HTTP error! status: 500"))
    {| AISpecialist.chatMessages :=
         [AISpecialist.Local (AISpecialist.tempId 1700000000000) (units "hello")
            "2023-11-14T22:13:20.000Z"];
       AISpecialist.chatInput := [];
       AISpecialist.isSending := true;
       AISpecialist.error := None |}
  = inr {| AISpecialist.chatMessages := [];
           AISpecialist.chatInput := [];
           AISpecialist.isSending := false;
           AISpecialist.error := Some "Failed to send message" |}.
Proof.
  refine (proj1 (proj2 (proj2 (proj2
            (chat_send_rolls_back 1700000000000 "2023-11-14T22:13:20.000Z" (Js.Str "p1")
               {| AISpecialist.chatMessages := [];
                  AISpecialist.chatInput := units " hello ";
                  AISpecialist.isSending := false;
                  AISpecialist.error := None |}
               _ (units "hello") _ _)))) _).
  - reflexivity.
  - constructor.
Defined.

(** ** Loading the test data *)

Lemma guarded_calls (flag : Js.error + Js.value) (call : TestStageLoading.effect)
    (reply : Js.outcome) (store : Js.value → TestStageLoading.effect) :
  TestStageLoading.is_call call = true →
  (∀ v, TestStageLoading.is_call (store v) = false) →
  List.filter TestStageLoading.is_call (fst (TestStageLoading.guarded flag call reply store))
  = match flag with
    | inr present => if Js.truthy present then [call] else []
    | inl _ => []
    end.
Proof.
  intros Hcall Hstore. unfold TestStageLoading.guarded.
  destruct flag as [e | present]; [reflexivity |].
  destruct (Js.truthy present); [| reflexivity].
  destruct reply as [result | e]; cbn; rewrite ?Hcall; [| reflexivity].
  destruct (Js.prop result "status") as [e | st]; cbn; rewrite ?Hcall; [reflexivity |].
  destruct (Js.is_str st "success"); cbn; rewrite ?Hcall, ?Hstore; reflexivity.
Qed.

(** The requests of a load, in order. *)
Lemma loadData_calls (projectId : Js.value) (r : TestStageLoading.replies) :
  List.filter TestStageLoading.is_call (TestStageLoading.loadData projectId r)
  = TestStageLoading.CallGetTestDashboard projectId ::
    match TestStageLoading.dashboard r with
    | Js.Rejected _ => []
    | Js.Resolved d =>
        (match Js.prop d "has_test_plan" with
         | inr present =>
             if Js.truthy present then [TestStageLoading.CallGetTestPlan projectId] else []
         | inl _ => []
         end)
        ++ (if snd (TestStageLoading.guarded (Js.prop d "has_test_plan")
                      (TestStageLoading.CallGetTestPlan projectId)
                      (TestStageLoading.plan r)
                      (λ planResult,
                         TestStageLoading.SetTestPlan (Js.member planResult "test_plan")))
            then match Js.prop d "has_test_cases" with
                 | inr present =>
                     if Js.truthy present
                     then [TestStageLoading.CallGetTestCases projectId] else []
                 | inl _ => []
                 end
            else [])
    end.
Proof.
  unfold TestStageLoading.loadData.
  destruct (TestStageLoading.dashboard r) as [d | e]; [| reflexivity].
  pose proof (guarded_calls (Js.prop d "has_test_plan")
                (TestStageLoading.CallGetTestPlan projectId) (TestStageLoading.plan r)
                (λ planResult,
                   TestStageLoading.SetTestPlan (Js.member planResult "test_plan"))
                eq_refl (λ _, eq_refl)) as Hplan.
  pose proof (guarded_calls (Js.prop d "has_test_cases")
                (TestStageLoading.CallGetTestCases projectId) (TestStageLoading.cases r)
                TestStageLoading.SetTestCases eq_refl (λ _, eq_refl)) as Hcases.
  destruct (TestStageLoading.guarded (Js.prop d "has_test_plan") _ _ _)
    as [planned goes_on].
  destruct (TestStageLoading.guarded (Js.prop d "has_test_cases") _ _ _)
    as [cased done].
  cbn [fst snd] in *. cbn [app List.filter TestStageLoading.is_call].
  f_equal. rewrite !List.filter_app, Hplan.
  change (List.filter TestStageLoading.is_call [TestStageLoading.SetIsLoading false])
    with (@nil TestStageLoading.effect).
  rewrite app_nil_r. f_equal.
  destruct goes_on; [| reflexivity].
  rewrite List.filter_app, Hcases. destruct done; cbn; now rewrite app_nil_r.
Qed.

(** X30.  [loadData] always ends by clearing the loading flag.  It asks
    for the dashboard first; if that request rejects, nothing else is
    asked.  The plan is asked for only when the dashboard has a test
    plan, and when the plan request rejects the test cases are not asked
    for, even if the dashboard has them. *)
Theorem loadData_requests (projectId : Js.value) (r : TestStageLoading.replies) :
  let effects := TestStageLoading.loadData projectId r in
  last effects = Some (TestStageLoading.SetIsLoading false)
  ∧ (∀ e, TestStageLoading.dashboard r = Js.Rejected e →
          List.filter TestStageLoading.is_call effects
          = [TestStageLoading.CallGetTestDashboard projectId])
  ∧ (In (TestStageLoading.CallGetTestPlan projectId) effects →
     ∃ d, TestStageLoading.dashboard r = Js.Resolved d
          ∧ Js.truthy (Js.member d "has_test_plan") = true)
  ∧ (∀ d e, TestStageLoading.dashboard r = Js.Resolved d →
            Js.truthy (Js.member d "has_test_plan") = true →
            TestStageLoading.plan r = Js.Rejected e →
            List.filter TestStageLoading.is_call effects
            = [TestStageLoading.CallGetTestDashboard projectId;
               TestStageLoading.CallGetTestPlan projectId]).
Proof.
  cbn zeta. split; [| split; [| split]].
  - unfold TestStageLoading.loadData.
    rewrite (app_assoc _ _ [TestStageLoading.SetIsLoading false]). apply last_snoc.
  - intros e He. rewrite loadData_calls, He. reflexivity.
  - intros Hin.
    assert (Hcall : In (TestStageLoading.CallGetTestPlan projectId)
                      (List.filter TestStageLoading.is_call
                         (TestStageLoading.loadData projectId r))).
    { apply filter_In. split; [exact Hin | reflexivity]. }
    rewrite loadData_calls in Hcall.
    destruct Hcall as [Hbad | Hcall]; [discriminate Hbad |].
    destruct (TestStageLoading.dashboard r) as [d | e]; [| contradiction].
    exists d. split; [reflexivity |].
    apply in_app_or in Hcall as [Hcall | Hcall].
    + destruct (Js.prop d "has_test_plan") as [? | present] eqn:Hp; [contradiction |].
      assert (present = Js.member d "has_test_plan") as ->.
      { destruct d; cbn in Hp; (discriminate Hp || (injection Hp as <-; reflexivity)). }
      destruct (Js.truthy (Js.member d "has_test_plan")); [reflexivity | contradiction].
    + exfalso. destruct (snd _); [| contradiction].
      destruct (Js.prop d "has_test_cases") as [? | present]; [contradiction |].
      destruct (Js.truthy present); [| contradiction].
      destruct Hcall as [Hbad | []]. discriminate Hbad.
  - intros d e Hd Hplan He. rewrite loadData_calls, Hd.
    assert (Hprop : Js.prop d "has_test_plan" = inr (Js.member d "has_test_plan")).
    { destruct d; cbn in Hplan; (discriminate Hplan || reflexivity). }
    rewrite Hprop, Hplan. unfold TestStageLoading.guarded. rewrite Hplan, He. reflexivity.
Qed.

(** Witness of X30: the plan request fails. *)
Lemma loadData_requests_witness :
  List.filter TestStageLoading.is_call
    (TestStageLoading.loadData (Js.Str "p1")
       {| TestStageLoading.dashboard :=
            Js.Resolved (Js.Obj [("has_test_plan", Js.Bool true);
                                 ("has_test_cases", Js.Bool true)]);
          TestStageLoading.plan := Js.Rejected (Js.Error "Error" "HTTP error! status: 500");
          TestStageLoading.cases := Js.Resolved (Js.Obj [("status", Js.Str "success")]) |})
  = [TestStageLoading.CallGetTestDashboard (Js.Str "p1");
     TestStageLoading.CallGetTestPlan (Js.Str "p1")].
Proof.
  refine (proj2 (proj2 (proj2 (loadData_requests (Js.Str "p1") _)))
            (Js.Obj [("has_test_plan", Js.Bool true); ("has_test_cases", Js.Bool true)])
            (Js.Error "Error" "HTTP error! status: 500") _ _ _);
    reflexivity.
Defined.
